(** * furia_bot_mvp: progression accounting, survey aggregation and
      social-content ingestion

    A shallow embedding of the logic of
    - [src/models/user.py]            ([UserModel.add_xp]),
    - [src/services/user_service.py]  ([UserService.update_user_xp]),
    - [src/services/survey_service.py] ([SurveyService.get_survey_results]),
    - [src/services/players_service.py] and [src/services/news_service.py]
      ([PlayerService.get_twitter_handle], [NewsService.fetch_team_tweets],
       [NewsService.fetch_player_tweets]),
    followed by the properties the specification states about them.

    Conventions.  Python [int] is [Z].  A MongoDB collection is the list of
    its documents in insertion order; [find_one] and [update_one] act on the
    first document that matches the filter.  [datetime.utcnow()] readings are
    passed in as arguments.  A Python [dict] used as a map is a [gmap].
    Exceptions are values of [exn] carried by [result]. *)

From Stdlib Require Import ZArith List String Ascii QArith Lia.
From stdpp Require Import base option list gmap strings numbers pretty sorting.

Local Open Scope string_scope.
Local Open Scope Z_scope.

(* ===================================================================== *)
(** * Python runtime: exceptions and results                              *)
(* ===================================================================== *)

Module Py.

(** The exception classes the modelled code raises or catches. *)
Inductive exn : Type :=
| ValueError (msg : string)
| TypeError (msg : string)
| KeyError (key : string)
| OverflowError (msg : string)
| ZeroDivisionError (msg : string)
| RequestException (msg : string).

(** [str(e)] as used by the [%s] of the logging calls; [KeyError] shows the
    repr of its key. *)
Definition exn_str (e : exn) : string :=
  match e with
  | ValueError m => m
  | TypeError m => m
  | KeyError k => "'" ++ k ++ "'"
  | OverflowError m => m
  | ZeroDivisionError m => m
  | RequestException m => m
  end.

Inductive result (A : Type) : Type :=
| Ok (a : A)
| Raise (e : exn).
Global Arguments Ok {A} a.
Global Arguments Raise {A} e.

Definition bind {A B : Type} (r : result A) (k : A -> result B) : result B :=
  match r with
  | Ok a => k a
  | Raise e => Raise e
  end.

(** [d[key]] on a field that may be missing. *)
Definition subscript {A : Type} (key : string) (field : option A) : result A :=
  match field with
  | Some a => Ok a
  | None => Raise (KeyError key)
  end.

(** A [float]: the finite double [m * 2^e], an infinity or a NaN. *)
Inductive float : Type :=
| Finite (m e : Z)
| Infinity (negative : bool)
| NaN.

(** The integer part of [m * 2^e], rounded towards zero. *)
Definition trunc (m e : Z) : Z :=
  if 0 <=? e then m * 2 ^ e else Z.quot m (2 ^ (- e)).

(** [int(f)] for a [float]. *)
Definition int_of_float (f : float) : result Z :=
  match f with
  | Finite m e => Ok (trunc m e)
  | Infinity _ => Raise (OverflowError "cannot convert float infinity to integer")
  | NaN => Raise (ValueError "cannot convert float NaN to integer")
  end.

(** [n / d] rounded to the nearest integer, ties to the even one
    ([0 <= n], [0 < d]). *)
Definition round_half_even (n d : Z) : Z :=
  let q := n / d in
  let r := n mod d in
  if 2 * r <? d then q
  else if d <? 2 * r then q + 1
  else if Z.even q then q else q + 1.

(** [floor(log2(n / b))] for [0 < n] and [0 < b]. *)
Definition log2_quot (n b : Z) : Z :=
  let d := Z.log2 n - Z.log2 b in
  if (if 0 <=? d then b * 2 ^ d <=? n else b <=? n * 2 ^ (- d)) then d else d - 1.

(** The rational [m * 2^t]. *)
Definition scaled (m t : Z) : Q :=
  if 0 <=? t then inject_Z (m * 2 ^ t) else Qmake m (Z.to_pos (2 ^ (- t))).

(** The quotient [a / b] of two integers ([0 < b]) rounded as IEEE 754
    rounds to binary64 without a bound on the exponent: to 53 significant
    bits, or to a multiple of [2^-1074] where that is coarser, ties to even.
    The result is [m * 2^t], given as the pair [(m, t)]. *)
Definition round_binary64 (a b : Z) : Z * Z :=
  if a =? 0 then (0, 0)
  else
    let n := Z.abs a in
    let t := Z.max (log2_quot n b - 52) (- 1074) in
    let m := if 0 <=? t then round_half_even n (b * 2 ^ t)
             else round_half_even (n * 2 ^ (- t)) b in
    (Z.sgn a * m, t).

(** [a / b] on two [int]s: the double nearest to the exact quotient, given as
    the rational it denotes.  A quotient that rounds to [2^1024] or beyond
    has no double. *)
Definition true_divide (a b : Z) : result Q :=
  if b =? 0 then Raise (ZeroDivisionError "division by zero")
  else
    let a' := Z.sgn b * a in
    let '(m, t) := round_binary64 a' (Z.abs b) in
    if (0 <=? t) && (2 ^ 1024 <=? Z.abs m * 2 ^ t)
    then Raise (OverflowError "integer division result too large for a float")
    else Ok (scaled m t).

End Py.

Global Instance result_bind : MBind Py.result := λ A B k r, Py.bind r k.
Global Instance result_ret : MRet Py.result := @Py.Ok.

(* ===================================================================== *)
(** * MongoDB collections                                                 *)
(* ===================================================================== *)

Module Mongo.
Section Collection.
Context {D : Type}.

(** [collection.find_one(filter)]. *)
Definition find_one (q : D -> bool) (col : list D) : option D :=
  List.find q col.

(** [collection.update_one(filter, update)]: the first match is rewritten,
    nothing happens without a match. *)
Fixpoint update_one (q : D -> bool) (f : D -> D) (col : list D) : list D :=
  match col with
  | [] => []
  | d :: rest => if q d then f d :: rest else d :: update_one q f rest
  end.

(** [collection.insert_one(doc)]. *)
Definition insert_one (d : D) (col : list D) : list D := col ++ [d].

(** [collection.update_one(filter, {"$setOnInsert": doc}, upsert=True)]:
    on a match the update has no operator that applies, so the matched
    document is rewritten to itself; without a match [doc] (which repeats
    the equality fields of the filter) is inserted. *)
Definition upsert_set_on_insert (q : D -> bool) (doc : D) (col : list D) : list D :=
  if existsb q col then update_one q (fun d => d) col else insert_one doc col.

(** Number of documents matching a filter ([count_documents]). *)
Definition count_documents (q : D -> bool) (col : list D) : nat :=
  length (List.filter q col).

End Collection.
End Mongo.

(* ===================================================================== *)
(** * Descending order                                                    *)
(* ===================================================================== *)

Module Desc.
Section Sort.
Context {A : Type}.
Variable key_lt : A -> A -> bool.

(** [a] goes in front of the first element whose key is not above its own,
    so it stays ahead of the later elements with an equal key. *)
Fixpoint insert_desc (a : A) (l : list A) : list A :=
  match l with
  | [] => [a]
  | b :: rest => if key_lt a b then b :: insert_desc a rest else a :: l
  end.

(** [sorted(l, key=..., reverse=True)]: the stable sort by decreasing key
    (elements with equal keys keep their order).  For a cursor
    [.sort(field, -1)] it is one of the orders the server may return; the
    order among equal keys is the only freedom. *)
Definition sort_desc (l : list A) : list A := fold_right insert_desc [] l.

End Sort.
End Desc.

(* ===================================================================== *)
(** * Progression policy (a): [UserModel.add_xp]                          *)
(* ===================================================================== *)

Module UserModel.

Record engagement_metrics : Type := {
  mission_completions : Z;
  survey_completions : Z;
  social_shares : Z;
  bot_interactions : Z
}.

Record user : Type := {
  telegram_id : Z;
  username : string;
  xp : Z;
  level : Z;
  missions_completed : list string;
  surveys_completed : list string;
  social_connections : gmap string string;
  demographics : gmap string string;
  metrics : engagement_metrics;
  preferences : gmap string string;
  last_active : Z;
  created_at : Z;
  updated_at : Z
}.

(** The document written by [create_user]. *)
Definition new_user (now : Z) (tid : Z) (name : string) : user :=
  {| telegram_id := tid; username := name; xp := 0; level := 1;
     missions_completed := []; surveys_completed := [];
     social_connections := ∅; demographics := ∅;
     metrics := {| mission_completions := 0; survey_completions := 0;
                   social_shares := 0; bot_interactions := 1 |};
     preferences := ∅;
     last_active := now; created_at := now; updated_at := now |}.

Definition create_user (now : Z) (tid : Z) (name : string) (col : list user) : list user :=
  Mongo.insert_one (new_user now tid name) col.

Definition by_telegram_id (tid : Z) (u : user) : bool := telegram_id u =? tid.

Definition get_user (tid : Z) (col : list user) : option user :=
  Mongo.find_one (by_telegram_id tid) col.

(** [{"$set": {"xp":…, "level":…, "last_active":…, "updated_at":…}}]. *)
Definition set_progress (new_xp new_level active updated : Z) (u : user) : user :=
  {| telegram_id := telegram_id u; username := username u;
     xp := new_xp; level := new_level;
     missions_completed := missions_completed u;
     surveys_completed := surveys_completed u;
     social_connections := social_connections u;
     demographics := demographics u;
     metrics := metrics u;
     preferences := preferences u;
     last_active := active; created_at := created_at u;
     updated_at := updated |}.

(** [{"$inc": {"engagement_metrics.bot_interactions": 1}}]. *)
Definition inc_bot_interactions (u : user) : user :=
  {| telegram_id := telegram_id u; username := username u;
     xp := xp u; level := level u;
     missions_completed := missions_completed u;
     surveys_completed := surveys_completed u;
     social_connections := social_connections u;
     demographics := demographics u;
     metrics := {| mission_completions := mission_completions (metrics u);
                   survey_completions := survey_completions (metrics u);
                   social_shares := social_shares (metrics u);
                   bot_interactions := bot_interactions (metrics u) + 1 |};
     preferences := preferences u;
     last_active := last_active u; created_at := created_at u;
     updated_at := updated_at u |}.

(** Largest [k] in [0..n] with [k^5 * 100^4 <= x^4], searched downwards. *)
Fixpoint pow08_search (n : nat) (x : Z) : Z :=
  match n with
  | O => 0
  | S n' => if Z.of_nat n ^ 5 * 100 ^ 4 <=? x ^ 4 then Z.of_nat n
            else pow08_search n' x
  end.

(** [int((x / 100) ** 0.8)] for [0 <= x], computed on the reals:
    [k <= (x/100)^(4/5)] exactly when [k^5 * 100^4 <= x^4], and the value is
    at most [x/100].  Python evaluates the expression on IEEE doubles, and
    the power within the accuracy of the platform's [pow]: the result is
    this one as long as [(x/100)^0.8] is not within rounding distance below
    an integer, which first happens at [x = 4246028977] (the double is then
    the integer 1265862 itself, one more than the floor).  A statement that
    depends on the value of the level is therefore made for experience
    below [2^31]. *)
Definition pow08_floor (x : Z) : Z := pow08_search (Z.to_nat (x / 100)) x.

(** [1 + int((new_xp / 100) ** 0.8)].  A negative base makes [**] return a
    [complex], which [int] rejects. *)
Definition level_for_xp (new_xp : Z) : Py.result Z :=
  if new_xp <? 0
  then Py.Raise (Py.TypeError "int() argument must be a string, a bytes-like object or a real number, not 'complex'")
  else Py.Ok (1 + pow08_floor new_xp).

(** The dictionary returned by [add_xp]. *)
Record xp_result : Type := {
  current_xp : Z;
  new_level : Z;
  level_up : bool;
  previous_level : option Z
}.

Definition not_found_msg (tid : Z) : string :=
  "Usuário " ++ pretty tid ++ " não encontrado".

(** [UserModel.add_xp].  [now_active] and [now_updated] are the two
    [datetime.utcnow()] readings (in [add_xp] and in [update_user]). *)
Definition add_xp (now_active now_updated : Z) (tid xp_amount : Z) (col : list user)
  : Py.result (xp_result * list user) :=
  match get_user tid col with
  | None => Py.Raise (Py.ValueError (not_found_msg tid))
  | Some u =>
      let current := xp u in
      let new_xp := current + xp_amount in
      lvl ← level_for_xp new_xp;
      let up := level u <? lvl in
      let col1 := Mongo.update_one (by_telegram_id tid)
                    (set_progress new_xp lvl now_active now_updated) col in
      let col2 := Mongo.update_one (by_telegram_id tid) inc_bot_interactions col1 in
      Py.Ok ({| current_xp := new_xp; new_level := lvl; level_up := up;
                previous_level := if up then Some (level u) else None |},
             col2)
  end.

(** [UserModel.get_or_create_user]: the user returned and the collection
    left behind. *)
Definition get_or_create_user (now : Z) (tid : Z) (name : string) (col : list user)
  : option user * list user :=
  match get_user tid col with
  | Some u => (Some u, col)
  | None =>
      let col' := create_user now tid name col in
      (get_user tid col', col')
  end.

End UserModel.

(* ===================================================================== *)
(** * Progression policy (b): [UserService.update_user_xp]                *)
(* ===================================================================== *)

Module UserService.

Record engagement_metrics : Type := {
  bot_interactions : Z;
  mission_completions : Z;
  survey_completions : Z;
  social_shares : Z
}.

Record user : Type := {
  user_id : Z;
  username : string;
  level : Z;
  xp : Z;
  xp_to_next_level : Z;
  missions_completed : Z;
  surveys_completed : Z;
  connected_platforms : list string;
  member_since : Z;
  last_interaction : Z;
  metrics : engagement_metrics
}.

Definition new_user (now : Z) (uid : Z) (name : string) : user :=
  {| user_id := uid; username := name; level := 1; xp := 0;
     xp_to_next_level := 100;
     missions_completed := 0; surveys_completed := 0;
     connected_platforms := [];
     member_since := now; last_interaction := now;
     metrics := {| bot_interactions := 0; mission_completions := 0;
                   survey_completions := 0; social_shares := 0 |} |}.

Definition create_user (now : Z) (uid : Z) (name : string) (col : list user)
  : user * list user :=
  (new_user now uid name, Mongo.insert_one (new_user now uid name) col).

Definition by_user_id (uid : Z) (u : user) : bool := user_id u =? uid.

Definition get_user_profile (uid : Z) (col : list user) : option user :=
  Mongo.find_one (by_user_id uid) col.

(** [int(xp_to_next * 1.5)] where the product is exact on doubles, that is
    for [3 * |n| < 2^53]: [int] truncates towards zero.  Beyond, the double
    product is rounded first (at 3002399751580333 to 4503599627370500, not
    ...499); a statement that depends on the value of a threshold is
    therefore made for thresholds below [2^51]. *)
Definition grow_threshold (n : Z) : Z := Z.quot (n * 3) 2.

(** The [while new_xp >= xp_to_next] loop on the triple
    [(new_xp, new_level, xp_to_next)].  [None]: the fuel ran out before the
    loop condition became false. *)
Fixpoint level_up_loop (fuel : nat) (new_xp new_level xp_to_next : Z)
  : option (Z * Z * Z) :=
  if xp_to_next <=? new_xp then
    match fuel with
    | O => None
    | S fuel' =>
        level_up_loop fuel' (new_xp - xp_to_next) (new_level + 1)
                      (grow_threshold xp_to_next)
    end
  else Some (new_xp, new_level, xp_to_next).

(** [{"$set": {"xp":…, "level":…, "xp_to_next_level":…, "last_interaction":…}}]. *)
Definition set_progress (new_xp new_level xp_to_next now : Z) (u : user) : user :=
  {| user_id := user_id u; username := username u;
     level := new_level; xp := new_xp; xp_to_next_level := xp_to_next;
     missions_completed := missions_completed u;
     surveys_completed := surveys_completed u;
     connected_platforms := connected_platforms u;
     member_since := member_since u; last_interaction := now;
     metrics := metrics u |}.

(** [UserService.update_user_xp]: the outer [option] is the fuel of the
    loop, the inner one the returned [Optional] profile. *)
Definition update_user_xp (fuel : nat) (now : Z) (uid xp_gained : Z) (col : list user)
  : option (option user * list user) :=
  match get_user_profile uid col with
  | None => Some (None, col)
  | Some u =>
      match level_up_loop fuel (xp u + xp_gained) (level u) (xp_to_next_level u) with
      | None => None
      | Some (new_xp, new_level, xp_to_next) =>
          let col' := Mongo.update_one (by_user_id uid)
                        (set_progress new_xp new_level xp_to_next now) col in
          Some (get_user_profile uid col', col')
      end
  end.

(** [{"$inc": {"engagement_metrics.<metric>": 1}}] for the four counters the
    documents carry. *)
Definition inc_metric (metric : string) (m : engagement_metrics) : engagement_metrics :=
  {| bot_interactions := bot_interactions m + (if String.eqb metric "bot_interactions" then 1 else 0);
     mission_completions := mission_completions m + (if String.eqb metric "mission_completions" then 1 else 0);
     survey_completions := survey_completions m + (if String.eqb metric "survey_completions" then 1 else 0);
     social_shares := social_shares m + (if String.eqb metric "social_shares" then 1 else 0) |}.

(** [UserService.update_engagement_metric], the only place where this
    service touches the engagement counters. *)
Definition update_engagement_metric (now : Z) (uid : Z) (metric : string) (col : list user)
  : list user :=
  Mongo.update_one (by_user_id uid)
    (fun u => {| user_id := user_id u; username := username u;
                 level := level u; xp := xp u;
                 xp_to_next_level := xp_to_next_level u;
                 missions_completed := missions_completed u;
                 surveys_completed := surveys_completed u;
                 connected_platforms := connected_platforms u;
                 member_since := member_since u; last_interaction := now;
                 metrics := inc_metric metric (metrics u) |}) col.

(** [UserService.get_users_by_level]: [find({"level": {"$gte": min_level}})]. *)
Definition get_users_by_level (min_level : Z) (col : list user) : list user :=
  List.filter (fun u => min_level <=? level u) col.

(** The sort key [(x["level"], x["xp"])] of the ranking, compared as Python
    compares tuples. *)
Definition rank_lt (a b : user) : bool :=
  (level a <? level b) || ((level a =? level b) && (xp a <? xp b)).

(** The experience spent by [k] level-ups in a row from threshold [n]. *)
Fixpoint spent (k : nat) (n : Z) : Z :=
  match k with
  | O => 0
  | S k' => n + spent k' (grow_threshold n)
  end.

End UserService.

(* ===================================================================== *)
(** * The ranking of the profile handler                                  *)
(* ===================================================================== *)

Module ProfileHandler.

(** The users shown by the [show_ranking] action of [update_profile]:
    [sorted(get_users_by_level(min_level=1), key=..., reverse=True)[:10]]. *)
Definition top_users (col : list UserService.user) : list UserService.user :=
  take 10 (Desc.sort_desc UserService.rank_lt (UserService.get_users_by_level 1 col)).

End ProfileHandler.

(* ===================================================================== *)
(** * Survey aggregation: [SurveyService.get_survey_results]              *)
(* ===================================================================== *)

Module Survey.

(** Answers as the data model has them: a scalar or a list of scalars.
    Every scalar is hashable, so the membership tests of the tally never
    meet an unhashable value.  A [str] is given by its characters where it
    is ASCII, and by its UTF-8 bytes otherwise. *)
Inductive scalar : Type :=
| SNone
| SBool (b : bool)
| SInt (z : Z)
| SFloat (f : Py.float)
| SStr (s : string).

Inductive answer : Type :=
| AScalar (v : scalar)
| AList (items : list scalar).

(** A question definition; [options] is absent when the key is. *)
Record question_def : Type := {
  text : string;
  type : string;
  options : option (list string)
}.

Record survey : Type := {
  _id : string;
  title : string;
  description : string;
  questions : list question_def;
  category : string;
  min_level : Z;
  active : bool;
  responses_count : Z;
  created_at : Z;
  updated_at : Z
}.

Record response : Type := {
  survey_id : string;
  user_id : Z;
  responses : gmap string answer;
  response_created_at : Z
}.

(** One entry of [results["questions"]]; a key that is not set is [None]. *)
Record question_results : Type := {
  question : string;
  result_type : string;
  option_counts : option (gmap string Z);
  text_answers : option (list answer);
  average : option Q;
  min : option Z;
  max : option Z;
  distribution : option (gmap Z Z)
}.

Inductive results : Type :=
| NotFound (error : string)
| Aggregated (survey_title : string) (total_responses : nat)
             (per_question : list question_results).

(** [response["responses"].get(str(i))]: an absent answer reads as [None]. *)
Definition answer_at (i : nat) (r : response) : answer :=
  default (AScalar SNone) (responses r !! pretty i).

(** [{option: 0 for option in options}]. *)
Definition zero_counts (opts : list string) : gmap string Z :=
  fold_left (fun m o => <[o := 0]> m) opts ∅.

(** [if selected in option_counts: option_counts[selected] += 1].  The keys
    are strings, so [None], booleans and numbers are never members. *)
Definition tally_value (counts : gmap string Z) (v : scalar) : gmap string Z :=
  match v with
  | SStr s =>
      match counts !! s with
      | Some n => <[s := n + 1]> counts
      | None => counts
      end
  | _ => counts
  end.

(** The body of [for response in responses] for a choice question. *)
Definition tally_answer (counts : gmap string Z) (a : answer) : gmap string Z :=
  match a with
  | AList items => fold_left tally_value items counts
  | AScalar v => tally_value counts v
  end.

(** Python truth value, as tested by [if answer:]. *)
Definition truthy (a : answer) : bool :=
  match a with
  | AScalar SNone => false
  | AScalar (SBool b) => b
  | AScalar (SInt z) => negb (z =? 0)
  | AScalar (SFloat (Py.Finite m _)) => negb (m =? 0)
  | AScalar (SFloat _) => true
  | AScalar (SStr s) => negb (String.eqb s "")
  | AList items => match items with [] => false | _ => true end
  end.

(** The white space [int] skips around an ASCII literal: tab, line feed,
    vertical tab, form feed, carriage return and space. *)
Definition is_space (c : ascii) : bool :=
  let n := nat_of_ascii c in
  ((9 <=? n) && (n <=? 13) || (n =? 32))%nat.

Definition digit_value (c : ascii) : option Z :=
  let n := Z.of_nat (nat_of_ascii c) in
  if (48 <=? n) && (n <=? 57) then Some (n - 48) else None.

(** Decimal digits, single underscores allowed between two digits. *)
Fixpoint parse_digits (acc : Z) (after_digit : bool) (s : list ascii) : option Z :=
  match s with
  | [] => if after_digit then Some acc else None
  | c :: rest =>
      match digit_value c with
      | Some d => parse_digits (acc * 10 + d) true rest
      | None =>
          if Ascii.eqb c "_" && after_digit then parse_digits acc false rest
          else None
      end
  end.

Fixpoint lstrip (s : list ascii) : list ascii :=
  match s with
  | c :: rest => if is_space c then lstrip rest else s
  | [] => []
  end.

Definition strip (s : list ascii) : list ascii :=
  rev (lstrip (rev (lstrip s))).

(** [int(s)] for an ASCII [str] below the interpreter's limit on the number
    of digits (4300 where there is one): surrounding white space, an
    optional sign, a decimal literal.  [None] stands for [ValueError].  A
    [str] with other characters can still be accepted by [int], when they
    are Unicode decimal digits or spaces; here every such string is
    rejected, so the statements about text answers are made for ASCII
    ones. *)
Definition int_of_str (s : string) : option Z :=
  match strip (list_ascii_of_string s) with
  | c :: rest =>
      if Ascii.eqb c "-" then Z.opp <$> parse_digits 0 false rest
      else if Ascii.eqb c "+" then parse_digits 0 false rest
      else parse_digits 0 false (c :: rest)
  | [] => None
  end.

(** The value that [if answer is not None: try: int(answer) except
    (ValueError, TypeError): pass] appends to [scale_answers], if any.  A
    list makes [int] raise [TypeError], a NaN [ValueError].  An infinity
    makes it raise [OverflowError], which the [except] clause does not
    catch: nothing is appended and the method is left, see
    [SurveyService.scale_answers]. *)
Definition scale_value (a : answer) : option Z :=
  match a with
  | AScalar SNone => None
  | AScalar (SBool b) => Some (if b then 1 else 0)
  | AScalar (SInt z) => Some z
  | AScalar (SFloat (Py.Finite m e)) => Some (Py.trunc m e)
  | AScalar (SFloat _) => None
  | AScalar (SStr s) => int_of_str s
  | AList _ => None
  end.

(** The value of [sum(scale_answers) / len(scale_answers)] when the division
    returns: the double nearest to the exact quotient, as the rational it
    denotes.  [SurveyService.question_result] has the division itself, which
    raises [OverflowError] when the quotient is beyond the doubles. *)
Definition mean (l : list Z) : Q :=
  let '(m, t) := Py.round_binary64 (fold_left Z.add l 0) (Z.of_nat (length l)) in
  Py.scaled m t.

(** [min(l)] and [max(l)] of a non-empty list. *)
Definition list_min (x : Z) (l : list Z) : Z := fold_left Z.min l x.
Definition list_max (x : Z) (l : list Z) : Z := fold_left Z.max l x.

(** [d[value] = d.get(value, 0) + 1] over the coerced answers. *)
Definition histogram (l : list Z) : gmap Z Z :=
  fold_left (fun d v => <[v := default 0 (d !! v) + 1]> d) l ∅.

Definition base_results (q : question_def) : question_results :=
  {| question := text q; result_type := type q;
     option_counts := None; text_answers := None;
     average := None; min := None; max := None; distribution := None |}.

(** The entry that the body of
    [for i, question in enumerate(survey["questions"])] appends. *)
Definition question_result (rs : list response) (i : nat) (q : question_def)
  : question_results :=
  let base := base_results q in
  if String.eqb (type q) "multiple_choice" || String.eqb (type q) "single_choice" then
    let counts := fold_left (fun c r => tally_answer c (answer_at i r)) rs
                            (zero_counts (default [] (options q))) in
    {| question := question base; result_type := result_type base;
       option_counts := Some counts; text_answers := None;
       average := None; min := None; max := None; distribution := None |}
  else if String.eqb (type q) "text" then
    {| question := question base; result_type := result_type base;
       option_counts := None;
       text_answers := Some (List.filter truthy (map (answer_at i) rs));
       average := None; min := None; max := None; distribution := None |}
  else if String.eqb (type q) "scale" then
    match omap (fun r => scale_value (answer_at i r)) rs with
    | [] => base
    | x :: l =>
        {| question := question base; result_type := result_type base;
           option_counts := None; text_answers := None;
           average := Some (mean (x :: l));
           min := Some (list_min x l); max := Some (list_max x l);
           distribution := Some (histogram (x :: l)) |}
    end
  else base.

Definition by_id (sid : string) (s : survey) : bool := String.eqb (_id s) sid.
Definition for_survey (sid : string) (r : response) : bool :=
  String.eqb (survey_id r) sid.

(** The dictionary [SurveyService.get_survey_results] builds and returns
    over the [surveys] and [survey_responses] collections; [sid] is the hex
    form of the ObjectId.  The method returns it unless a scale question
    makes [int(answer)] or the division of the average raise
    [OverflowError]: [SurveyService.get_survey_results] below is the method
    with that exception. *)
Definition get_survey_results (sid : string) (surveys : list survey)
           (survey_responses : list response) : results :=
  match Mongo.find_one (by_id sid) surveys with
  | None => NotFound "Pesquisa não encontrada"
  | Some s =>
      let rs := List.filter (for_survey sid) survey_responses in
      Aggregated (title s) (length rs) (imap (question_result rs) (questions s))
  end.

(** The tally as the specification words it: how often option [o] was
    chosen by one answer. *)
Definition chosen (o : string) (v : scalar) : Z :=
  match v with
  | SStr s => if String.eqb s o then 1 else 0
  | _ => 0
  end.

Definition votes (o : string) (a : answer) : Z :=
  match a with
  | AList items => fold_right (fun v n => chosen o v + n) 0 items
  | AScalar v => chosen o v
  end.

Definition total_votes (o : string) (answers : list answer) : Z :=
  fold_right (fun a n => votes o a + n) 0 answers.

(** [SurveyService.create_survey]; [new_id] is the ObjectId the insert
    assigns, returned as its hex string. *)
Definition create_survey (now : Z) (new_id : string) (a_title a_description : string)
           (some_questions : list question_def) (a_category : string) (level : Z)
           (surveys : list survey) : string * list survey :=
  (new_id,
   Mongo.insert_one
     {| _id := new_id; title := a_title; description := a_description;
        questions := some_questions; category := a_category; min_level := level;
        active := true; responses_count := 0;
        created_at := now; updated_at := now |} surveys).

(** [SurveyService.get_survey]. *)
Definition get_survey (sid : string) (surveys : list survey) : option survey :=
  Mongo.find_one (by_id sid) surveys.

(** [SurveyService.get_active_surveys]:
    [find({"active": True, "requirements.min_level": {"$lte": user_level}})]. *)
Definition get_active_surveys (user_level : Z) (surveys : list survey) : list survey :=
  List.filter (fun s => active s && (min_level s <=? user_level)) surveys.

(** [{"$inc": {"responses_count": 1}}]. *)
Definition inc_responses_count (s : survey) : survey :=
  {| _id := _id s; title := title s; description := description s;
     questions := questions s; category := category s; min_level := min_level s;
     active := active s; responses_count := responses_count s + 1;
     created_at := created_at s; updated_at := updated_at s |}.

(** [SurveyService.record_survey_response]: the response is inserted, then
    the counter of the survey, if there is one, is incremented. *)
Definition record_survey_response (now : Z) (sid : string) (uid : Z)
           (answers : gmap string answer)
           (surveys : list survey) (survey_responses : list response)
  : list survey * list response :=
  let survey_responses' :=
    Mongo.insert_one {| survey_id := sid; user_id := uid; responses := answers;
                        response_created_at := now |} survey_responses in
  (Mongo.update_one (by_id sid) inc_responses_count surveys, survey_responses').

(** [{"$set": {"active": False, "updated_at": now}}]. *)
Definition set_inactive (now : Z) (s : survey) : survey :=
  {| _id := _id s; title := title s; description := description s;
     questions := questions s; category := category s; min_level := min_level s;
     active := false; responses_count := responses_count s;
     created_at := created_at s; updated_at := now |}.

(** [SurveyService.deactivate_survey]: the [success] flag of the returned
    dictionary is [result.modified_count], which counts the matched document
    when the update changed one of its two fields. *)
Definition deactivate_survey (now : Z) (sid : string) (surveys : list survey)
  : bool * list survey :=
  let modified :=
    match Mongo.find_one (by_id sid) surveys with
    | Some s => active s || negb (updated_at s =? now)
    | None => false
    end in
  (modified, Mongo.update_one (by_id sid) (set_inactive now) surveys).

(** The running counter of a survey agrees with the stored responses. *)
Definition counts_agree (replies : list response) (s : survey) : Prop :=
  responses_count s = Z.of_nat (length (List.filter (for_survey (_id s)) replies)).

(** The two collections as this service can make them: a survey is created
    under an id that no survey and no response carries yet, responses are
    recorded, surveys are deactivated. *)
Inductive reachable : list survey -> list response -> Prop :=
| reach_empty : reachable [] []
| reach_create now new_id a_title a_description some_questions a_category level
               surveys survey_responses :
    reachable surveys survey_responses ->
    existsb (by_id new_id) surveys = false ->
    existsb (for_survey new_id) survey_responses = false ->
    reachable
      (snd (create_survey now new_id a_title a_description some_questions
              a_category level surveys))
      survey_responses
| reach_record now sid uid answers surveys survey_responses :
    reachable surveys survey_responses ->
    reachable (fst (record_survey_response now sid uid answers surveys survey_responses))
              (snd (record_survey_response now sid uid answers surveys survey_responses))
| reach_deactivate now sid surveys survey_responses :
    reachable surveys survey_responses ->
    reachable (snd (deactivate_survey now sid surveys)) survey_responses.

End Survey.

(* ===================================================================== *)
(** * [SurveyService.get_survey_results] with the exceptions it lets out  *)
(* ===================================================================== *)

Module SurveyService.

(** [int(answer)] for an answer that is not [None]. *)
Definition int_of (a : Survey.answer) : Py.result Z :=
  match a with
  | Survey.AScalar Survey.SNone =>
      Py.Raise (Py.TypeError "int() argument must be a string, a bytes-like object or a real number, not 'NoneType'")
  | Survey.AScalar (Survey.SBool b) => Py.Ok (if b then 1 else 0)
  | Survey.AScalar (Survey.SInt z) => Py.Ok z
  | Survey.AScalar (Survey.SFloat f) => Py.int_of_float f
  | Survey.AScalar (Survey.SStr s) =>
      match Survey.int_of_str s with
      | Some z => Py.Ok z
      | None => Py.Raise (Py.ValueError "invalid literal for int() with base 10")
      end
  | Survey.AList _ =>
      Py.Raise (Py.TypeError "int() argument must be a string, a bytes-like object or a real number, not 'list'")
  end.

(** The loop that fills [scale_answers]:
    [if answer is not None: try: scale_answers.append(int(answer))
     except (ValueError, TypeError): pass].  Any other exception of [int]
    leaves the loop. *)
Fixpoint scale_answers (i : nat) (rs : list Survey.response) (acc : list Z)
  : Py.result (list Z) :=
  match rs with
  | [] => Py.Ok acc
  | r :: rest =>
      match Survey.answer_at i r with
      | Survey.AScalar Survey.SNone => scale_answers i rest acc
      | a =>
          match int_of a with
          | Py.Ok z => scale_answers i rest (acc ++ [z])
          | Py.Raise (Py.ValueError _) => scale_answers i rest acc
          | Py.Raise (Py.TypeError _) => scale_answers i rest acc
          | Py.Raise e => Py.Raise e
          end
      end
  end.

(** The body of [for i, question in enumerate(survey["questions"])].  The
    choice and text branches raise nothing on the answers of the data
    model; the scale branch can. *)
Definition question_result (rs : list Survey.response) (i : nat) (q : Survey.question_def)
  : Py.result Survey.question_results :=
  if String.eqb (Survey.type q) "multiple_choice"
     || String.eqb (Survey.type q) "single_choice"
     || String.eqb (Survey.type q) "text"
  then Py.Ok (Survey.question_result rs i q)
  else if String.eqb (Survey.type q) "scale" then
    values ← scale_answers i rs [];
    match values with
    | [] => Py.Ok (Survey.base_results q)
    | x :: l =>
        avg ← Py.true_divide (fold_left Z.add values 0) (Z.of_nat (length values));
        Py.Ok {| Survey.question := Survey.text q; Survey.result_type := Survey.type q;
                 Survey.option_counts := None; Survey.text_answers := None;
                 Survey.average := Some avg;
                 Survey.min := Some (Survey.list_min x l);
                 Survey.max := Some (Survey.list_max x l);
                 Survey.distribution := Some (Survey.histogram values) |}
    end
  else Py.Ok (Survey.base_results q).

(** The loop over the questions, from index [i] on. *)
Fixpoint questions_results (rs : list Survey.response) (i : nat)
         (qs : list Survey.question_def) : Py.result (list Survey.question_results) :=
  match qs with
  | [] => Py.Ok []
  | q :: rest =>
      r ← question_result rs i q;
      l ← questions_results rs (S i) rest;
      Py.Ok (r :: l)
  end.

(** [SurveyService.get_survey_results]: an exception raised in the [try]
    block is logged and raised again. *)
Definition get_survey_results (sid : string) (surveys : list Survey.survey)
           (survey_responses : list Survey.response) : Py.result Survey.results :=
  match Mongo.find_one (Survey.by_id sid) surveys with
  | None => Py.Ok (Survey.NotFound "Pesquisa não encontrada")
  | Some s =>
      let rs := List.filter (Survey.for_survey sid) survey_responses in
      per_question ← questions_results rs 0 (Survey.questions s);
      Py.Ok (Survey.Aggregated (Survey.title s) (length rs) per_question)
  end.

(** An answer that is a float infinity, the one value of the data model on
    which [int] raises what the loop does not catch. *)
Definition infinite (a : Survey.answer) : bool :=
  match a with
  | Survey.AScalar (Survey.SFloat (Py.Infinity _)) => true
  | _ => false
  end.

Definition is_ascii (c : ascii) : bool := (nat_of_ascii c <? 128)%nat.

(** Answers of a size at which every integer involved in the average is a
    double: integers, and finite floats by their integer part, below [2^53]
    in absolute value, ASCII text of at most 15 characters, no infinity. *)
Definition moderate (a : Survey.answer) : bool :=
  match a with
  | Survey.AScalar (Survey.SInt z) => Z.abs z <? 2 ^ 53
  | Survey.AScalar (Survey.SFloat (Py.Finite m e)) => Z.abs (Py.trunc m e) <? 2 ^ 53
  | Survey.AScalar (Survey.SFloat (Py.Infinity _)) => false
  | Survey.AScalar (Survey.SStr s) =>
      (String.length s <=? 15)%nat && forallb is_ascii (list_ascii_of_string s)
  | _ => true
  end.

End SurveyService.

(* ===================================================================== *)
(** * Content registry: [PlayerService]                                   *)
(* ===================================================================== *)

Module PlayerService.

(** [self.players] after [__init__]: the parsed [players.json], or [{}] when
    the file could not be read. *)
Definition load (parsed : option (gmap string (gmap string string)))
  : gmap string (gmap string string) :=
  default ∅ parsed.

(** [self.players.get(player_id, {}).get("twitter")]. *)
Definition get_twitter_handle (players : gmap string (gmap string string))
           (player_id : string) : option string :=
  default ∅ (players !! player_id) !! "twitter".

End PlayerService.

(* ===================================================================== *)
(** * Content ingestion: [NewsService]                                    *)
(* ===================================================================== *)

Module NewsService.

(** A stored post; [player_id] is present in [player_news] documents only. *)
Record post : Type := {
  player_id : option string;
  source : string;
  post_id : string;
  timestamp : Z;
  text : string;
  media : list string;
  url : string
}.

(** An item of the [data] array of the tweets endpoint. *)
Record tweet : Type := {
  id : option string;
  created_at : option string;
  tweet_text : option string
}.

(** What lies outside the process: the two HTTP exchanges of the tweet-like
    platform, each with [raise_for_status] and the JSON access folded in, and
    [datetime.fromisoformat] (time stamps are seconds as [Z]). *)
Record world : Type := {
  get_twitter_user_id : string -> Py.result string;
  get_user_tweets : string -> Py.result (list tweet);
  fromisoformat : string -> Py.result Z
}.

Inductive log_record : Type :=
| LogInfo (msg : string)
| LogWarning (msg : string)
| LogError (msg : string).

Record state : Type := {
  team_news : list post;
  player_news : list post;
  log : list log_record
}.

Definition team_twitter_username : string := "FURIA".

(** [s.replace('Z', '+00:00')]. *)
Fixpoint replace_Z (s : string) : string :=
  match s with
  | EmptyString => EmptyString
  | String c rest =>
      if Ascii.eqb c "Z" then "+00:00" ++ replace_Z rest
      else String c (replace_Z rest)
  end.

(** The filters of the two upserts. *)
Definition team_key (src pid : string) (d : post) : bool :=
  String.eqb (source d) src && String.eqb (post_id d) pid.

Definition player_key (player pid : string) (d : post) : bool :=
  match player_id d with
  | Some p => String.eqb p player && String.eqb (post_id d) pid
  | None => false
  end.

(** The document built from one tweet in [fetch_team_tweets]. *)
Definition team_doc (w : world) (t : tweet) : Py.result post :=
  tweet_id ← Py.subscript "id" (id t);
  created ← Py.subscript "created_at" (created_at t);
  ts ← fromisoformat w (replace_Z created);
  mret {| player_id := None; source := "twitter"; post_id := tweet_id;
          timestamp := ts; text := default "" (tweet_text t); media := [];
          url := "https://twitter.com/" ++ team_twitter_username ++ "/status/" ++ tweet_id |}.

(** The document built from one tweet in [fetch_player_tweets]. *)
Definition player_doc (w : world) (player handle : string) (t : tweet) : Py.result post :=
  tid ← Py.subscript "id" (id t);
  created ← Py.subscript "created_at" (created_at t);
  ts ← fromisoformat w (replace_Z created);
  mret {| player_id := Some player; source := "twitter"; post_id := tid;
          timestamp := ts; text := default "" (tweet_text t); media := [];
          url := "https://twitter.com/" ++ handle ++ "/status/" ++ tid |}.

(** One round of [for t in tweets] on the team collection. *)
Definition store_team_tweet (w : world) (t : tweet) (col : list post)
  : Py.result (list post) :=
  doc ← team_doc w t;
  mret (Mongo.upsert_set_on_insert (team_key "twitter" (post_id doc)) doc col).

(** One round of [for t in tweets] on the player collection. *)
Definition store_player_tweet (w : world) (player handle : string) (t : tweet)
           (col : list post) : Py.result (list post) :=
  doc ← player_doc w player handle t;
  mret (Mongo.upsert_set_on_insert (player_key player (post_id doc)) doc col).

(** The [for] loop: writes made before an exception stay in the store. *)
Fixpoint store_all (step : tweet -> list post -> Py.result (list post))
         (tweets : list tweet) (col : list post) : list post * option Py.exn :=
  match tweets with
  | [] => (col, None)
  | t :: rest =>
      match step t col with
      | Py.Ok col' => store_all step rest col'
      | Py.Raise e => (col, Some e)
      end
  end.

Definition add_log (r : log_record) (st : state) : state :=
  {| team_news := team_news st; player_news := player_news st;
     log := log st ++ [r] |}.

Definition set_team_news (col : list post) (st : state) : state :=
  {| team_news := col; player_news := player_news st; log := log st |}.

Definition set_player_news (col : list post) (st : state) : state :=
  {| team_news := team_news st; player_news := col; log := log st |}.

(** The [try] block of [fetch_team_tweets]: the state reached and either the
    number of tweets or the exception that left the block. *)
Definition fetch_team_tweets_try (w : world) (st : state) : state * Py.result nat :=
  match get_twitter_user_id w team_twitter_username with
  | Py.Raise e => (st, Py.Raise e)
  | Py.Ok user_id =>
      match get_user_tweets w user_id with
      | Py.Raise e => (st, Py.Raise e)
      | Py.Ok tweets =>
          match store_all (store_team_tweet w) tweets (team_news st) with
          | (col, Some e) => (set_team_news col st, Py.Raise e)
          | (col, None) => (set_team_news col st, Py.Ok (length tweets))
          end
      end
  end.

(** [NewsService.fetch_team_tweets]: what the caller receives, and the state
    left behind.  [except Exception] catches every exception of the block. *)
Definition fetch_team_tweets (w : world) (st : state) : Py.result unit * state :=
  match fetch_team_tweets_try w st with
  | (st', Py.Ok n) =>
      (Py.Ok tt, add_log (LogInfo ("Team tweets fetched and stored: " ++ pretty n ++ " items")) st')
  | (st', Py.Raise e) =>
      (Py.Ok tt, add_log (LogError ("Error fetching team tweets: " ++ Py.exn_str e)) st')
  end.

Definition not_configured_msg (player : string) : string :=
  "Twitter handle não configurado para " ++ player.

(** The [try] block of [fetch_player_tweets].  [if not handle] holds for
    [None] and for the empty string. *)
Definition fetch_player_tweets_try (w : world)
           (players : gmap string (gmap string string)) (player : string)
           (st : state) : state * Py.result nat :=
  match PlayerService.get_twitter_handle players player with
  | None => (st, Py.Raise (Py.ValueError (not_configured_msg player)))
  | Some handle =>
      if String.eqb handle "" then
        (st, Py.Raise (Py.ValueError (not_configured_msg player)))
      else
        match get_twitter_user_id w handle with
        | Py.Raise e => (st, Py.Raise e)
        | Py.Ok user_id =>
            match get_user_tweets w user_id with
            | Py.Raise e => (st, Py.Raise e)
            | Py.Ok tweets =>
                match store_all (store_player_tweet w player handle) tweets
                                (player_news st) with
                | (col, Some e) => (set_player_news col st, Py.Raise e)
                | (col, None) => (set_player_news col st, Py.Ok (length tweets))
                end
            end
        end
  end.

(** [NewsService.fetch_player_tweets]. *)
Definition fetch_player_tweets (w : world)
           (players : gmap string (gmap string string)) (player : string)
           (st : state) : Py.result unit * state :=
  match fetch_player_tweets_try w players player st with
  | (st', Py.Ok n) =>
      (Py.Ok tt, add_log (LogInfo ("Player tweets fetched for " ++ player ++ ": " ++ pretty n)) st')
  | (st', Py.Raise e) =>
      (Py.Ok tt, add_log (LogError ("Error fetching tweets for " ++ player ++ ": " ++ Py.exn_str e)) st')
  end.

(** [NewsService.fetch_player_instagram]: a warning and nothing else. *)
Definition fetch_player_instagram (player_username : string) (st : state)
  : Py.result unit * state :=
  (Py.Ok tt,
   add_log (LogWarning ("fetch_player_instagram não implementado para " ++ player_username)) st).

Definition timestamp_lt (a b : post) : bool := timestamp a <? timestamp b.

Definition of_player (player : string) (d : post) : bool :=
  match player_id d with
  | Some p => String.eqb p player
  | None => false
  end.

(** [NewsService.get_latest_team_news]:
    [find().sort("timestamp", -1).limit(limit)] read with
    [to_list(length=limit)], for a positive [limit]. *)
Definition get_latest_team_news (limit : Z) (team : list post) : list post :=
  take (Z.to_nat limit) (Desc.sort_desc timestamp_lt team).

(** [NewsService.get_latest_player_news], for a positive [limit]. *)
Definition get_latest_player_news (player_username : string) (limit : Z)
           (players : list post) : list post :=
  take (Z.to_nat limit)
       (Desc.sort_desc timestamp_lt (List.filter (of_player player_username) players)).

(** The uniqueness keys of the two collections. *)
Definition team_key_of (d : post) : string * string := (source d, post_id d).
Definition player_key_of (d : post) : option string * string := (player_id d, post_id d).

End NewsService.

(* ===================================================================== *)
(** * The menu of the bot: [menu_callback]                                *)
(* ===================================================================== *)

Module Bot.

(** [s.split("_")]: the pieces between the underscores, [acc] being the
    piece under construction, read backwards. *)
Fixpoint split_from (acc : list ascii) (s : list ascii) : list string :=
  match s with
  | [] => [string_of_list_ascii (rev acc)]
  | c :: rest =>
      if Ascii.eqb c "_" then string_of_list_ascii (rev acc) :: split_from [] rest
      else split_from (c :: acc) rest
  end.

Definition split_underscore (s : string) : list string :=
  split_from [] (list_ascii_of_string s).

(** [cmd.split("_")[1]], the player handed to [get_latest_player_news] in
    the branch [cmd.startswith("player_")]; [None] stands for [IndexError]. *)
Definition player_of (cmd : string) : option string :=
  split_underscore cmd !! 1%nat.

(** The items shown for a [player_...] button; [None] stands for the
    [IndexError] of the subscript. *)
Definition player_items (cmd : string) (players : list NewsService.post)
  : option (list NewsService.post) :=
  p ← player_of cmd;
  mret (NewsService.get_latest_player_news p 5 players).

End Bot.

(* ===================================================================== *)
(** * Dashboard figures: [AnalyticsService.get_engagement_metrics]        *)
(* ===================================================================== *)

Module AnalyticsService.

(** The [$switch] of the experience histogram. *)
Definition xp_bucket (xp : Z) : string :=
  if xp <? 100 then "0-100"
  else if xp <? 500 then "100-500"
  else if xp <? 1000 then "500-1000"
  else if xp <? 5000 then "1000-5000"
  else "5000+".

(** [{"$group": {"_id": <bucket>, "count": {"$sum": 1}}}] turned into a
    dictionary: one key per bucket that holds a user. *)
Definition xp_distribution (users : list UserModel.user) : gmap string Z :=
  fold_left (fun d u => <[xp_bucket (UserModel.xp u) :=
                            default 0 (d !! xp_bucket (UserModel.xp u)) + 1]> d)
            users ∅.

(** [{"$group": {"_id": None, "total_interactions": {"$sum": ...}}}], and 0
    when the pipeline returns nothing. *)
Definition total_bot_interactions (users : list UserModel.user) : Z :=
  match users with
  | [] => 0
  | _ => fold_left (fun acc u => acc + UserModel.bot_interactions (UserModel.metrics u))
                   users 0
  end.

(** [{"$avg": {"$size": ...}}] over all users, and the integer 0 when the
    pipeline returns nothing. *)
Definition avg_size (size : UserModel.user -> nat) (users : list UserModel.user) : Q :=
  match users with
  | [] => inject_Z 0
  | _ => Qdiv (inject_Z (fold_left (fun acc u => acc + Z.of_nat (size u)) users 0))
              (inject_Z (Z.of_nat (length users)))
  end.

Record engagement : Type := {
  active_users : nat;
  avg_missions_per_user : Q;
  avg_surveys_per_user : Q;
  xp_distribution_of : gmap string Z;
  total_bot_interactions_of : Z
}.

(** [AnalyticsService.get_engagement_metrics]; [now] is the
    [datetime.utcnow()] reading and a day has 86400 seconds. *)
Definition get_engagement_metrics (now : Z) (days : Z) (users : list UserModel.user)
  : engagement :=
  let end_date := now in
  let start_date := end_date - days * 86400 in
  {| active_users :=
       Mongo.count_documents
         (fun u => (start_date <=? UserModel.last_active u)
                   && (UserModel.last_active u <=? end_date)) users;
     avg_missions_per_user :=
       avg_size (fun u => length (UserModel.missions_completed u)) users;
     avg_surveys_per_user :=
       avg_size (fun u => length (UserModel.surveys_completed u)) users;
     xp_distribution_of := xp_distribution users;
     total_bot_interactions_of := total_bot_interactions users |}.

End AnalyticsService.

(* ===================================================================== *)
(** * Sample data                                                         *)
(* ===================================================================== *)

Module Samples.

(** A fan right after [/start], under either schema. *)
Definition model_fan : UserModel.user := UserModel.new_user 0 7 "fan".
Definition service_fan : UserService.user := UserService.new_user 0 7 "fan".

(** The same fan given level 5 by hand, with no experience:
    [update_user(7, {"level": 5})] at time 1. *)
Definition promoted_fan : UserModel.user := UserModel.set_progress 0 5 0 1 model_fan.

(** The same fan after a first grant of 90 points through the service. *)
Definition service_fan_90 : UserService.user :=
  UserService.set_progress 90 1 100 5 service_fan.

(** A survey with one choice question over the options A, B, C, answered by
    three fans, and one with a scale question answered by five. *)
Definition choice_survey : Survey.survey :=
  {| Survey._id := "64b7f0c2a1d3e4f5a6b7c8d9"; Survey.title := "Lineup";
     Survey.description := "";
     Survey.questions :=
       [ {| Survey.text := "Pick"; Survey.type := "multiple_choice";
            Survey.options := Some ["A"; "B"; "C"] |} ];
     Survey.category := "feedback"; Survey.min_level := 1; Survey.active := true;
     Survey.responses_count := 3; Survey.created_at := 0; Survey.updated_at := 0 |}.

Definition scale_survey : Survey.survey :=
  {| Survey._id := "64b7f0c2a1d3e4f5a6b7c8da"; Survey.title := "Match";
     Survey.description := "";
     Survey.questions :=
       [ {| Survey.text := "Rate"; Survey.type := "scale"; Survey.options := None |} ];
     Survey.category := "feedback"; Survey.min_level := 1; Survey.active := true;
     Survey.responses_count := 5; Survey.created_at := 0; Survey.updated_at := 0 |}.

Definition reply (sid : string) (uid : Z) (a : Survey.answer) : Survey.response :=
  {| Survey.survey_id := sid; Survey.user_id := uid;
     Survey.responses := {[ "0" := a ]}; Survey.response_created_at := uid |}.

Definition choice_replies : list Survey.response :=
  [ reply "64b7f0c2a1d3e4f5a6b7c8d9" 1 (Survey.AList [Survey.SStr "A"; Survey.SStr "B"]);
    reply "64b7f0c2a1d3e4f5a6b7c8d9" 2 (Survey.AList [Survey.SStr "B"]);
    reply "64b7f0c2a1d3e4f5a6b7c8d9" 3 (Survey.AList [Survey.SStr "C"; Survey.SStr "A"]) ].

Definition scale_replies : list Survey.response :=
  [ reply "64b7f0c2a1d3e4f5a6b7c8da" 1 (Survey.AScalar (Survey.SInt 3));
    reply "64b7f0c2a1d3e4f5a6b7c8da" 2 (Survey.AScalar (Survey.SInt 5));
    reply "64b7f0c2a1d3e4f5a6b7c8da" 3 (Survey.AScalar (Survey.SStr "x"));
    reply "64b7f0c2a1d3e4f5a6b7c8da" 4 (Survey.AScalar Survey.SNone);
    reply "64b7f0c2a1d3e4f5a6b7c8da" 5 (Survey.AScalar (Survey.SInt 7)) ].

(** Two more answers to the scale question: a float infinity, and the
    text of [10^400], a one followed by 400 zeros. *)
Definition infinite_reply : Survey.response :=
  reply "64b7f0c2a1d3e4f5a6b7c8da" 6 (Survey.AScalar (Survey.SFloat (Py.Infinity false))).

Definition huge_text : string :=
  String "1" (string_of_list_ascii (repeat "0"%char 400)).

Definition huge_reply : Survey.response :=
  reply "64b7f0c2a1d3e4f5a6b7c8da" 7 (Survey.AScalar (Survey.SStr huge_text)).

(** A survey store made by the service: one survey created, one response
    recorded. *)
Definition recorded_store : list Survey.survey * list Survey.response :=
  Survey.record_survey_response 5 "64b7f0c2a1d3e4f5a6b7c8db" 7
    {[ "0" := Survey.AScalar (Survey.SStr "A") ]}
    (snd (Survey.create_survey 0 "64b7f0c2a1d3e4f5a6b7c8db" "Map" ""
            [ {| Survey.text := "Pick"; Survey.type := "single_choice";
                 Survey.options := Some ["A"; "B"] |} ] "feedback" 1 []))
    [].

Definition recorded_survey : Survey.survey :=
  {| Survey._id := "64b7f0c2a1d3e4f5a6b7c8db"; Survey.title := "Map";
     Survey.description := "";
     Survey.questions :=
       [ {| Survey.text := "Pick"; Survey.type := "single_choice";
            Survey.options := Some ["A"; "B"] |} ];
     Survey.category := "feedback"; Survey.min_level := 1;
     Survey.active := true; Survey.responses_count := 1;
     Survey.created_at := 0; Survey.updated_at := 0 |}.

(** A registry with one configured player, a platform that answers and one
    that does not, and a tweet seen twice, the second time edited. *)
Definition registry : gmap string (gmap string string) :=
  {[ "yuurih" := {[ "twitter" := "yuurihfps" ]} ]}.

Definition tweet_seen : NewsService.tweet :=
  {| NewsService.id := Some "1790";
     NewsService.created_at := Some "2024-05-01T18:00:00Z";
     NewsService.tweet_text := Some "GG" |}.

Definition tweet_edited : NewsService.tweet :=
  {| NewsService.id := Some "1790";
     NewsService.created_at := Some "2024-05-01T18:05:00Z";
     NewsService.tweet_text := Some "GG WP" |}.

Definition seconds_of (s : string) : Py.result Z :=
  if String.eqb s "" then Py.Raise (Py.ValueError "Invalid isoformat string: ''")
  else Py.Ok (Z.of_nat (String.length s)).

Definition online : NewsService.world :=
  {| NewsService.get_twitter_user_id := fun handle => Py.Ok ("id-" ++ handle);
     NewsService.get_user_tweets := fun _ => Py.Ok [tweet_seen; tweet_edited];
     NewsService.fromisoformat := seconds_of |}.

Definition offline : NewsService.world :=
  {| NewsService.get_twitter_user_id :=
       fun _ => Py.Raise (Py.RequestException "503 Server Error");
     NewsService.get_user_tweets :=
       fun _ => Py.Raise (Py.RequestException "503 Server Error");
     NewsService.fromisoformat := seconds_of |}.

(** The documents first stored for [tweet_seen]. *)
Definition seen_team_doc : NewsService.post :=
  {| NewsService.player_id := None; NewsService.source := "twitter";
     NewsService.post_id := "1790"; NewsService.timestamp := 25;
     NewsService.text := "GG"; NewsService.media := [];
     NewsService.url := "https://twitter.com/FURIA/status/1790" |}.

Definition seen_player_doc : NewsService.post :=
  {| NewsService.player_id := Some "yuurih"; NewsService.source := "twitter";
     NewsService.post_id := "1790"; NewsService.timestamp := 25;
     NewsService.text := "GG"; NewsService.media := [];
     NewsService.url := "https://twitter.com/yuurihfps/status/1790" |}.

Definition empty_state : NewsService.state :=
  {| NewsService.team_news := []; NewsService.player_news := [];
     NewsService.log := [] |}.

End Samples.

(* ===================================================================== *)
(** * Facts about collections                                             *)
(* ===================================================================== *)

Section CollectionFacts.
Context {D : Type}.
Implicit Types (q : D -> bool) (f : D -> D) (col : list D).

Lemma find_one_matches q col d :
  Mongo.find_one q col = Some d -> q d = true.
Proof. intros H. apply (List.find_some _ _ H). Qed.

Lemma find_one_update_one q f col d :
  Mongo.find_one q col = Some d ->
  q (f d) = true ->
  Mongo.find_one q (Mongo.update_one q f col) = Some (f d).
Proof.
  unfold Mongo.find_one. induction col as [|c col IH]; simpl; [discriminate|].
  destruct (q c) eqn:Hc.
  - intros [= ->] Hf. simpl. now rewrite Hf.
  - intros Hd Hf. simpl. rewrite Hc. auto.
Qed.

Lemma update_one_id q col : Mongo.update_one q (fun d => d) col = col.
Proof.
  induction col as [|c col IH]; simpl; [reflexivity|].
  destruct (q c); [reflexivity|]. now rewrite IH.
Qed.

Lemma upsert_present q doc col :
  existsb q col = true -> Mongo.upsert_set_on_insert q doc col = col.
Proof. intros H. unfold Mongo.upsert_set_on_insert. rewrite H. apply update_one_id. Qed.

Lemma upsert_absent q doc col :
  existsb q col = false -> Mongo.upsert_set_on_insert q doc col = (col ++ [doc])%list.
Proof. intros H. unfold Mongo.upsert_set_on_insert. now rewrite H. Qed.

Lemma count_zero_absent q col :
  Mongo.count_documents q col = 0%nat <-> existsb q col = false.
Proof.
  unfold Mongo.count_documents. induction col as [|c col IH]; simpl; [tauto|].
  destruct (q c); simpl; [split; discriminate|exact IH].
Qed.

Lemma count_app q col col' :
  Mongo.count_documents q (col ++ col')%list =
  (Mongo.count_documents q col + Mongo.count_documents q col')%nat.
Proof. unfold Mongo.count_documents. now rewrite List.filter_app, length_app. Qed.

End CollectionFacts.

(* ===================================================================== *)
(** * Facts about the closed-form level                                   *)
(* ===================================================================== *)

Lemma pow08_search_spec (n : nat) (x : Z) :
  x ^ 4 < (Z.of_nat n + 1) ^ 5 * 100 ^ 4 ->
  let k := UserModel.pow08_search n x in
  0 <= k /\ k ^ 5 * 100 ^ 4 <= x ^ 4 < (k + 1) ^ 5 * 100 ^ 4.
Proof.
  induction n as [|n IH]; intros Hup.
  - simpl UserModel.pow08_search. cbv zeta.
    split; [lia|]. split; [|exact Hup].
    change (0 ^ 5 * 100 ^ 4) with 0. apply Z.pow_even_nonneg. now exists 2.
  - cbn [UserModel.pow08_search].
    destruct (Z.leb_spec (Z.of_nat (S n) ^ 5 * 100 ^ 4) (x ^ 4)) as [Hle|Hgt].
    + cbv zeta. split; [lia|]. split; assumption.
    + apply IH. replace (Z.of_nat n + 1) with (Z.of_nat (S n)) by lia. exact Hgt.
Qed.

(** The search of [pow08_floor] starts high enough, so its result is the
    floor of [(x/100)^(4/5)]. *)
Lemma pow08_floor_spec (x : Z) :
  0 <= x ->
  let k := UserModel.pow08_floor x in
  0 <= k /\ k ^ 5 * 100 ^ 4 <= x ^ 4 < (k + 1) ^ 5 * 100 ^ 4.
Proof.
  intros Hx. unfold UserModel.pow08_floor. apply pow08_search_spec.
  assert (Hq : 0 <= x / 100) by (apply Z.div_pos; lia).
  rewrite Z2Nat.id by exact Hq.
  set (q := x / 100) in *.
  assert (Hlt : x < 100 * (q + 1)).
  { pose proof (Z.mod_pos_bound x 100 ltac:(lia)).
    pose proof (Z.div_mod x 100 ltac:(lia)). subst q. lia. }
  assert (H4 : x ^ 4 < (100 * (q + 1)) ^ 4) by (apply Z.pow_lt_mono_l; lia).
  rewrite Z.pow_mul_l in H4.
  assert (H5 : (q + 1) ^ 4 <= (q + 1) ^ 5) by (apply Z.pow_le_mono_r; lia).
  nia.
Qed.

Lemma pow08_floor_mono (x y : Z) :
  0 <= x -> x <= y -> UserModel.pow08_floor x <= UserModel.pow08_floor y.
Proof.
  intros Hx Hxy.
  destruct (pow08_floor_spec x Hx) as (Hkx & Hlo & _).
  destruct (pow08_floor_spec y ltac:(lia)) as (Hky & _ & Hhi).
  set (kx := UserModel.pow08_floor x) in *.
  set (ky := UserModel.pow08_floor y) in *.
  destruct (Z.le_gt_cases kx ky) as [|Hgt]; [assumption|exfalso].
  assert (H5 : (ky + 1) ^ 5 <= kx ^ 5) by (apply Z.pow_le_mono_l; lia).
  assert (H4 : x ^ 4 <= y ^ 4) by (apply Z.pow_le_mono_l; lia).
  nia.
Qed.

Lemma level_for_xp_nonneg (x : Z) :
  0 <= x -> UserModel.level_for_xp x = Py.Ok (1 + UserModel.pow08_floor x).
Proof.
  intros Hx. unfold UserModel.level_for_xp.
  destruct (Z.ltb_spec x 0); [lia|reflexivity].
Qed.

(** What [add_xp] returns and stores for a user that exists and whose new
    experience is not negative. *)
Lemma add_xp_found (now1 now2 tid g : Z) (col : list UserModel.user) (u : UserModel.user) :
  UserModel.get_user tid col = Some u ->
  0 <= UserModel.xp u + g ->
  let lvl := 1 + UserModel.pow08_floor (UserModel.xp u + g) in
  let up := UserModel.level u <? lvl in
  let u' := UserModel.inc_bot_interactions
              (UserModel.set_progress (UserModel.xp u + g) lvl now1 now2 u) in
  exists col',
    UserModel.add_xp now1 now2 tid g col =
      Py.Ok ({| UserModel.current_xp := UserModel.xp u + g;
                UserModel.new_level := lvl;
                UserModel.level_up := up;
                UserModel.previous_level := if up then Some (UserModel.level u) else None |},
             col')
    /\ UserModel.get_user tid col' = Some u'.
Proof.
  intros Hu Hx lvl up u'. unfold UserModel.add_xp. rewrite Hu.
  rewrite level_for_xp_nonneg by exact Hx. cbn.
  eexists. split; [reflexivity|].
  pose proof (find_one_matches _ _ _ Hu) as Hq.
  unfold UserModel.get_user in *.
  apply (find_one_update_one _ UserModel.inc_bot_interactions _
           (UserModel.set_progress (UserModel.xp u + g) lvl now1 now2 u)).
  - apply find_one_update_one; assumption.
  - exact Hq.
Qed.

(* ===================================================================== *)
(** * Facts about the threshold loop                                      *)
(* ===================================================================== *)

Lemma grow_threshold_ge (n : Z) : 1 <= n -> n <= UserService.grow_threshold n.
Proof.
  intros Hn. unfold UserService.grow_threshold.
  rewrite Z.quot_div_nonneg by lia.
  apply Z.div_le_lower_bound; lia.
Qed.

(** With a positive threshold every round spends at least one point, so the
    loop ends within [new_xp] rounds. *)
Lemma level_up_loop_terminates (fuel : nat) :
  forall x l n, 1 <= n -> x <= Z.of_nat fuel ->
  exists r, UserService.level_up_loop fuel x l n = Some r.
Proof.
  induction fuel as [|fuel IH]; intros x l n Hn Hx.
  - simpl. destruct (Z.leb_spec n x); [lia|]. eexists; reflexivity.
  - cbn [UserService.level_up_loop].
    destruct (Z.leb_spec n x); [|eexists; reflexivity].
    apply IH; [|lia]. pose proof (grow_threshold_ge n Hn). lia.
Qed.

Lemma level_up_loop_result (fuel : nat) :
  forall x l n x' l' n',
  UserService.level_up_loop fuel x l n = Some (x', l', n') ->
  l <= l' /\ x' < n' /\ (l' = l -> x' = x /\ n' = n).
Proof.
  induction fuel as [|fuel IH]; intros x l n x' l' n'.
  - simpl. destruct (Z.leb_spec n x); [discriminate|].
    intros [= <- <- <-]. lia.
  - cbn [UserService.level_up_loop]. destruct (Z.leb_spec n x).
    + intros Hr. apply IH in Hr. lia.
    + intros [= <- <- <-]. lia.
Qed.

(** With a positive threshold the stored experience only loses what the
    thresholds crossed have spent. *)
Lemma level_up_loop_spends (fuel : nat) :
  forall x l n x' l' n', 1 <= n ->
  UserService.level_up_loop fuel x l n = Some (x', l', n') ->
  x' <= x /\ n <= n'.
Proof.
  induction fuel as [|fuel IH]; intros x l n x' l' n' Hn.
  - simpl. destruct (Z.leb_spec n x); [discriminate|].
    intros [= <- <- <-]. lia.
  - cbn [UserService.level_up_loop]. destruct (Z.leb_spec n x).
    + intros Hr. pose proof (grow_threshold_ge n Hn).
      apply IH in Hr; lia.
    + intros [= <- <- <-]. lia.
Qed.

Lemma level_up_loop_more_fuel (fuel : nat) :
  forall x l n r, UserService.level_up_loop fuel x l n = Some r ->
  UserService.level_up_loop (S fuel) x l n = Some r.
Proof.
  induction fuel as [|fuel IH]; intros x l n r.
  - simpl. destruct (n <=? x); [discriminate|auto].
  - intros Hr. cbn [UserService.level_up_loop] in Hr.
    change (UserService.level_up_loop (S (S fuel)) x l n) with
      (if n <=? x
       then UserService.level_up_loop (S fuel) (x - n) (l + 1) (UserService.grow_threshold n)
       else Some (x, l, n)).
    destruct (n <=? x); [apply IH|]; exact Hr.
Qed.

Lemma level_up_loop_fuel_le (fuel fuel' : nat) x l n r :
  (fuel <= fuel')%nat ->
  UserService.level_up_loop fuel x l n = Some r ->
  UserService.level_up_loop fuel' x l n = Some r.
Proof.
  induction 1 as [|fuel' _ IH]; [auto|].
  intros Hr. apply level_up_loop_more_fuel. auto.
Qed.

(** What [update_user_xp] returns and stores for a profile that exists and
    has a positive threshold: any fuel from [xp + xp_gained] on is enough. *)
Lemma update_user_xp_found (now uid g : Z) (col : list UserService.user)
      (u : UserService.user) :
  UserService.get_user_profile uid col = Some u ->
  1 <= UserService.xp_to_next_level u ->
  exists x' l' n' col',
    (forall fuel, (Z.to_nat (UserService.xp u + g) <= fuel)%nat ->
       UserService.level_up_loop fuel (UserService.xp u + g) (UserService.level u)
         (UserService.xp_to_next_level u) = Some (x', l', n')
       /\ UserService.update_user_xp fuel now uid g col =
            Some (Some (UserService.set_progress x' l' n' now u), col'))
    /\ UserService.get_user_profile uid col' =
         Some (UserService.set_progress x' l' n' now u).
Proof.
  intros Hu Hn.
  destruct (level_up_loop_terminates (Z.to_nat (UserService.xp u + g))
              (UserService.xp u + g) (UserService.level u)
              (UserService.xp_to_next_level u) Hn ltac:(lia)) as ([[x' l'] n'] & Hloop).
  pose proof (find_one_matches _ _ _ Hu) as Hq.
  assert (Hs : UserService.get_user_profile uid
                 (Mongo.update_one (UserService.by_user_id uid)
                    (UserService.set_progress x' l' n' now) col) =
               Some (UserService.set_progress x' l' n' now u)).
  { apply find_one_update_one; assumption. }
  exists x', l', n'. eexists. split; [|exact Hs].
  intros fuel Hfuel.
  pose proof (level_up_loop_fuel_le _ _ _ _ _ _ Hfuel Hloop) as Hloop'.
  split; [exact Hloop'|].
  unfold UserService.update_user_xp. rewrite Hu, Hloop'. cbv zeta.
  now rewrite Hs.
Qed.

Lemma find_one_Forall {D : Type} (P : D -> Prop) (q : D -> bool) (col : list D) (d : D) :
  Forall P col -> Mongo.find_one q col = Some d -> P d.
Proof.
  intros Hall Hd. apply List.find_some in Hd as [Hin _].
  rewrite Forall_forall in Hall. apply Hall. now apply list_elem_of_In.
Qed.

(** The threshold of a profile starts at 100 and a run of [update_user_xp]
    never lowers it, so it stays positive. *)
Lemma update_user_xp_threshold (fuel : nat) (now uid g : Z)
      (col col' : list UserService.user) (u u' : UserService.user) :
  UserService.get_user_profile uid col = Some u ->
  1 <= UserService.xp_to_next_level u ->
  UserService.update_user_xp fuel now uid g col = Some (Some u', col') ->
  UserService.xp_to_next_level u <= UserService.xp_to_next_level u'.
Proof.
  intros Hu Hn. unfold UserService.update_user_xp. rewrite Hu.
  destruct (UserService.level_up_loop fuel _ _ _) as [[[x' l'] n']|] eqn:Hloop;
    [|discriminate].
  pose proof (find_one_matches _ _ _ Hu) as Hq.
  unfold UserService.get_user_profile in *.
  rewrite (find_one_update_one _ (UserService.set_progress x' l' n' now) _ u Hu Hq).
  intros [= <- _]. simpl.
  now destruct (level_up_loop_spends _ _ _ _ _ _ _ Hn Hloop).
Qed.

(** In the service the interaction counter moves through
    [update_engagement_metric] only. *)
Lemma update_engagement_metric_bot_interactions (now uid : Z)
      (col : list UserService.user) (u : UserService.user) :
  UserService.get_user_profile uid col = Some u ->
  exists u',
    UserService.get_user_profile uid
      (UserService.update_engagement_metric now uid "bot_interactions" col) = Some u'
    /\ UserService.bot_interactions (UserService.metrics u') =
         UserService.bot_interactions (UserService.metrics u) + 1
    /\ UserService.xp u' = UserService.xp u
    /\ UserService.level u' = UserService.level u.
Proof.
  intros Hu. pose proof (find_one_matches _ _ _ Hu) as Hq.
  eexists. split.
  - unfold UserService.update_engagement_metric, UserService.get_user_profile in *.
    apply find_one_update_one; [exact Hu|exact Hq].
  - simpl. repeat split.
Qed.

(* ===================================================================== *)
(** * Progression: the properties of the specification                    *)
(* ===================================================================== *)

(** C1.  The closed-form policy of [UserModel.add_xp] and the threshold
    policy of [UserService.update_user_xp] are not equivalent: a grant of 240
    points to a user just created takes them to level 3 under the first and
    to level 2 under the second. *)
Theorem progression_policies_differ (now now1 now2 tid : Z) (name : string) :
  exists g ra cola fuel ub colb,
    0 <= g
    /\ UserModel.add_xp now1 now2 tid g (UserModel.create_user now tid name []) =
         Py.Ok (ra, cola)
    /\ UserService.update_user_xp fuel now1 tid g
         (snd (UserService.create_user now tid name [])) = Some (Some ub, colb)
    /\ UserModel.new_level ra = 3
    /\ UserService.level ub = 2
    /\ UserModel.new_level ra <> UserService.level ub.
Proof.
  exists 240.
  destruct (add_xp_found now1 now2 tid 240 (UserModel.create_user now tid name [])
              (UserModel.new_user now tid name)) as (cola & Ha & _).
  { unfold UserModel.get_user, UserModel.create_user, UserModel.by_telegram_id.
    simpl. now rewrite Z.eqb_refl. }
  { simpl. lia. }
  destruct (update_user_xp_found now1 tid 240 (snd (UserService.create_user now tid name []))
              (UserService.new_user now tid name)) as (x' & l' & n' & colb & Hb & _).
  { unfold UserService.get_user_profile, UserService.create_user, UserService.by_user_id.
    simpl. now rewrite Z.eqb_refl. }
  { simpl. lia. }
  destruct (Hb 240%nat ltac:(simpl; lia)) as [Hloop Hrun].
  vm_compute in Hloop. injection Hloop as <- <- <-.
  eexists _, cola, 240%nat, _, colb.
  split; [lia|]. split; [exact Ha|]. split; [exact Hrun|].
  split; [reflexivity|]. split; [reflexivity|]. simpl. discriminate.
Qed.

(** C2, as the code has it.  [add_xp] stores the old experience plus the
    grant.  [update_user_xp] stores at most that; when the level does not
    change it stores exactly that, so the stored value does not decrease;
    each threshold crossed is subtracted from it. *)
Theorem stored_xp_after_grant (now now1 now2 tid uid g : Z)
        (colM : list UserModel.user) (um : UserModel.user)
        (colS : list UserService.user) (us : UserService.user) :
  0 <= g ->
  UserModel.get_user tid colM = Some um ->
  0 <= UserModel.xp um ->
  UserService.get_user_profile uid colS = Some us ->
  1 <= UserService.xp_to_next_level us ->
  (exists r colM' um',
      UserModel.add_xp now1 now2 tid g colM = Py.Ok (r, colM')
      /\ UserModel.get_user tid colM' = Some um'
      /\ UserModel.xp um' = UserModel.xp um + g
      /\ UserModel.xp um <= UserModel.xp um')
  /\ (exists us' colS',
      (forall fuel, (Z.to_nat (UserService.xp us + g) <= fuel)%nat ->
         UserService.update_user_xp fuel now uid g colS = Some (Some us', colS'))
      /\ UserService.get_user_profile uid colS' = Some us'
      /\ UserService.xp us' <= UserService.xp us + g
      /\ (UserService.level us' = UserService.level us ->
          UserService.xp us' = UserService.xp us + g
          /\ UserService.xp us <= UserService.xp us')).
Proof.
  intros Hg Hm Hxm Hs Hn. split.
  - destruct (add_xp_found now1 now2 tid g colM um Hm ltac:(lia)) as (colM' & Hr & Hst).
    eexists _, colM', _. split; [exact Hr|]. split; [exact Hst|]. simpl. lia.
  - destruct (update_user_xp_found now uid g colS us Hs Hn)
      as (x' & l' & n' & colS' & Hrun & Hst).
    exists (UserService.set_progress x' l' n' now us), colS'.
    destruct (Hrun _ (Nat.le_refl _)) as [Hloop _].
    pose proof (level_up_loop_result _ _ _ _ _ _ _ Hloop) as (_ & _ & Hsame).
    pose proof (level_up_loop_spends _ _ _ _ _ _ _ Hn Hloop) as (Hle & _).
    split; [intros fuel Hf; apply (Hrun fuel Hf)|].
    split; [exact Hst|]. simpl. split; [exact Hle|].
    intros Hl. destruct (Hsame Hl) as [-> _]. lia.
Qed.

Lemma stored_xp_after_grant_witness :
  (0 <= 30
   /\ UserModel.get_user 7 [Samples.model_fan] = Some Samples.model_fan
   /\ 0 <= UserModel.xp Samples.model_fan
   /\ UserService.get_user_profile 7 [Samples.service_fan_90] = Some Samples.service_fan_90
   /\ 1 <= UserService.xp_to_next_level Samples.service_fan_90)
  /\ (exists r colM' um',
      UserModel.add_xp 1 2 7 30 [Samples.model_fan] = Py.Ok (r, colM')
      /\ UserModel.get_user 7 colM' = Some um'
      /\ UserModel.xp um' = UserModel.xp Samples.model_fan + 30
      /\ UserModel.xp Samples.model_fan <= UserModel.xp um')
  /\ (exists us' colS',
      (forall fuel, (Z.to_nat (UserService.xp Samples.service_fan_90 + 30) <= fuel)%nat ->
         UserService.update_user_xp fuel 3 7 30 [Samples.service_fan_90] = Some (Some us', colS'))
      /\ UserService.get_user_profile 7 colS' = Some us'
      /\ UserService.xp us' <= UserService.xp Samples.service_fan_90 + 30
      /\ (UserService.level us' = UserService.level Samples.service_fan_90 ->
          UserService.xp us' = UserService.xp Samples.service_fan_90 + 30
          /\ UserService.xp Samples.service_fan_90 <= UserService.xp us')).
Proof.
  split.
  - repeat split; try reflexivity; simpl; lia.
  - apply (stored_xp_after_grant 3 1 2 7 7 30 [Samples.model_fan] Samples.model_fan
             [Samples.service_fan_90] Samples.service_fan_90);
      [lia | reflexivity | simpl; lia | reflexivity | simpl; lia].
Defined.

(** C2, as stated, fails on [update_user_xp]: the fan who holds 90 points
    (after a first grant of 90) and is granted 10 more crosses the threshold
    of 100 and is stored with 0 points. *)
Lemma stored_xp_decreases_on_level_up :
  UserService.update_user_xp 90 5 7 90 (snd (UserService.create_user 0 7 "fan" [])) =
    Some (Some Samples.service_fan_90, [Samples.service_fan_90])
  /\ 0 <= 10
  /\ UserService.get_user_profile 7 [Samples.service_fan_90] = Some Samples.service_fan_90
  /\ exists us' colS',
       UserService.update_user_xp 100 9 7 10 [Samples.service_fan_90] = Some (Some us', colS')
       /\ UserService.get_user_profile 7 colS' = Some us'
       /\ UserService.xp us' = 0
       /\ UserService.level us' = 2
       /\ ~ (UserService.xp Samples.service_fan_90 <= UserService.xp us').
Proof.
  split; [reflexivity|]. split; [lia|]. split; [reflexivity|].
  eexists _, _. split; [reflexivity|]. split; [reflexivity|].
  split; [reflexivity|]. split; [reflexivity|]. simpl. lia.
Qed.

(** C3, as the code has it.  [add_xp] stores and returns the level
    recomputed from the new experience alone; its [level_up] flag is true
    exactly when that level is above the stored one, and the new level is
    not below the stored one whenever the stored level is at most the level
    the formula gives for the stored experience (stated for experience
    below [2^31]).  [update_user_xp], which returns the profile and no flag,
    stores a level that is at least the previous one. *)
Theorem level_after_grant (now now1 now2 tid uid g : Z)
        (colM : list UserModel.user) (um : UserModel.user)
        (colS : list UserService.user) (us : UserService.user) :
  0 <= g ->
  UserModel.get_user tid colM = Some um ->
  0 <= UserModel.xp um + g ->
  UserService.get_user_profile uid colS = Some us ->
  1 <= UserService.xp_to_next_level us ->
  (exists r colM' um',
      UserModel.add_xp now1 now2 tid g colM = Py.Ok (r, colM')
      /\ UserModel.get_user tid colM' = Some um'
      /\ UserModel.level um' = UserModel.new_level r
      /\ (UserModel.level_up r = true <-> UserModel.level um < UserModel.new_level r)
      /\ (forall derived,
            UserModel.level_for_xp (UserModel.xp um) = Py.Ok derived ->
            UserModel.level um <= derived ->
            UserModel.xp um + g < 2 ^ 31 ->
            UserModel.level um <= UserModel.new_level r))
  /\ (exists us' colS',
      (forall fuel, (Z.to_nat (UserService.xp us + g) <= fuel)%nat ->
         UserService.update_user_xp fuel now uid g colS = Some (Some us', colS'))
      /\ UserService.get_user_profile uid colS' = Some us'
      /\ UserService.level us <= UserService.level us').
Proof.
  intros Hg Hm Hx Hs Hn. split.
  - destruct (add_xp_found now1 now2 tid g colM um Hm Hx) as (colM' & Hr & Hst).
    eexists _, colM', _. split; [exact Hr|]. split; [exact Hst|]. simpl.
    split; [reflexivity|]. split; [apply Z.ltb_lt|].
    intros derived Hd Hle _. unfold UserModel.level_for_xp in Hd.
    destruct (Z.ltb_spec (UserModel.xp um) 0) as [|Hxm]; [discriminate|].
    injection Hd as <-.
    pose proof (pow08_floor_mono (UserModel.xp um) (UserModel.xp um + g) Hxm ltac:(lia)).
    lia.
  - destruct (update_user_xp_found now uid g colS us Hs Hn)
      as (x' & l' & n' & colS' & Hrun & Hst).
    exists (UserService.set_progress x' l' n' now us), colS'.
    destruct (Hrun _ (Nat.le_refl _)) as [Hloop _].
    pose proof (level_up_loop_result _ _ _ _ _ _ _ Hloop) as (Hle & _).
    split; [intros fuel Hf; apply (Hrun fuel Hf)|].
    split; [exact Hst|]. exact Hle.
Qed.

Lemma level_after_grant_witness :
  (0 <= 240
   /\ UserModel.get_user 7 [Samples.model_fan] = Some Samples.model_fan
   /\ 0 <= UserModel.xp Samples.model_fan + 240
   /\ UserService.get_user_profile 7 [Samples.service_fan_90] = Some Samples.service_fan_90
   /\ 1 <= UserService.xp_to_next_level Samples.service_fan_90)
  /\ (exists r colM' um',
      UserModel.add_xp 1 2 7 240 [Samples.model_fan] = Py.Ok (r, colM')
      /\ UserModel.get_user 7 colM' = Some um'
      /\ UserModel.level um' = UserModel.new_level r
      /\ (UserModel.level_up r = true <->
          UserModel.level Samples.model_fan < UserModel.new_level r)
      /\ (forall derived,
            UserModel.level_for_xp (UserModel.xp Samples.model_fan) = Py.Ok derived ->
            UserModel.level Samples.model_fan <= derived ->
            UserModel.xp Samples.model_fan + 240 < 2 ^ 31 ->
            UserModel.level Samples.model_fan <= UserModel.new_level r))
  /\ (exists us' colS',
      (forall fuel, (Z.to_nat (UserService.xp Samples.service_fan_90 + 240) <= fuel)%nat ->
         UserService.update_user_xp fuel 3 7 240 [Samples.service_fan_90] =
           Some (Some us', colS'))
      /\ UserService.get_user_profile 7 colS' = Some us'
      /\ UserService.level Samples.service_fan_90 <= UserService.level us').
Proof.
  split.
  - split; [lia|]. split; [reflexivity|]. split; [simpl; lia|].
    split; [reflexivity|simpl; lia].
  - apply (level_after_grant 3 1 2 7 7 240 [Samples.model_fan] Samples.model_fan
             [Samples.service_fan_90] Samples.service_fan_90);
      [lia | reflexivity | simpl; lia | reflexivity | simpl; lia].
Defined.

(** C3, as stated, fails on [add_xp]: the stored level plays no part in the
    new one.  A record that holds level 5 with no experience is taken to
    level 1 by a grant of 10 points, and no level-up is reported. *)
Lemma add_xp_lowers_stored_level :
  UserModel.get_user 7 [Samples.promoted_fan] = Some Samples.promoted_fan
  /\ UserModel.xp Samples.promoted_fan = 0
  /\ UserModel.level Samples.promoted_fan = 5
  /\ exists r col' u',
       UserModel.add_xp 2 3 7 10 [Samples.promoted_fan] = Py.Ok (r, col')
       /\ UserModel.get_user 7 col' = Some u'
       /\ UserModel.new_level r = 1
       /\ UserModel.level u' = 1
       /\ UserModel.level_up r = false
       /\ ~ (UserModel.level Samples.promoted_fan <= UserModel.new_level r).
Proof.
  split; [reflexivity|]. split; [reflexivity|]. split; [reflexivity|].
  eexists _, _, _. split; [reflexivity|]. split; [reflexivity|].
  split; [reflexivity|]. split; [reflexivity|]. split; [reflexivity|].
  vm_compute. intros H. apply H. reflexivity.
Qed.

(** C4, as the code has it.  [add_xp] adds exactly one to [bot_interactions]
    and leaves the three other engagement counters as they were;
    [update_user_xp] leaves all four counters, [bot_interactions] included,
    as they were. *)
Theorem engagement_counters_after_grant (now now1 now2 tid uid g : Z)
        (colM : list UserModel.user) (um : UserModel.user)
        (colS : list UserService.user) (us : UserService.user) :
  UserModel.get_user tid colM = Some um ->
  0 <= UserModel.xp um + g ->
  UserService.get_user_profile uid colS = Some us ->
  1 <= UserService.xp_to_next_level us ->
  (exists r colM' um',
      UserModel.add_xp now1 now2 tid g colM = Py.Ok (r, colM')
      /\ UserModel.get_user tid colM' = Some um'
      /\ UserModel.bot_interactions (UserModel.metrics um') =
           UserModel.bot_interactions (UserModel.metrics um) + 1
      /\ UserModel.mission_completions (UserModel.metrics um') =
           UserModel.mission_completions (UserModel.metrics um)
      /\ UserModel.survey_completions (UserModel.metrics um') =
           UserModel.survey_completions (UserModel.metrics um)
      /\ UserModel.social_shares (UserModel.metrics um') =
           UserModel.social_shares (UserModel.metrics um))
  /\ (exists us' colS',
      (forall fuel, (Z.to_nat (UserService.xp us + g) <= fuel)%nat ->
         UserService.update_user_xp fuel now uid g colS = Some (Some us', colS'))
      /\ UserService.get_user_profile uid colS' = Some us'
      /\ UserService.metrics us' = UserService.metrics us).
Proof.
  intros Hm Hx Hs Hn. split.
  - destruct (add_xp_found now1 now2 tid g colM um Hm Hx) as (colM' & Hr & Hst).
    eexists _, colM', _. split; [exact Hr|]. split; [exact Hst|].
    simpl. repeat split.
  - destruct (update_user_xp_found now uid g colS us Hs Hn)
      as (x' & l' & n' & colS' & Hrun & Hst).
    exists (UserService.set_progress x' l' n' now us), colS'.
    split; [intros fuel Hf; apply (Hrun fuel Hf)|].
    split; [exact Hst|reflexivity].
Qed.

Lemma engagement_counters_after_grant_witness :
  (UserModel.get_user 7 [Samples.model_fan] = Some Samples.model_fan
   /\ 0 <= UserModel.xp Samples.model_fan + 10
   /\ UserService.get_user_profile 7 [Samples.service_fan] = Some Samples.service_fan
   /\ 1 <= UserService.xp_to_next_level Samples.service_fan)
  /\ (exists r colM' um',
      UserModel.add_xp 1 2 7 10 [Samples.model_fan] = Py.Ok (r, colM')
      /\ UserModel.get_user 7 colM' = Some um'
      /\ UserModel.bot_interactions (UserModel.metrics um') =
           UserModel.bot_interactions (UserModel.metrics Samples.model_fan) + 1
      /\ UserModel.mission_completions (UserModel.metrics um') =
           UserModel.mission_completions (UserModel.metrics Samples.model_fan)
      /\ UserModel.survey_completions (UserModel.metrics um') =
           UserModel.survey_completions (UserModel.metrics Samples.model_fan)
      /\ UserModel.social_shares (UserModel.metrics um') =
           UserModel.social_shares (UserModel.metrics Samples.model_fan))
  /\ (exists us' colS',
      (forall fuel, (Z.to_nat (UserService.xp Samples.service_fan + 10) <= fuel)%nat ->
         UserService.update_user_xp fuel 3 7 10 [Samples.service_fan] = Some (Some us', colS'))
      /\ UserService.get_user_profile 7 colS' = Some us'
      /\ UserService.metrics us' = UserService.metrics Samples.service_fan).
Proof.
  split.
  - split; [reflexivity|]. split; [simpl; lia|]. split; [reflexivity|simpl; lia].
  - apply (engagement_counters_after_grant 3 1 2 7 7 10 [Samples.model_fan] Samples.model_fan
             [Samples.service_fan] Samples.service_fan);
      [reflexivity | simpl; lia | reflexivity | simpl; lia].
Defined.

(** C4, as stated, fails on [update_user_xp]: a grant of 10 points to the
    fan just created returns and stores a profile whose [bot_interactions]
    is still 0, not 1. *)
Lemma update_user_xp_keeps_bot_interactions :
  UserService.get_user_profile 7 [Samples.service_fan] = Some Samples.service_fan
  /\ exists us' colS',
       UserService.update_user_xp 10 3 7 10 [Samples.service_fan] = Some (Some us', colS')
       /\ UserService.get_user_profile 7 colS' = Some us'
       /\ UserService.bot_interactions (UserService.metrics Samples.service_fan) = 0
       /\ UserService.bot_interactions (UserService.metrics us') = 0
       /\ UserService.bot_interactions (UserService.metrics us') <>
            UserService.bot_interactions (UserService.metrics Samples.service_fan) + 1.
Proof.
  split; [reflexivity|]. eexists _, _.
  split; [reflexivity|]. split; [reflexivity|].
  split; [reflexivity|]. split; [reflexivity|]. simpl. lia.
Qed.




(* ===================================================================== *)
(** * Facts about the survey tallies                                      *)
(* ===================================================================== *)

Lemma zero_counts_fold (opts : list string) (m : gmap string Z) (o : string) :
  fold_left (fun m o => <[o := 0]> m) opts m !! o =
  if decide (o ∈ opts) then Some 0 else m !! o.
Proof.
  revert m. induction opts as [|a opts IH]; intros m; simpl.
  - destruct (decide (o ∈ [])) as [Hin|]; [|reflexivity]. now apply elem_of_nil in Hin.
  - rewrite IH. destruct (decide (o ∈ opts)) as [Hin|Hout].
    + rewrite decide_True by (now right). reflexivity.
    + destruct (decide (a = o)) as [->|Hne].
      * rewrite lookup_insert_eq, decide_True by left. reflexivity.
      * rewrite lookup_insert_ne by exact Hne.
        rewrite decide_False; [reflexivity|].
        intros [Heq|Hin]%elem_of_cons; [congruence|contradiction].
Qed.

Lemma zero_counts_lookup (opts : list string) (o : string) :
  Survey.zero_counts opts !! o = if decide (o ∈ opts) then Some 0 else None.
Proof. unfold Survey.zero_counts. now rewrite zero_counts_fold, lookup_empty. Qed.

Lemma chosen_same (o : string) : Survey.chosen o (Survey.SStr o) = 1.
Proof. simpl. now rewrite String.eqb_refl. Qed.

Lemma chosen_other (o s : string) : s <> o -> Survey.chosen o (Survey.SStr s) = 0.
Proof. intros Hne. simpl. destruct (String.eqb_spec s o); [contradiction|reflexivity]. Qed.

(** One membership test and increment adds [chosen o v] to the count of a
    declared option and creates no key. *)
Lemma tally_value_lookup (counts : gmap string Z) (v : Survey.scalar) (o : string) :
  Survey.tally_value counts v !! o = (fun n => n + Survey.chosen o v) <$> counts !! o.
Proof.
  assert (Hid : forall x : option Z, x = (fun n => n + 0) <$> x).
  { intros [n|]; simpl; [f_equal; lia|reflexivity]. }
  destruct v as [|b|z|f|s]; simpl Survey.tally_value; try apply Hid.
  destruct (decide (s = o)) as [->|Hne].
  - rewrite chosen_same. destruct (counts !! o) as [n|] eqn:Hn.
    + now rewrite lookup_insert_eq.
    + now rewrite Hn.
  - rewrite chosen_other by exact Hne. destruct (counts !! s) as [n|] eqn:Hn.
    + rewrite lookup_insert_ne by exact Hne. apply Hid.
    + apply Hid.
Qed.

Lemma tally_values_lookup (items : list Survey.scalar) (counts : gmap string Z) (o : string) :
  fold_left Survey.tally_value items counts !! o =
  (fun n => n + fold_right (fun v n => Survey.chosen o v + n) 0 items) <$> counts !! o.
Proof.
  revert counts. induction items as [|v items IH]; intros counts; simpl.
  - destruct (counts !! o); simpl; [f_equal; lia|reflexivity].
  - rewrite IH, tally_value_lookup.
    destruct (counts !! o); simpl; [f_equal; lia|reflexivity].
Qed.

Lemma tally_answer_lookup (counts : gmap string Z) (a : Survey.answer) (o : string) :
  Survey.tally_answer counts a !! o = (fun n => n + Survey.votes o a) <$> counts !! o.
Proof.
  destruct a as [v|items]; simpl.
  - apply tally_value_lookup.
  - apply tally_values_lookup.
Qed.

Lemma tally_responses_lookup (i : nat) (rs : list Survey.response)
      (counts : gmap string Z) (o : string) :
  fold_left (fun c r => Survey.tally_answer c (Survey.answer_at i r)) rs counts !! o =
  (fun n => n + Survey.total_votes o (map (Survey.answer_at i) rs)) <$> counts !! o.
Proof.
  revert counts. induction rs as [|r rs IH]; intros counts; simpl.
  - destruct (counts !! o); simpl; [f_equal; lia|reflexivity].
  - rewrite IH, tally_answer_lookup.
    destruct (counts !! o); simpl; [f_equal; lia|reflexivity].
Qed.

(** The result of a choice question. *)
Lemma question_result_choice (rs : list Survey.response) (i : nat) (q : Survey.question_def) :
  Survey.type q = "multiple_choice" \/ Survey.type q = "single_choice" ->
  Survey.question_result rs i q =
    {| Survey.question := Survey.text q; Survey.result_type := Survey.type q;
       Survey.option_counts :=
         Some (fold_left (fun c r => Survey.tally_answer c (Survey.answer_at i r)) rs
                 (Survey.zero_counts (default [] (Survey.options q))));
       Survey.text_answers := None; Survey.average := None;
       Survey.min := None; Survey.max := None; Survey.distribution := None |}.
Proof.
  intros Ht. unfold Survey.question_result, Survey.base_results.
  cbn [Survey.question Survey.result_type].
  destruct Ht as [Ht|Ht]; rewrite Ht; reflexivity.
Qed.

Lemma question_result_scale (rs : list Survey.response) (i : nat) (q : Survey.question_def) :
  Survey.type q = "scale" ->
  Survey.question_result rs i q =
    match omap (fun r => Survey.scale_value (Survey.answer_at i r)) rs with
    | [] => Survey.base_results q
    | x :: l =>
        {| Survey.question := Survey.text q; Survey.result_type := Survey.type q;
           Survey.option_counts := None; Survey.text_answers := None;
           Survey.average := Some (Survey.mean (x :: l));
           Survey.min := Some (Survey.list_min x l);
           Survey.max := Some (Survey.list_max x l);
           Survey.distribution := Some (Survey.histogram (x :: l)) |}
    end.
Proof.
  intros Ht. unfold Survey.question_result, Survey.base_results.
  cbn [Survey.question Survey.result_type]. rewrite Ht. reflexivity.
Qed.

Lemma list_min_spec (l : list Z) : forall x,
  (Survey.list_min x l = x \/ In (Survey.list_min x l) l)
  /\ Survey.list_min x l <= x
  /\ forall y, In y l -> Survey.list_min x l <= y.
Proof.
  unfold Survey.list_min. induction l as [|a l IH]; intros x; simpl.
  - split; [now left|]. split; [lia|]. intros y [].
  - destruct (IH (Z.min x a)) as (Hmem & Hle & Hall).
    split; [|split].
    + destruct Hmem as [Heq|Hin]; [|now right; right].
      rewrite Heq. destruct (Z.min_spec x a) as [[_ ->]|[_ ->]]; [now left|now right; left].
    + lia.
    + intros y [<-|Hy]; [lia|]. now apply Hall.
Qed.

Lemma list_max_spec (l : list Z) : forall x,
  (Survey.list_max x l = x \/ In (Survey.list_max x l) l)
  /\ x <= Survey.list_max x l
  /\ forall y, In y l -> y <= Survey.list_max x l.
Proof.
  unfold Survey.list_max. induction l as [|a l IH]; intros x; simpl.
  - split; [now left|]. split; [lia|]. intros y [].
  - destruct (IH (Z.max x a)) as (Hmem & Hle & Hall).
    split; [|split].
    + destruct Hmem as [Heq|Hin]; [|now right; right].
      rewrite Heq. destruct (Z.max_spec x a) as [[_ ->]|[_ ->]]; [now right; left|now left].
    + lia.
    + intros y [<-|Hy]; [lia|]. now apply Hall.
Qed.

Lemma sum_fold_left (l : list Z) : forall acc,
  fold_left Z.add l acc = acc + fold_right Z.add 0 l.
Proof.
  induction l as [|a l IH]; intros acc; simpl; [lia|]. rewrite IH. lia.
Qed.

(** Occurrences of [v] among the coerced answers. *)
Lemma histogram_fold (l : list Z) (v : Z) : forall d : gmap Z Z,
  fold_left (fun d v => <[v := default 0 (d !! v) + 1]> d) l d !! v =
  if decide (count_occ Z.eq_dec l v = 0%nat) then d !! v
  else Some (default 0 (d !! v) + Z.of_nat (count_occ Z.eq_dec l v)).
Proof.
  induction l as [|a l IH]; intros d; [reflexivity|].
  cbn [fold_left]. rewrite IH. destruct (Z.eq_dec a v) as [->|Hne].
  - rewrite (count_occ_cons_eq Z.eq_dec l eq_refl), lookup_insert_eq.
    cbn [default]. rewrite (decide_False (P := S _ = 0%nat)) by lia.
    unfold id.
    destruct (decide (count_occ Z.eq_dec l v = 0%nat)) as [->|_]; f_equal; lia.
  - rewrite (count_occ_cons_neq Z.eq_dec l Hne), lookup_insert_ne by exact Hne.
    reflexivity.
Qed.

Lemma histogram_lookup (l : list Z) (v : Z) :
  Survey.histogram l !! v =
  if decide (count_occ Z.eq_dec l v = 0%nat) then None
  else Some (Z.of_nat (count_occ Z.eq_dec l v)).
Proof. unfold Survey.histogram. now rewrite histogram_fold, lookup_empty. Qed.

Lemma get_survey_results_found (sid : string) (surveys : list Survey.survey)
      (all_replies : list Survey.response) (s : Survey.survey) :
  Mongo.find_one (Survey.by_id sid) surveys = Some s ->
  let rs := List.filter (Survey.for_survey sid) all_replies in
  Survey.get_survey_results sid surveys all_replies =
    Survey.Aggregated (Survey.title s) (length rs)
      (imap (Survey.question_result rs) (Survey.questions s))
  /\ forall i q, Survey.questions s !! i = Some q ->
       imap (Survey.question_result rs) (Survey.questions s) !! i =
         Some (Survey.question_result rs i q).
Proof.
  intros Hs rs. unfold Survey.get_survey_results. rewrite Hs. split; [reflexivity|].
  intros i q Hq. now rewrite list_lookup_imap, Hq.
Qed.

(* ===================================================================== *)
(** * Survey aggregation: the properties of the specification             *)
(* ===================================================================== *)

(** C7.  With options A, B, C and the answers [A, B], [B], [C, A] the counts
    are A:2, B:2, C:1.  In general the count of a declared option is the
    number of times it occurs as a member of a list answer or as a scalar
    answer, and a value that is not a declared option adds no key and
    changes no count. *)
Theorem choice_counts :
  Survey.get_survey_results "64b7f0c2a1d3e4f5a6b7c8d9"
    [Samples.scale_survey; Samples.choice_survey]
    (Samples.scale_replies ++ Samples.choice_replies)%list =
  Survey.Aggregated "Lineup" 3
    [ {| Survey.question := "Pick"; Survey.result_type := "multiple_choice";
         Survey.option_counts := Some (<["A" := 2]> (<["B" := 2]> (<["C" := 1]> ∅)));
         Survey.text_answers := None; Survey.average := None;
         Survey.min := None; Survey.max := None; Survey.distribution := None |} ]
  /\ forall (sid : string) (surveys : list Survey.survey)
            (all_replies : list Survey.response) (s : Survey.survey)
            (i : nat) (q : Survey.question_def),
       Mongo.find_one (Survey.by_id sid) surveys = Some s ->
       Survey.questions s !! i = Some q ->
       Survey.type q = "multiple_choice" \/ Survey.type q = "single_choice" ->
       exists n per_question r counts,
         Survey.get_survey_results sid surveys all_replies =
           Survey.Aggregated (Survey.title s) n per_question
         /\ per_question !! i = Some r
         /\ Survey.option_counts r = Some counts
         /\ forall o : string,
              counts !! o =
              if decide (o ∈ default [] (Survey.options q))
              then Some (Survey.total_votes o
                           (map (Survey.answer_at i)
                                (List.filter (Survey.for_survey sid) all_replies)))
              else None.
Proof.
  split; [vm_compute; reflexivity|].
  intros sid surveys all_replies s i q Hs Hq Ht.
  destruct (get_survey_results_found sid surveys all_replies s Hs) as [Hres Hlook].
  eexists _, _, _, _. split; [exact Hres|]. split; [exact (Hlook i q Hq)|].
  rewrite (question_result_choice _ i q Ht). split; [reflexivity|].
  intros o. rewrite tally_responses_lookup, zero_counts_lookup.
  destruct (decide (o ∈ default [] (Survey.options q))); reflexivity.
Qed.

Lemma choice_counts_witness :
  (Mongo.find_one (Survey.by_id "64b7f0c2a1d3e4f5a6b7c8d9") [Samples.choice_survey] =
     Some Samples.choice_survey
   /\ Survey.questions Samples.choice_survey !! 0%nat =
        Some {| Survey.text := "Pick"; Survey.type := "multiple_choice";
                Survey.options := Some ["A"; "B"; "C"] |}
   /\ ("multiple_choice" = "multiple_choice" \/ "multiple_choice" = "single_choice"))
  /\ exists n per_question r counts,
       Survey.get_survey_results "64b7f0c2a1d3e4f5a6b7c8d9" [Samples.choice_survey]
         Samples.choice_replies =
         Survey.Aggregated "Lineup" n per_question
       /\ per_question !! 0%nat = Some r
       /\ Survey.option_counts r = Some counts
       /\ forall o : string,
            counts !! o =
            if decide (o ∈ ["A"; "B"; "C"])
            then Some (Survey.total_votes o
                         (map (Survey.answer_at 0)
                              (List.filter (Survey.for_survey "64b7f0c2a1d3e4f5a6b7c8d9")
                                           Samples.choice_replies)))
            else None.
Proof.
  split.
  - split; [reflexivity|]. split; [reflexivity|]. left; reflexivity.
  - apply (proj2 choice_counts "64b7f0c2a1d3e4f5a6b7c8d9" [Samples.choice_survey]
             Samples.choice_replies Samples.choice_survey 0%nat
             {| Survey.text := "Pick"; Survey.type := "multiple_choice";
                Survey.options := Some ["A"; "B"; "C"] |});
      [reflexivity | reflexivity | left; reflexivity].
Defined.

(** C8.  The scale answers 3, 5, "x", null, 7 give average 5, minimum 3 and
    maximum 7, with the histogram 3:1, 5:1, 7:1.  The aggregation does not
    hold in general, though.  A float infinity is an answer that [int] does
    not coerce, and it is not skipped: the [OverflowError] of [int] is not
    among the exceptions the loop catches, so one such answer next to the
    five above makes the whole aggregation raise.  And the text of [10^400]
    is an answer that [int] does coerce, but no statistics are computed
    over it: the division of the average raises [OverflowError]. *)
Theorem scale_statistics_raise :
  (omap (fun r => Survey.scale_value (Survey.answer_at 0 r)) Samples.scale_replies = [3; 5; 7]
   /\ exists avg,
        SurveyService.get_survey_results "64b7f0c2a1d3e4f5a6b7c8da"
          [Samples.scale_survey; Samples.choice_survey]
          (Samples.scale_replies ++ Samples.choice_replies)%list =
        Py.Ok (Survey.Aggregated "Match" 5
          [ {| Survey.question := "Rate"; Survey.result_type := "scale";
               Survey.option_counts := None; Survey.text_answers := None;
               Survey.average := Some avg;
               Survey.min := Some 3; Survey.max := Some 7;
               Survey.distribution := Some (<[3 := 1]> (<[5 := 1]> (<[7 := 1]> ∅))) |} ])
        /\ Qeq avg (inject_Z 5))
  /\ (SurveyService.int_of (Survey.AScalar (Survey.SFloat (Py.Infinity false))) =
        Py.Raise (Py.OverflowError "cannot convert float infinity to integer")
      /\ SurveyService.get_survey_results "64b7f0c2a1d3e4f5a6b7c8da"
           [Samples.scale_survey; Samples.choice_survey]
           (Samples.scale_replies ++ [Samples.infinite_reply])%list =
         Py.Raise (Py.OverflowError "cannot convert float infinity to integer"))
  /\ (SurveyService.int_of (Survey.AScalar (Survey.SStr Samples.huge_text)) =
        Py.Ok (10 ^ 400)
      /\ SurveyService.get_survey_results "64b7f0c2a1d3e4f5a6b7c8da"
           [Samples.scale_survey; Samples.choice_survey]
           (Samples.scale_replies ++ [Samples.huge_reply])%list =
         Py.Raise (Py.OverflowError "integer division result too large for a float")).
Proof.
  split; [|split].
  - split; [vm_compute; reflexivity|].
    eexists. split; [vm_compute; reflexivity|]. vm_compute. reflexivity.
  - split; vm_compute; reflexivity.
  - split; vm_compute; reflexivity.
Qed.

(** C9.  For a survey that exists and has no responses, the aggregation
    returns a result (not the not-found dictionary) with a total of zero and
    one entry per question, whatever the question types: no average,
    minimum, maximum or histogram is set, the counts of a choice question
    hold exactly the declared options, each at zero, and the answers of a
    text question are the empty list. *)
Theorem empty_survey_results (sid : string) (surveys : list Survey.survey)
        (all_replies : list Survey.response) (s : Survey.survey) :
  Mongo.find_one (Survey.by_id sid) surveys = Some s ->
  List.filter (Survey.for_survey sid) all_replies = [] ->
  exists per_question,
    Survey.get_survey_results sid surveys all_replies =
      Survey.Aggregated (Survey.title s) 0 per_question
    /\ length per_question = length (Survey.questions s)
    /\ forall i q, Survey.questions s !! i = Some q ->
       exists r,
         per_question !! i = Some r
         /\ Survey.question r = Survey.text q
         /\ Survey.result_type r = Survey.type q
         /\ Survey.average r = None /\ Survey.min r = None
         /\ Survey.max r = None /\ Survey.distribution r = None
         /\ (Survey.type q = "multiple_choice" \/ Survey.type q = "single_choice" ->
             exists counts, Survey.option_counts r = Some counts)
         /\ (forall counts, Survey.option_counts r = Some counts ->
             forall o : string,
               counts !! o =
               if decide (o ∈ default [] (Survey.options q)) then Some 0 else None)
         /\ (Survey.type q = "text" -> Survey.text_answers r = Some [])
         /\ (forall answers, Survey.text_answers r = Some answers -> answers = []).
Proof.
  intros Hs Hempty.
  destruct (get_survey_results_found sid surveys all_replies s Hs) as [Hres Hlook].
  rewrite Hempty in Hres, Hlook. eexists. split; [exact Hres|].
  split; [apply length_imap|].
  intros i q Hq. eexists. split; [exact (Hlook i q Hq)|].
  unfold Survey.question_result, Survey.base_results. cbn [fold_left map List.filter omap].
  destruct (String.eqb (Survey.type q) "multiple_choice"
            || String.eqb (Survey.type q) "single_choice") eqn:Hchoice.
  - cbn. repeat (split; [reflexivity|]).
    split; [eauto|]. split.
    + intros counts [= <-] o. apply zero_counts_lookup.
    + split; [|discriminate]. intros Ht. rewrite Ht in Hchoice. discriminate.
  - assert (Hnot : ~ (Survey.type q = "multiple_choice" \/ Survey.type q = "single_choice")).
    { intros [Ht|Ht]; rewrite Ht in Hchoice; discriminate. }
    destruct (String.eqb_spec (Survey.type q) "text") as [Ht|Hnt].
    + cbn. repeat (split; [reflexivity|]).
      split; [tauto|]. split; [discriminate|].
      split; [reflexivity|]. now intros answers [= <-].
    + destruct (String.eqb (Survey.type q) "scale");
        cbn; repeat (split; [reflexivity|]);
        (split; [tauto|]); (split; [discriminate|]);
        (split; [tauto|discriminate]).
Qed.

Lemma empty_survey_results_witness :
  (Mongo.find_one (Survey.by_id "64b7f0c2a1d3e4f5a6b7c8d9")
     [Samples.scale_survey; Samples.choice_survey] = Some Samples.choice_survey
   /\ List.filter (Survey.for_survey "64b7f0c2a1d3e4f5a6b7c8d9") Samples.scale_replies = [])
  /\ exists per_question,
    Survey.get_survey_results "64b7f0c2a1d3e4f5a6b7c8d9"
      [Samples.scale_survey; Samples.choice_survey] Samples.scale_replies =
      Survey.Aggregated (Survey.title Samples.choice_survey) 0 per_question
    /\ length per_question = length (Survey.questions Samples.choice_survey)
    /\ forall i q, Survey.questions Samples.choice_survey !! i = Some q ->
       exists r,
         per_question !! i = Some r
         /\ Survey.question r = Survey.text q
         /\ Survey.result_type r = Survey.type q
         /\ Survey.average r = None /\ Survey.min r = None
         /\ Survey.max r = None /\ Survey.distribution r = None
         /\ (Survey.type q = "multiple_choice" \/ Survey.type q = "single_choice" ->
             exists counts, Survey.option_counts r = Some counts)
         /\ (forall counts, Survey.option_counts r = Some counts ->
             forall o : string,
               counts !! o =
               if decide (o ∈ default [] (Survey.options q)) then Some 0 else None)
         /\ (Survey.type q = "text" -> Survey.text_answers r = Some [])
         /\ (forall answers, Survey.text_answers r = Some answers -> answers = []).
Proof.
  split.
  - split; reflexivity.
  - apply (empty_survey_results "64b7f0c2a1d3e4f5a6b7c8d9"
             [Samples.scale_survey; Samples.choice_survey] Samples.scale_replies
             Samples.choice_survey); reflexivity.
Defined.

(* ===================================================================== *)
(** * Facts about ingestion                                               *)
(* ===================================================================== *)

Section UpsertFacts.
Context {D : Type}.
Implicit Types (q : D -> bool) (col : list D).

Lemma existsb_after_upsert q doc col :
  q doc = true -> existsb q (Mongo.upsert_set_on_insert q doc col) = true.
Proof.
  intros Hq. destruct (existsb q col) eqn:He.
  - now rewrite upsert_present.
  - rewrite upsert_absent by exact He. rewrite existsb_app. simpl.
    rewrite Hq. now rewrite orb_true_r.
Qed.

Lemma count_after_insert q doc col :
  q doc = true -> existsb q col = false ->
  Mongo.count_documents q (col ++ [doc])%list = 1%nat.
Proof.
  intros Hq He. rewrite count_app.
  apply count_zero_absent in He. rewrite He.
  unfold Mongo.count_documents. simpl. now rewrite Hq.
Qed.

End UpsertFacts.

Lemma team_doc_fields (w : NewsService.world) (t : NewsService.tweet)
      (pid : string) (d : NewsService.post) :
  NewsService.id t = Some pid ->
  NewsService.team_doc w t = Py.Ok d ->
  NewsService.post_id d = pid /\ NewsService.source d = "twitter"
  /\ NewsService.player_id d = None
  /\ NewsService.team_key "twitter" pid d = true.
Proof.
  intros Hid. unfold NewsService.team_doc. rewrite Hid. cbn.
  destruct (NewsService.created_at t) as [c|]; cbn; [|discriminate].
  destruct (NewsService.fromisoformat w _) as [ts|e]; cbn; [|discriminate].
  intros [= <-]. cbn. unfold NewsService.team_key. cbn.
  now rewrite String.eqb_refl.
Qed.

Lemma player_doc_fields (w : NewsService.world) (player handle : string)
      (t : NewsService.tweet) (pid : string) (d : NewsService.post) :
  NewsService.id t = Some pid ->
  NewsService.player_doc w player handle t = Py.Ok d ->
  NewsService.post_id d = pid /\ NewsService.source d = "twitter"
  /\ NewsService.player_id d = Some player
  /\ NewsService.player_key player pid d = true.
Proof.
  intros Hid. unfold NewsService.player_doc. rewrite Hid. cbn.
  destruct (NewsService.created_at t) as [c|]; cbn; [|discriminate].
  destruct (NewsService.fromisoformat w _) as [ts|e]; cbn; [|discriminate].
  intros [= <-]. cbn. unfold NewsService.player_key. cbn.
  now rewrite !String.eqb_refl.
Qed.

(** A step of the loop that can only leave alone a collection holding the
    key it looks for keeps such a collection unchanged through any number
    of rounds, whether a round raises or not. *)
Lemma store_all_present (step : NewsService.tweet -> list NewsService.post ->
                                Py.result (list NewsService.post))
      (sightings : list NewsService.tweet) (col : list NewsService.post) :
  Forall (fun t => forall col', step t col = Py.Ok col' -> col' = col) sightings ->
  fst (NewsService.store_all step sightings col) = col.
Proof.
  induction 1 as [|t rest Ht _ IH]; simpl; [reflexivity|].
  destruct (step t col) as [col'|e] eqn:Hstep; [|reflexivity].
  now rewrite (Ht col' eq_refl).
Qed.

Lemma store_team_tweet_present (w : NewsService.world) (t : NewsService.tweet)
      (pid : string) (col col' : list NewsService.post) :
  NewsService.id t = Some pid ->
  existsb (NewsService.team_key "twitter" pid) col = true ->
  NewsService.store_team_tweet w t col = Py.Ok col' -> col' = col.
Proof.
  intros Hid He. unfold NewsService.store_team_tweet.
  destruct (NewsService.team_doc w t) as [d|e] eqn:Hd; cbn; [|discriminate].
  destruct (team_doc_fields w t pid d Hid Hd) as (-> & _).
  intros [= <-]. now apply upsert_present.
Qed.

Lemma store_player_tweet_present (w : NewsService.world) (player handle : string)
      (t : NewsService.tweet) (pid : string) (col col' : list NewsService.post) :
  NewsService.id t = Some pid ->
  existsb (NewsService.player_key player pid) col = true ->
  NewsService.store_player_tweet w player handle t col = Py.Ok col' -> col' = col.
Proof.
  intros Hid He. unfold NewsService.store_player_tweet.
  destruct (NewsService.player_doc w player handle t) as [d|e] eqn:Hd; cbn; [|discriminate].
  destruct (player_doc_fields w player handle t pid d Hid Hd) as (-> & _).
  intros [= <-]. now apply upsert_present.
Qed.

(** What a fetch that got its list of tweets leaves in the team collection,
    and what an unreadable configuration means for every player. *)
Lemma fetch_team_tweets_store (w : NewsService.world) (st : NewsService.state)
      (user_id : string) (tweets : list NewsService.tweet) :
  NewsService.get_twitter_user_id w NewsService.team_twitter_username = Py.Ok user_id ->
  NewsService.get_user_tweets w user_id = Py.Ok tweets ->
  fst (NewsService.fetch_team_tweets w st) = Py.Ok tt
  /\ NewsService.team_news (snd (NewsService.fetch_team_tweets w st)) =
       fst (NewsService.store_all (NewsService.store_team_tweet w) tweets
              (NewsService.team_news st))
  /\ NewsService.player_news (snd (NewsService.fetch_team_tweets w st)) =
       NewsService.player_news st.
Proof.
  intros Hid Htw. unfold NewsService.fetch_team_tweets, NewsService.fetch_team_tweets_try.
  rewrite Hid, Htw.
  destruct (NewsService.store_all _ tweets _) as [col [e|]]; repeat split.
Qed.

Lemma load_unreadable (player : string) :
  PlayerService.get_twitter_handle (PlayerService.load None) player = None.
Proof. unfold PlayerService.get_twitter_handle, PlayerService.load. simpl. now rewrite lookup_empty. Qed.

(* ===================================================================== *)
(** * Ingestion: the properties of the specification                      *)
(* ===================================================================== *)

(** C5.  Ingestion is insert-if-absent on the key of each collection,
    (source, post id) for team posts and (player id, post id) for player
    posts.  When no record has the key of an item, processing the item and
    then any number of later sightings of it, whatever their content, adds
    the document of the first sighting and nothing else, and exactly one
    record has the key; when a record has the key, the collection is left
    exactly as it was. *)
Theorem ingestion_insert_if_absent (w : NewsService.world) (player handle : string)
        (t : NewsService.tweet) (pid : string) (doc pdoc : NewsService.post)
        (later : list NewsService.tweet) (team players : list NewsService.post) :
  NewsService.id t = Some pid ->
  NewsService.team_doc w t = Py.Ok doc ->
  NewsService.player_doc w player handle t = Py.Ok pdoc ->
  Forall (fun t' => NewsService.id t' = Some pid) later ->
  ((existsb (NewsService.team_key "twitter" pid) team = false ->
    fst (NewsService.store_all (NewsService.store_team_tweet w) (t :: later) team) =
      (team ++ [doc])%list
    /\ Mongo.count_documents (NewsService.team_key "twitter" pid) (team ++ [doc])%list = 1%nat)
   /\ (existsb (NewsService.team_key "twitter" pid) team = true ->
       fst (NewsService.store_all (NewsService.store_team_tweet w) (t :: later) team) = team))
  /\ ((existsb (NewsService.player_key player pid) players = false ->
       fst (NewsService.store_all (NewsService.store_player_tweet w player handle)
              (t :: later) players) = (players ++ [pdoc])%list
       /\ Mongo.count_documents (NewsService.player_key player pid)
            (players ++ [pdoc])%list = 1%nat)
      /\ (existsb (NewsService.player_key player pid) players = true ->
          fst (NewsService.store_all (NewsService.store_player_tweet w player handle)
                 (t :: later) players) = players)).
Proof.
  intros Hid Hdoc Hpdoc Hlater.
  destruct (team_doc_fields w t pid doc Hid Hdoc) as (Hpost & _ & _ & Hkey).
  destruct (player_doc_fields w player handle t pid pdoc Hid Hpdoc) as (Hppost & _ & _ & Hpkey).
  assert (Hall : Forall (fun t' => NewsService.id t' = Some pid) (t :: later))
    by (constructor; assumption).
  split; split.
  - intros Habsent. split; [|now apply count_after_insert].
    cbn [NewsService.store_all]. unfold NewsService.store_team_tweet at 1.
    rewrite Hdoc. cbn. rewrite Hpost, (upsert_absent _ _ _ Habsent).
    apply store_all_present. eapply Forall_impl; [exact Hlater|].
    intros t' Hid' col'. apply (store_team_tweet_present w t' pid); [exact Hid'|].
    rewrite existsb_app. simpl. now rewrite Hkey, orb_true_r.
  - intros Hpresent. apply store_all_present.
    eapply Forall_impl; [exact Hall|].
    intros t' Hid' col'. now apply (store_team_tweet_present w t' pid).
  - intros Habsent. split; [|now apply count_after_insert].
    cbn [NewsService.store_all]. unfold NewsService.store_player_tweet at 1.
    rewrite Hpdoc. cbn. rewrite Hppost, (upsert_absent _ _ _ Habsent).
    apply store_all_present. eapply Forall_impl; [exact Hlater|].
    intros t' Hid' col'. apply (store_player_tweet_present w player handle t' pid); [exact Hid'|].
    rewrite existsb_app. simpl. now rewrite Hpkey, orb_true_r.
  - intros Hpresent. apply store_all_present.
    eapply Forall_impl; [exact Hall|].
    intros t' Hid' col'. now apply (store_player_tweet_present w player handle t' pid).
Qed.

Lemma ingestion_insert_if_absent_witness :
  (NewsService.id Samples.tweet_seen = Some "1790"
   /\ NewsService.team_doc Samples.online Samples.tweet_seen = Py.Ok Samples.seen_team_doc
   /\ NewsService.player_doc Samples.online "yuurih" "yuurihfps" Samples.tweet_seen =
        Py.Ok Samples.seen_player_doc
   /\ Forall (fun t' => NewsService.id t' = Some "1790")
        [Samples.tweet_edited; Samples.tweet_seen])
  /\ ((existsb (NewsService.team_key "twitter" "1790") [] = false ->
       fst (NewsService.store_all (NewsService.store_team_tweet Samples.online)
              [Samples.tweet_seen; Samples.tweet_edited; Samples.tweet_seen] []) =
         [Samples.seen_team_doc]
       /\ Mongo.count_documents (NewsService.team_key "twitter" "1790")
            [Samples.seen_team_doc] = 1%nat)
      /\ (existsb (NewsService.team_key "twitter" "1790") [] = true ->
          fst (NewsService.store_all (NewsService.store_team_tweet Samples.online)
                 [Samples.tweet_seen; Samples.tweet_edited; Samples.tweet_seen] []) = []))
  /\ ((existsb (NewsService.player_key "yuurih" "1790") [Samples.seen_player_doc] = false ->
       fst (NewsService.store_all
              (NewsService.store_player_tweet Samples.online "yuurih" "yuurihfps")
              [Samples.tweet_seen; Samples.tweet_edited; Samples.tweet_seen]
              [Samples.seen_player_doc]) =
         [Samples.seen_player_doc; Samples.seen_player_doc]
       /\ Mongo.count_documents (NewsService.player_key "yuurih" "1790")
            [Samples.seen_player_doc; Samples.seen_player_doc] = 1%nat)
      /\ (existsb (NewsService.player_key "yuurih" "1790") [Samples.seen_player_doc] = true ->
          fst (NewsService.store_all
                 (NewsService.store_player_tweet Samples.online "yuurih" "yuurihfps")
                 [Samples.tweet_seen; Samples.tweet_edited; Samples.tweet_seen]
                 [Samples.seen_player_doc]) = [Samples.seen_player_doc])).
Proof.
  split.
  - split; [reflexivity|]. split; [reflexivity|]. split; [reflexivity|].
    repeat constructor.
  - apply (ingestion_insert_if_absent Samples.online "yuurih" "yuurihfps"
             Samples.tweet_seen "1790" Samples.seen_team_doc Samples.seen_player_doc
             [Samples.tweet_edited; Samples.tweet_seen] [] [Samples.seen_player_doc]);
      [reflexivity | reflexivity | reflexivity | repeat constructor].
Defined.

(** C6, as the code has it.  For a player without a configured handle
    (absent or empty) [fetch_player_tweets] raises nothing, makes no request
    and writes nothing: it returns [None] and appends one error record that
    names the missing handle.  [None] is what it returns in every case, so
    the condition reaches the log and not the caller. *)
Theorem unconfigured_handle_is_logged (w : NewsService.world)
        (players : gmap string (gmap string string)) (player : string)
        (st : NewsService.state) :
  PlayerService.get_twitter_handle players player = None
  \/ PlayerService.get_twitter_handle players player = Some "" ->
  NewsService.fetch_player_tweets w players player st =
    (Py.Ok tt,
     NewsService.add_log
       (NewsService.LogError
          ("Error fetching tweets for " ++ player ++ ": "
           ++ "Twitter handle não configurado para " ++ player)) st)
  /\ forall w' players' player' st',
       fst (NewsService.fetch_player_tweets w' players' player' st') = Py.Ok tt.
Proof.
  intros Hh. split.
  - unfold NewsService.fetch_player_tweets, NewsService.fetch_player_tweets_try.
    destruct Hh as [-> | ->]; reflexivity.
  - intros w' players' player' st'. unfold NewsService.fetch_player_tweets.
    destruct (NewsService.fetch_player_tweets_try w' players' player' st') as [st'' [n|e]];
      reflexivity.
Qed.

Lemma unconfigured_handle_is_logged_witness :
  (PlayerService.get_twitter_handle Samples.registry "ghost" = None
   \/ PlayerService.get_twitter_handle Samples.registry "ghost" = Some "")
  /\ NewsService.fetch_player_tweets Samples.online Samples.registry "ghost"
       Samples.empty_state =
     (Py.Ok tt,
      NewsService.add_log
        (NewsService.LogError
           ("Error fetching tweets for " ++ "ghost" ++ ": "
            ++ "Twitter handle não configurado para " ++ "ghost"))
        Samples.empty_state)
  /\ forall w' players' player' st',
       fst (NewsService.fetch_player_tweets w' players' player' st') = Py.Ok tt.
Proof.
  split.
  - left. reflexivity.
  - apply (unconfigured_handle_is_logged Samples.online Samples.registry "ghost"
             Samples.empty_state).
    left. reflexivity.
Defined.

(** C6, as stated, fails: the caller of [fetch_player_tweets] receives the
    same value, and finds the same store, for a player without a handle as
    for a configured player whose request fails; only the text of the log
    record differs. *)
Lemma unconfigured_handle_looks_like_fetch_failure :
  PlayerService.get_twitter_handle Samples.registry "ghost" = None
  /\ PlayerService.get_twitter_handle Samples.registry "yuurih" = Some "yuurihfps"
  /\ snd (NewsService.fetch_player_tweets_try Samples.offline Samples.registry "yuurih"
            Samples.empty_state) = Py.Raise (Py.RequestException "503 Server Error")
  /\ fst (NewsService.fetch_player_tweets Samples.offline Samples.registry "ghost"
            Samples.empty_state) =
     fst (NewsService.fetch_player_tweets Samples.offline Samples.registry "yuurih"
            Samples.empty_state)
  /\ NewsService.player_news
       (snd (NewsService.fetch_player_tweets Samples.offline Samples.registry "ghost"
               Samples.empty_state)) =
     NewsService.player_news
       (snd (NewsService.fetch_player_tweets Samples.offline Samples.registry "yuurih"
               Samples.empty_state)).
Proof. repeat split; vm_compute; reflexivity. Qed.

(* ===================================================================== *)
(** * Facts about the descending sort                                     *)
(* ===================================================================== *)

Section DescFacts.
Context {A : Type} (key_lt : A -> A -> bool).
Hypothesis key_lt_asym : forall a b, key_lt a b = true -> key_lt b a = false.
Hypothesis key_ge_trans :
  forall a b c, key_lt a b = false -> key_lt b c = false -> key_lt a c = false.

Lemma insert_desc_perm (a : A) (l : list A) : Desc.insert_desc key_lt a l ≡ₚ a :: l.
Proof.
  induction l as [|b l IH]; simpl; [reflexivity|].
  destruct (key_lt a b); [|reflexivity].
  rewrite IH. apply Permutation_swap.
Qed.

Lemma sort_desc_perm (l : list A) : Desc.sort_desc key_lt l ≡ₚ l.
Proof.
  induction l as [|a l IH]; simpl; [reflexivity|].
  rewrite insert_desc_perm. now rewrite IH.
Qed.

Lemma insert_desc_sorted (a : A) (l : list A) :
  StronglySorted (fun x y => key_lt x y = false) l ->
  StronglySorted (fun x y => key_lt x y = false) (Desc.insert_desc key_lt a l).
Proof.
  induction 1 as [|b l Hl IH Hb]; simpl.
  - repeat constructor.
  - destruct (key_lt a b) eqn:Hab.
    + constructor; [exact IH|].
      rewrite insert_desc_perm. constructor; [now apply key_lt_asym|exact Hb].
    + constructor; [now constructor|].
      constructor; [exact Hab|].
      eapply Forall_impl; [exact Hb|]. intros c Hbc. now apply (key_ge_trans a b c).
Qed.

Lemma sort_desc_sorted (l : list A) :
  StronglySorted (fun x y => key_lt x y = false) (Desc.sort_desc key_lt l).
Proof.
  induction l as [|a l IH]; simpl; [constructor|]. now apply insert_desc_sorted.
Qed.

(** The first [k] elements of the sorted list are in order, and none of
    them is below an element that was left out. *)
Lemma sort_desc_take (k : nat) (l : list A) :
  (forall i j a b, (i < j)%nat ->
     take k (Desc.sort_desc key_lt l) !! i = Some a ->
     take k (Desc.sort_desc key_lt l) !! j = Some b -> key_lt a b = false)
  /\ (forall a b, a ∈ take k (Desc.sort_desc key_lt l) ->
        b ∈ drop k (Desc.sort_desc key_lt l) -> key_lt a b = false)
  /\ (forall b, b ∈ l -> b ∈ take k (Desc.sort_desc key_lt l)
                         \/ b ∈ drop k (Desc.sort_desc key_lt l)).
Proof.
  pose proof (sort_desc_sorted l) as Hs.
  pose proof (sort_desc_perm l) as Hp.
  set (sl := Desc.sort_desc key_lt l) in *.
  rewrite <- (take_drop k sl) in Hs.
  split; [|split].
  - intros i j a b Hij Ha Hb.
    apply StronglySorted_app_1_l in Hs.
    pose proof (take_drop_middle _ _ _ Hb) as Hmid.
    rewrite <- Hmid in Hs.
    apply (StronglySorted_app_1_elem_of (fun x y => key_lt x y = false) _ _ a b Hs);
      [|left].
    apply list_elem_of_lookup. exists i. rewrite lookup_take_lt by lia. exact Ha.
  - intros a b Ha Hb.
    now apply (StronglySorted_app_1_elem_of (fun x y => key_lt x y = false) _ _ a b Hs).
  - intros b Hb. rewrite <- Hp, <- (take_drop k sl) in Hb.
    now apply elem_of_app in Hb.
Qed.

End DescFacts.

(* ===================================================================== *)
(** * More facts about collections                                        *)
(* ===================================================================== *)

Section MoreCollectionFacts.
Context {D : Type}.
Implicit Types (q : D -> bool) (f : D -> D) (col : list D).

Lemma update_one_length q f col : length (Mongo.update_one q f col) = length col.
Proof.
  induction col as [|d col IH]; simpl; [reflexivity|].
  destruct (q d); simpl; [reflexivity|]. now rewrite IH.
Qed.

(** A filter that rejects what another filter's update reads and writes
    finds the same document before and after that update. *)
Lemma find_one_update_one_other q q' f col :
  (forall d, q d = true -> q' d = false /\ q' (f d) = false) ->
  Mongo.find_one q' (Mongo.update_one q f col) = Mongo.find_one q' col.
Proof.
  intros Hq. unfold Mongo.find_one. induction col as [|d col IH]; simpl; [reflexivity|].
  destruct (q d) eqn:Hd; simpl.
  - destruct (Hq d Hd) as [-> ->]. reflexivity.
  - destruct (q' d); [reflexivity|exact IH].
Qed.

Lemma find_one_none_absent q col :
  Mongo.find_one q col = None <-> existsb q col = false.
Proof.
  unfold Mongo.find_one. induction col as [|d col IH]; simpl; [tauto|].
  destruct (q d); simpl; [split; discriminate|exact IH].
Qed.

Lemma find_one_app_absent q col col' :
  Mongo.find_one q col = None ->
  Mongo.find_one q (col ++ col')%list = Mongo.find_one q col'.
Proof.
  unfold Mongo.find_one. induction col as [|d col IH]; simpl; [reflexivity|].
  destruct (q d); [discriminate|exact IH].
Qed.

Lemma count_present q col d :
  Mongo.find_one q col = Some d -> (1 <= Mongo.count_documents q col)%nat.
Proof.
  unfold Mongo.find_one, Mongo.count_documents.
  induction col as [|c col IH]; simpl; [discriminate|].
  destruct (q c); simpl; [lia|exact IH].
Qed.

End MoreCollectionFacts.

(* ===================================================================== *)
(** * Users: what the code shows beyond the specification                 *)
(* ===================================================================== *)

(** X1.  [get_or_create_user] returns a user with the requested id who is
    then the one [get_user] finds; when the id was already there the
    collection is not touched, otherwise exactly one document is added; and
    a second call returns the same user and changes nothing. *)
Theorem get_or_create_user_once (now now' tid : Z) (name name' : string)
        (col : list UserModel.user) :
  exists u,
    UserModel.get_or_create_user now tid name col =
      (Some u, snd (UserModel.get_or_create_user now tid name col))
    /\ UserModel.telegram_id u = tid
    /\ UserModel.get_user tid (snd (UserModel.get_or_create_user now tid name col)) = Some u
    /\ (forall u0, UserModel.get_user tid col = Some u0 ->
          u = u0 /\ snd (UserModel.get_or_create_user now tid name col) = col)
    /\ (UserModel.get_user tid col = None ->
          u = UserModel.new_user now tid name
          /\ snd (UserModel.get_or_create_user now tid name col) = (col ++ [u])%list
          /\ Mongo.count_documents (UserModel.by_telegram_id tid)
               (snd (UserModel.get_or_create_user now tid name col)) = 1%nat)
    /\ UserModel.get_or_create_user now' tid name'
         (snd (UserModel.get_or_create_user now tid name col)) =
       (Some u, snd (UserModel.get_or_create_user now tid name col)).
Proof.
  unfold UserModel.get_or_create_user.
  destruct (UserModel.get_user tid col) as [u0|] eqn:Hget.
  - exists u0. cbn [fst snd]. rewrite Hget.
    split; [reflexivity|]. split.
    { apply find_one_matches in Hget. now apply Z.eqb_eq in Hget. }
    split; [reflexivity|]. split; [now intros ? [= <-]|]. split; [discriminate|reflexivity].
  - assert (Hnew : UserModel.get_user tid (UserModel.create_user now tid name col) =
                   Some (UserModel.new_user now tid name)).
    { unfold UserModel.get_user, UserModel.create_user, Mongo.insert_one.
      rewrite find_one_app_absent by exact Hget.
      unfold Mongo.find_one, UserModel.by_telegram_id. simpl. now rewrite Z.eqb_refl. }
    exists (UserModel.new_user now tid name). rewrite Hnew. cbn [fst snd]. rewrite Hnew.
    split; [reflexivity|]. split; [reflexivity|]. split; [reflexivity|].
    split; [discriminate|]. split; [|reflexivity].
    intros _. split; [reflexivity|]. split; [reflexivity|].
    unfold UserModel.create_user, Mongo.insert_one.
    apply count_after_insert.
    + unfold UserModel.by_telegram_id. simpl. apply Z.eqb_refl.
    + now apply find_one_none_absent.
Qed.

Lemma by_telegram_id_other (tid tid' : Z) (f : UserModel.user -> UserModel.user) :
  tid' <> tid ->
  (forall d, UserModel.telegram_id (f d) = UserModel.telegram_id d) ->
  forall d, UserModel.by_telegram_id tid d = true ->
    UserModel.by_telegram_id tid' d = false /\ UserModel.by_telegram_id tid' (f d) = false.
Proof.
  intros Hne Hf d Hd. unfold UserModel.by_telegram_id in *. rewrite Hf.
  apply Z.eqb_eq in Hd. split; apply Z.eqb_neq; lia.
Qed.

(** X2.  [add_xp] rewrites the document of its user and nothing else: the
    collection keeps its size and every other user is found unchanged. *)
Theorem add_xp_touches_one_user (now1 now2 tid g : Z) (col : list UserModel.user)
        (u : UserModel.user) :
  UserModel.get_user tid col = Some u ->
  0 <= UserModel.xp u + g ->
  exists r col',
    UserModel.add_xp now1 now2 tid g col = Py.Ok (r, col')
    /\ length col' = length col
    /\ forall tid', tid' <> tid -> UserModel.get_user tid' col' = UserModel.get_user tid' col.
Proof.
  intros Hu Hx. unfold UserModel.add_xp. rewrite Hu.
  rewrite level_for_xp_nonneg by exact Hx. cbn.
  eexists _, _. split; [reflexivity|]. split.
  - now rewrite !update_one_length.
  - intros tid' Hne. unfold UserModel.get_user.
    rewrite find_one_update_one_other by (apply by_telegram_id_other; [exact Hne|reflexivity]).
    apply find_one_update_one_other.
    apply by_telegram_id_other; [exact Hne|reflexivity].
Qed.

Lemma add_xp_touches_one_user_witness :
  (UserModel.get_user 7 [Samples.model_fan; UserModel.new_user 3 8 "other"] =
     Some Samples.model_fan
   /\ 0 <= UserModel.xp Samples.model_fan + 250)
  /\ exists r col',
       UserModel.add_xp 1 2 7 250 [Samples.model_fan; UserModel.new_user 3 8 "other"] =
         Py.Ok (r, col')
       /\ length col' = length [Samples.model_fan; UserModel.new_user 3 8 "other"]
       /\ forall tid', tid' <> 7 ->
            UserModel.get_user tid' col' =
            UserModel.get_user tid' [Samples.model_fan; UserModel.new_user 3 8 "other"].
Proof.
  split.
  - split; [reflexivity|simpl; lia].
  - apply (add_xp_touches_one_user 1 2 7 250
             [Samples.model_fan; UserModel.new_user 3 8 "other"] Samples.model_fan);
      [reflexivity|simpl; lia].
Defined.

(** X3.  Under [add_xp] the stored experience and level depend on the sum
    of the grants only: two grants in a row leave the same experience and
    level as one grant of their sum, and one interaction more. *)
Theorem add_xp_grants_add_up (n1 n2 n3 n4 n5 n6 tid g1 g2 : Z)
        (col : list UserModel.user) (u : UserModel.user) :
  UserModel.get_user tid col = Some u ->
  0 <= UserModel.xp u + g1 ->
  0 <= UserModel.xp u + g1 + g2 ->
  exists r1 c1 r2 c2 r c ua ub,
    UserModel.add_xp n1 n2 tid g1 col = Py.Ok (r1, c1)
    /\ UserModel.add_xp n3 n4 tid g2 c1 = Py.Ok (r2, c2)
    /\ UserModel.add_xp n5 n6 tid (g1 + g2) col = Py.Ok (r, c)
    /\ UserModel.get_user tid c2 = Some ua
    /\ UserModel.get_user tid c = Some ub
    /\ UserModel.xp ua = UserModel.xp ub
    /\ UserModel.level ua = UserModel.level ub
    /\ UserModel.current_xp r2 = UserModel.current_xp r
    /\ UserModel.new_level r2 = UserModel.new_level r
    /\ UserModel.bot_interactions (UserModel.metrics ua) =
         UserModel.bot_interactions (UserModel.metrics ub) + 1.
Proof.
  intros Hu H1 H2.
  destruct (add_xp_found n1 n2 tid g1 col u Hu H1) as (c1 & Hr1 & Hs1).
  destruct (add_xp_found n3 n4 tid g2 c1 _ Hs1) as (c2 & Hr2 & Hs2).
  { simpl. exact H2. }
  destruct (add_xp_found n5 n6 tid (g1 + g2) col u Hu) as (c & Hr & Hs).
  { lia. }
  eexists _, c1, _, c2, _, c, _, _.
  split; [exact Hr1|]. split; [exact Hr2|]. split; [exact Hr|].
  split; [exact Hs2|]. split; [exact Hs|]. simpl.
  rewrite (Z.add_assoc (UserModel.xp u) g1 g2).
  repeat split; lia.
Qed.

Lemma add_xp_grants_add_up_witness :
  (UserModel.get_user 7 [Samples.model_fan] = Some Samples.model_fan
   /\ 0 <= UserModel.xp Samples.model_fan + 90
   /\ 0 <= UserModel.xp Samples.model_fan + 90 + 150)
  /\ exists r1 c1 r2 c2 r c ua ub,
    UserModel.add_xp 1 2 7 90 [Samples.model_fan] = Py.Ok (r1, c1)
    /\ UserModel.add_xp 3 4 7 150 c1 = Py.Ok (r2, c2)
    /\ UserModel.add_xp 5 6 7 (90 + 150) [Samples.model_fan] = Py.Ok (r, c)
    /\ UserModel.get_user 7 c2 = Some ua
    /\ UserModel.get_user 7 c = Some ub
    /\ UserModel.xp ua = UserModel.xp ub
    /\ UserModel.level ua = UserModel.level ub
    /\ UserModel.current_xp r2 = UserModel.current_xp r
    /\ UserModel.new_level r2 = UserModel.new_level r
    /\ UserModel.bot_interactions (UserModel.metrics ua) =
         UserModel.bot_interactions (UserModel.metrics ub) + 1.
Proof.
  split.
  - split; [reflexivity|]. split; simpl; lia.
  - apply (add_xp_grants_add_up 1 2 3 4 5 6 7 90 150 [Samples.model_fan] Samples.model_fan);
      [reflexivity | simpl; lia | simpl; lia].
Defined.

Lemma pow08_search_le (n : nat) (x : Z) : UserModel.pow08_search n x <= Z.of_nat n.
Proof.
  induction n as [|n IH]; [simpl; lia|].
  cbn [UserModel.pow08_search]. destruct (_ <=? _); lia.
Qed.

(** X4.  The level [add_xp] computes is at least 1, is 1 exactly while the
    new experience is below 100, and is at most one more than the hundreds
    of the new experience. *)
Theorem add_xp_level_bounds (now1 now2 tid g : Z) (col : list UserModel.user)
        (u : UserModel.user) :
  UserModel.get_user tid col = Some u ->
  0 <= UserModel.xp u + g ->
  exists r col',
    UserModel.add_xp now1 now2 tid g col = Py.Ok (r, col')
    /\ 1 <= UserModel.new_level r <= 1 + (UserModel.xp u + g) / 100
    /\ (UserModel.new_level r = 1 <-> UserModel.xp u + g < 100).
Proof.
  intros Hu Hx.
  destruct (add_xp_found now1 now2 tid g col u Hu Hx) as (col' & Hr & _).
  eexists _, col'. split; [exact Hr|]. simpl.
  set (x := UserModel.xp u + g) in *.
  destruct (pow08_floor_spec x Hx) as (Hk & Hlo & Hhi).
  assert (Hle : UserModel.pow08_floor x <= x / 100).
  { unfold UserModel.pow08_floor.
    pose proof (pow08_search_le (Z.to_nat (x / 100)) x).
    assert (0 <= x / 100) by (apply Z.div_pos; lia). lia. }
  split; [lia|]. split.
  - intros Hone. assert (Hz : UserModel.pow08_floor x = 0) by lia.
    rewrite Hz in Hhi. destruct (Z.lt_ge_cases x 100) as [|Hge]; [assumption|exfalso].
    assert (100 ^ 4 <= x ^ 4) by (apply Z.pow_le_mono_l; lia). lia.
  - intros Hlt. assert (x / 100 = 0) by (apply Z.div_small; lia). lia.
Qed.

Lemma add_xp_level_bounds_witness :
  (UserModel.get_user 7 [Samples.model_fan] = Some Samples.model_fan
   /\ 0 <= UserModel.xp Samples.model_fan + 99)
  /\ exists r col',
       UserModel.add_xp 1 2 7 99 [Samples.model_fan] = Py.Ok (r, col')
       /\ 1 <= UserModel.new_level r <= 1 + (UserModel.xp Samples.model_fan + 99) / 100
       /\ (UserModel.new_level r = 1 <-> UserModel.xp Samples.model_fan + 99 < 100).
Proof.
  split.
  - split; [reflexivity|simpl; lia].
  - apply (add_xp_level_bounds 1 2 7 99 [Samples.model_fan] Samples.model_fan);
      [reflexivity|simpl; lia].
Defined.

Lemma level_up_loop_nonneg (fuel : nat) :
  forall x l n x' l' n',
  0 <= x ->
  UserService.level_up_loop fuel x l n = Some (x', l', n') -> 0 <= x'.
Proof.
  induction fuel as [|fuel IH]; intros x l n x' l' n' Hx.
  - simpl. destruct (Z.leb_spec n x); [discriminate|]. now intros [= <- <- <-].
  - cbn [UserService.level_up_loop]. destruct (Z.leb_spec n x).
    + apply IH. lia.
    + now intros [= <- <- <-].
Qed.

(** A later grant that is not negative can be added before the loop runs:
    the rounds of the first run are then the first rounds of the joint one. *)
Lemma level_up_loop_add (f1 : nat) :
  forall f2 x l n x1 l1 n1 g r,
  0 <= g ->
  UserService.level_up_loop f1 x l n = Some (x1, l1, n1) ->
  UserService.level_up_loop f2 (x1 + g) l1 n1 = Some r ->
  UserService.level_up_loop (f1 + f2) (x + g) l n = Some r.
Proof.
  induction f1 as [|f1 IH]; intros f2 x l n x1 l1 n1 g r Hg.
  - simpl. destruct (Z.leb_spec n x); [discriminate|]. now intros [= <- <- <-].
  - cbn [UserService.level_up_loop]. destruct (Z.leb_spec n x) as [Hle|Hlt].
    + intros H1 H2. change (S f1 + f2)%nat with (S (f1 + f2)).
      cbn [UserService.level_up_loop].
      destruct (Z.leb_spec n (x + g)); [|lia].
      replace (x + g - n) with (x - n + g) by lia.
      apply (IH f2 _ _ _ x1 l1 n1 g r Hg H1 H2).
    + intros [= <- <- <-] H2.
      apply (level_up_loop_fuel_le f2); [lia|exact H2].
Qed.

Lemma level_up_loop_spent (fuel : nat) :
  forall x l n x' l' n',
  UserService.level_up_loop fuel x l n = Some (x', l', n') ->
  exists k : nat,
    l' = l + Z.of_nat k /\ x = x' + UserService.spent k n
    /\ n' = Nat.iter k UserService.grow_threshold n.
Proof.
  induction fuel as [|fuel IH]; intros x l n x' l' n'.
  - simpl. destruct (Z.leb_spec n x); [discriminate|].
    intros [= <- <- <-]. exists 0%nat. simpl. split; [lia|]. split; [lia|reflexivity].
  - cbn [UserService.level_up_loop]. destruct (Z.leb_spec n x).
    + intros Hr. destruct (IH _ _ _ _ _ _ Hr) as (k & Hl & Hx & Hn).
      exists (S k). cbn [UserService.spent]. split; [lia|]. split; [lia|].
      rewrite Hn. clear. revert n.
      induction k as [|k IHk]; intros n; [reflexivity|].
      simpl. now rewrite IHk.
    + intros [= <- <- <-]. exists 0%nat. simpl. split; [lia|]. split; [lia|reflexivity].
Qed.

Lemma level_up_loop_diverges (fuel : nat) :
  forall x l n, n <= 0 -> n <= x -> UserService.level_up_loop fuel x l n = None.
Proof.
  induction fuel as [|fuel IH]; intros x l n Hn Hx.
  - simpl. destruct (Z.leb_spec n x); [reflexivity|lia].
  - cbn [UserService.level_up_loop]. destruct (Z.leb_spec n x); [|lia].
    assert (Hg : UserService.grow_threshold n <= 0).
    { unfold UserService.grow_threshold.
      rewrite <- (Z.opp_involutive (n * 3)), Z.quot_opp_l by lia.
      assert (0 <= (- (n * 3)) ÷ 2) by (apply Z.quot_pos; lia). lia. }
    apply IH; lia.
Qed.

(* ===================================================================== *)
(** * Profiles: what the code shows beyond the specification              *)
(* ===================================================================== *)

(** X5.  [update_user_xp] leaves a profile whose experience is below its
    threshold; when the threshold was positive and the experience after the
    grant is not negative, the stored experience is not negative either and
    the threshold has not shrunk. *)
Theorem update_user_xp_below_threshold (now uid g : Z) (col : list UserService.user)
        (u : UserService.user) :
  UserService.get_user_profile uid col = Some u ->
  1 <= UserService.xp_to_next_level u ->
  0 <= UserService.xp u + g ->
  exists u' col',
    (forall fuel, (Z.to_nat (UserService.xp u + g) <= fuel)%nat ->
       UserService.update_user_xp fuel now uid g col = Some (Some u', col'))
    /\ UserService.get_user_profile uid col' = Some u'
    /\ 0 <= UserService.xp u' < UserService.xp_to_next_level u'
    /\ UserService.xp_to_next_level u <= UserService.xp_to_next_level u'.
Proof.
  intros Hu Hn Hx.
  destruct (update_user_xp_found now uid g col u Hu Hn)
    as (x' & l' & n' & col' & Hrun & Hst).
  exists (UserService.set_progress x' l' n' now u), col'.
  destruct (Hrun _ (Nat.le_refl _)) as [Hloop _].
  pose proof (level_up_loop_result _ _ _ _ _ _ _ Hloop) as (_ & Hlt & _).
  pose proof (level_up_loop_spends _ _ _ _ _ _ _ Hn Hloop) as (_ & Hge).
  pose proof (level_up_loop_nonneg _ _ _ _ _ _ _ Hx Hloop) as Hpos.
  split; [intros fuel Hf; apply (Hrun fuel Hf)|].
  split; [exact Hst|]. simpl. lia.
Qed.

Lemma update_user_xp_below_threshold_witness :
  (UserService.get_user_profile 7 [Samples.service_fan_90] = Some Samples.service_fan_90
   /\ 1 <= UserService.xp_to_next_level Samples.service_fan_90
   /\ 0 <= UserService.xp Samples.service_fan_90 + 400)
  /\ exists u' col',
       (forall fuel, (Z.to_nat (UserService.xp Samples.service_fan_90 + 400) <= fuel)%nat ->
          UserService.update_user_xp fuel 3 7 400 [Samples.service_fan_90] =
            Some (Some u', col'))
       /\ UserService.get_user_profile 7 col' = Some u'
       /\ 0 <= UserService.xp u' < UserService.xp_to_next_level u'
       /\ UserService.xp_to_next_level Samples.service_fan_90 <=
            UserService.xp_to_next_level u'.
Proof.
  split.
  - split; [reflexivity|]. split; simpl; lia.
  - apply (update_user_xp_below_threshold 3 7 400 [Samples.service_fan_90]
             Samples.service_fan_90); [reflexivity | simpl; lia | simpl; lia].
Defined.

(** X6.  Under [update_user_xp], too, grants add up when the later one is
    not negative: a grant followed by a second one leaves the same
    experience, level and threshold as one grant of their sum. *)
Theorem update_user_xp_grants_add_up (now1 now2 now3 uid g1 g2 : Z)
        (col : list UserService.user) (u : UserService.user) :
  UserService.get_user_profile uid col = Some u ->
  1 <= UserService.xp_to_next_level u ->
  0 <= g2 ->
  exists f1 f2 f u1 c1 u2 c2 u12 c12,
    UserService.update_user_xp f1 now1 uid g1 col = Some (Some u1, c1)
    /\ UserService.update_user_xp f2 now2 uid g2 c1 = Some (Some u2, c2)
    /\ UserService.update_user_xp f now3 uid (g1 + g2) col = Some (Some u12, c12)
    /\ UserService.xp u2 = UserService.xp u12
    /\ UserService.level u2 = UserService.level u12
    /\ UserService.xp_to_next_level u2 = UserService.xp_to_next_level u12.
Proof.
  intros Hu Hn Hg.
  destruct (update_user_xp_found now1 uid g1 col u Hu Hn)
    as (x1 & l1 & n1 & c1 & Hrun1 & Hst1).
  set (f1 := Z.to_nat (UserService.xp u + g1)).
  destruct (Hrun1 f1 (Nat.le_refl _)) as [Hloop1 Hup1].
  pose proof (level_up_loop_spends _ _ _ _ _ _ _ Hn Hloop1) as (_ & Hn1).
  destruct (update_user_xp_found now2 uid g2 c1 _ Hst1)
    as (x2 & l2 & n2 & c2 & Hrun2 & Hst2).
  { simpl. lia. }
  set (f2 := Z.to_nat (UserService.xp (UserService.set_progress x1 l1 n1 now1 u) + g2)).
  destruct (Hrun2 f2 (Nat.le_refl _)) as [Hloop2 Hup2].
  destruct (update_user_xp_found now3 uid (g1 + g2) col u Hu Hn)
    as (x & l & n & c12 & Hrun & Hst).
  set (f := (Z.to_nat (UserService.xp u + (g1 + g2)) + (f1 + f2))%nat).
  destruct (Hrun f ltac:(lia)) as [Hloop Hup].
  simpl in Hloop2.
  pose proof (level_up_loop_add _ _ _ _ _ _ _ _ _ _ Hg Hloop1 Hloop2) as Hjoint.
  apply (level_up_loop_fuel_le _ f) in Hjoint; [|lia].
  replace (UserService.xp u + g1 + g2) with (UserService.xp u + (g1 + g2)) in Hjoint by lia.
  rewrite Hloop in Hjoint. injection Hjoint as -> -> ->.
  eexists f1, f2, f, _, c1, _, c2, _, c12.
  split; [exact Hup1|]. split; [exact Hup2|]. split; [exact Hup|].
  simpl. repeat split.
Qed.

Lemma update_user_xp_grants_add_up_witness :
  (UserService.get_user_profile 7 [Samples.service_fan] = Some Samples.service_fan
   /\ 1 <= UserService.xp_to_next_level Samples.service_fan
   /\ 0 <= 150)
  /\ exists f1 f2 f u1 c1 u2 c2 u12 c12,
    UserService.update_user_xp f1 1 7 90 [Samples.service_fan] = Some (Some u1, c1)
    /\ UserService.update_user_xp f2 2 7 150 c1 = Some (Some u2, c2)
    /\ UserService.update_user_xp f 3 7 (90 + 150) [Samples.service_fan] =
         Some (Some u12, c12)
    /\ UserService.xp u2 = UserService.xp u12
    /\ UserService.level u2 = UserService.level u12
    /\ UserService.xp_to_next_level u2 = UserService.xp_to_next_level u12.
Proof.
  split.
  - split; [reflexivity|]. split; simpl; lia.
  - apply (update_user_xp_grants_add_up 1 2 3 7 90 150 [Samples.service_fan]
             Samples.service_fan); [reflexivity | simpl; lia | lia].
Defined.

(** Every threshold the loop crosses is positive and at most the experience
    it started from. *)
Lemma level_up_loop_crossed (fuel : nat) :
  forall x l n x' l' n', 1 <= n ->
  UserService.level_up_loop fuel x l n = Some (x', l', n') ->
  exists k : nat,
    l' = l + Z.of_nat k /\ x = x' + UserService.spent k n
    /\ n' = Nat.iter k UserService.grow_threshold n
    /\ forall j : nat, (j < k)%nat ->
         1 <= Nat.iter j UserService.grow_threshold n <= x.
Proof.
  induction fuel as [|fuel IH]; intros x l n x' l' n' Hn.
  - simpl. destruct (Z.leb_spec n x); [discriminate|].
    intros [= <- <- <-]. exists 0%nat. simpl.
    split; [lia|]. split; [lia|]. split; [reflexivity|]. intros j Hj. lia.
  - cbn [UserService.level_up_loop]. destruct (Z.leb_spec n x).
    + intros Hr. pose proof (grow_threshold_ge n Hn) as Hgrow.
      destruct (IH (x - n) (l + 1) (UserService.grow_threshold n) x' l' n'
                  ltac:(lia) Hr) as (k & Hl & Hx & Hk & Hcross).
      exists (S k). cbn [UserService.spent]. split; [lia|]. split; [lia|].
      split; [now rewrite Nat.iter_succ_r|].
      intros [|j] Hj; [simpl; lia|].
      rewrite Nat.iter_succ_r. specialize (Hcross j ltac:(lia)). lia.
    + intros [= <- <- <-]. exists 0%nat. simpl.
      split; [lia|]. split; [lia|]. split; [reflexivity|]. intros j Hj. lia.
Qed.

(** X7.  [update_user_xp] loses no experience: what the profile held plus
    the grant is what it holds afterwards plus the thresholds of the levels
    gained, each threshold being the previous one grown by [int(n * 1.5)].
    Stated for experience below [2^51]: every threshold crossed is then
    below [2^51] as well, so each product by 1.5 is exact on doubles. *)
Theorem update_user_xp_conserves (now uid g : Z) (col : list UserService.user)
        (u : UserService.user) :
  UserService.get_user_profile uid col = Some u ->
  1 <= UserService.xp_to_next_level u ->
  UserService.xp u + g < 2 ^ 51 ->
  exists u' col' (k : nat),
    (forall fuel, (Z.to_nat (UserService.xp u + g) <= fuel)%nat ->
       UserService.update_user_xp fuel now uid g col = Some (Some u', col'))
    /\ UserService.level u' = UserService.level u + Z.of_nat k
    /\ UserService.xp u + g =
         UserService.xp u' + UserService.spent k (UserService.xp_to_next_level u)
    /\ UserService.xp_to_next_level u' =
         Nat.iter k UserService.grow_threshold (UserService.xp_to_next_level u)
    /\ forall j : nat, (j < k)%nat ->
         1 <= Nat.iter j UserService.grow_threshold (UserService.xp_to_next_level u)
         /\ 3 * Nat.iter j UserService.grow_threshold (UserService.xp_to_next_level u)
            < 2 ^ 53.
Proof.
  intros Hu Hn Hsmall.
  destruct (update_user_xp_found now uid g col u Hu Hn)
    as (x' & l' & n' & col' & Hrun & Hst).
  destruct (Hrun _ (Nat.le_refl _)) as [Hloop _].
  destruct (level_up_loop_crossed _ _ _ _ _ _ _ Hn Hloop) as (k & Hl & Hx & Hk & Hcross).
  exists (UserService.set_progress x' l' n' now u), col', k.
  split; [intros fuel Hf; apply (Hrun fuel Hf)|]. simpl.
  split; [exact Hl|]. split; [exact Hx|]. split; [exact Hk|].
  intros j Hj. specialize (Hcross j Hj).
  change (2 ^ 53) with (4 * 2 ^ 51). lia.
Qed.

Lemma update_user_xp_conserves_witness :
  (UserService.get_user_profile 7 [Samples.service_fan_90] = Some Samples.service_fan_90
   /\ 1 <= UserService.xp_to_next_level Samples.service_fan_90
   /\ UserService.xp Samples.service_fan_90 + 400 < 2 ^ 51)
  /\ exists u' col' (k : nat),
    (forall fuel, (Z.to_nat (UserService.xp Samples.service_fan_90 + 400) <= fuel)%nat ->
       UserService.update_user_xp fuel 3 7 400 [Samples.service_fan_90] =
         Some (Some u', col'))
    /\ UserService.level u' = UserService.level Samples.service_fan_90 + Z.of_nat k
    /\ UserService.xp Samples.service_fan_90 + 400 =
         UserService.xp u'
         + UserService.spent k (UserService.xp_to_next_level Samples.service_fan_90)
    /\ UserService.xp_to_next_level u' =
         Nat.iter k UserService.grow_threshold
                  (UserService.xp_to_next_level Samples.service_fan_90)
    /\ forall j : nat, (j < k)%nat ->
         1 <= Nat.iter j UserService.grow_threshold
                (UserService.xp_to_next_level Samples.service_fan_90)
         /\ 3 * Nat.iter j UserService.grow_threshold
                  (UserService.xp_to_next_level Samples.service_fan_90)
            < 2 ^ 53.
Proof.
  split.
  - split; [reflexivity|]. split; [simpl; lia|reflexivity].
  - apply (update_user_xp_conserves 3 7 400 [Samples.service_fan_90]
             Samples.service_fan_90); [reflexivity | simpl; lia | reflexivity].
Defined.

(** X8.  A profile whose threshold is zero, with experience that is not
    negative after the grant, keeps [update_user_xp] in its loop for ever
    (each round subtracts 0 and leaves the threshold at [int(0 * 1.5)]):
    no amount of fuel lets the model return. *)
Theorem update_user_xp_never_returns (now uid g : Z) (col : list UserService.user)
        (u : UserService.user) :
  UserService.get_user_profile uid col = Some u ->
  UserService.xp_to_next_level u = 0 ->
  0 <= UserService.xp u + g ->
  forall fuel, UserService.update_user_xp fuel now uid g col = None.
Proof.
  intros Hu Hn Hx fuel. unfold UserService.update_user_xp. rewrite Hu.
  rewrite level_up_loop_diverges; [reflexivity|lia|lia].
Qed.

Lemma update_user_xp_never_returns_witness :
  (UserService.get_user_profile 7
     [UserService.set_progress 0 1 0 0 Samples.service_fan] =
     Some (UserService.set_progress 0 1 0 0 Samples.service_fan)
   /\ UserService.xp_to_next_level (UserService.set_progress 0 1 0 0 Samples.service_fan) = 0
   /\ 0 <= UserService.xp (UserService.set_progress 0 1 0 0 Samples.service_fan) + 10)
  /\ forall fuel,
       UserService.update_user_xp fuel 3 7 10
         [UserService.set_progress 0 1 0 0 Samples.service_fan] = None.
Proof.
  split.
  - split; [reflexivity|]. split; [reflexivity|simpl; lia].
  - apply (update_user_xp_never_returns 3 7 10
             [UserService.set_progress 0 1 0 0 Samples.service_fan]
             (UserService.set_progress 0 1 0 0 Samples.service_fan));
      [reflexivity | reflexivity | simpl; lia].
Defined.

Lemma rank_lt_false (a b : UserService.user) :
  UserService.rank_lt a b = false <->
  UserService.level b < UserService.level a
  \/ (UserService.level a = UserService.level b /\ UserService.xp b <= UserService.xp a).
Proof.
  unfold UserService.rank_lt.
  destruct (Z.ltb_spec (UserService.level a) (UserService.level b));
    destruct (Z.eqb_spec (UserService.level a) (UserService.level b));
    destruct (Z.ltb_spec (UserService.xp a) (UserService.xp b));
    simpl; split; intros; try discriminate; try lia; reflexivity.
Qed.

Lemma rank_lt_asym (a b : UserService.user) :
  UserService.rank_lt a b = true -> UserService.rank_lt b a = false.
Proof.
  intros Hab. apply rank_lt_false. unfold UserService.rank_lt in Hab. lia.
Qed.

Lemma rank_ge_trans (a b c : UserService.user) :
  UserService.rank_lt a b = false -> UserService.rank_lt b c = false ->
  UserService.rank_lt a c = false.
Proof. rewrite !rank_lt_false. lia. Qed.

(** X9.  The ranking of the profile handler shows the ten best users, or
    all of them when there are fewer, among those of level 1 and above:
    every entry is a stored user, the entries are in decreasing order of
    (level, xp), and no entry ranks below a qualifying user left out. *)
Theorem top_users_ranking (col : list UserService.user) :
  length (ProfileHandler.top_users col) =
    Nat.min 10 (length (UserService.get_users_by_level 1 col))
  /\ (forall u, u ∈ ProfileHandler.top_users col -> u ∈ col /\ 1 <= UserService.level u)
  /\ (forall i j a b, (i < j)%nat ->
        ProfileHandler.top_users col !! i = Some a ->
        ProfileHandler.top_users col !! j = Some b ->
        UserService.level b < UserService.level a
        \/ (UserService.level a = UserService.level b
            /\ UserService.xp b <= UserService.xp a))
  /\ (forall a b, a ∈ ProfileHandler.top_users col ->
        b ∈ col -> 1 <= UserService.level b -> b ∉ ProfileHandler.top_users col ->
        UserService.level b < UserService.level a
        \/ (UserService.level a = UserService.level b
            /\ UserService.xp b <= UserService.xp a)).
Proof.
  unfold ProfileHandler.top_users.
  set (elig := UserService.get_users_by_level 1 col).
  destruct (sort_desc_take UserService.rank_lt rank_lt_asym rank_ge_trans 10 elig)
    as (Hord & Htop & Hcover).
  pose proof (sort_desc_perm UserService.rank_lt elig) as Hperm.
  assert (Helig : forall u, u ∈ elig <-> u ∈ col /\ 1 <= UserService.level u).
  { intros u. subst elig. unfold UserService.get_users_by_level.
    rewrite !list_elem_of_In, filter_In, Z.leb_le. reflexivity. }
  split; [|split; [|split]].
  - rewrite length_take. now rewrite (Permutation_length Hperm).
  - intros u Hu. apply Helig. rewrite <- Hperm.
    rewrite <- (take_drop 10 (Desc.sort_desc _ elig)). apply elem_of_app. now left.
  - intros i j a b Hij Ha Hb. apply rank_lt_false. exact (Hord i j a b Hij Ha Hb).
  - intros a b Ha Hb Hlvl Hout. apply rank_lt_false. apply Htop; [exact Ha|].
    destruct (Hcover b) as [Hin|Hin]; [now apply Helig|contradiction|exact Hin].
Qed.

(* ===================================================================== *)
(** * Surveys: what the code shows beyond the specification               *)
(* ===================================================================== *)

Lemma by_id_other (sid sid' : string) (f : Survey.survey -> Survey.survey) :
  sid' <> sid ->
  (forall d, Survey._id (f d) = Survey._id d) ->
  forall d, Survey.by_id sid d = true ->
    Survey.by_id sid' d = false /\ Survey.by_id sid' (f d) = false.
Proof.
  intros Hne Hf d Hd. unfold Survey.by_id in *. rewrite Hf.
  apply String.eqb_eq in Hd. split; apply String.eqb_neq; congruence.
Qed.

Lemma In_update_one {D : Type} (q : D -> bool) (f : D -> D) (col : list D) (x : D) :
  In x (Mongo.update_one q f col) -> In x col \/ exists d, In d col /\ q d = true /\ x = f d.
Proof.
  induction col as [|d col IH]; simpl; [tauto|].
  destruct (q d) eqn:Hd; simpl.
  - intros [<-|Hx]; [right; exists d; auto|auto].
  - intros [<-|Hx]; [auto|]. destruct (IH Hx) as [|(d' & Hin & Hq & ->)]; [auto|].
    right. exists d'. auto.
Qed.

(** X10.  Deactivating a survey that exists leaves it stored and inactive,
    makes no survey available that was not, keeps it out of the surveys
    offered at any level, and leaves the surveys of other ids as they were.
    The [success] flag is true when the survey was active, and also when it
    was already inactive but its update time changes.  The surveys offered
    at a level are still offered at any higher level. *)
Theorem deactivate_survey_hides (now : Z) (sid : string) (surveys : list Survey.survey)
        (s : Survey.survey) :
  Survey.get_survey sid surveys = Some s ->
  Survey.get_survey sid (snd (Survey.deactivate_survey now sid surveys)) =
    Some (Survey.set_inactive now s)
  /\ fst (Survey.deactivate_survey now sid surveys) =
       (Survey.active s || negb (Survey.updated_at s =? now))
  /\ (forall lvl x,
        In x (Survey.get_active_surveys lvl (snd (Survey.deactivate_survey now sid surveys))) ->
        In x (Survey.get_active_surveys lvl surveys) /\ x <> Survey.set_inactive now s)
  /\ (forall sid', sid' <> sid ->
        Survey.get_survey sid' (snd (Survey.deactivate_survey now sid surveys)) =
        Survey.get_survey sid' surveys)
  /\ (forall lvl lvl' x, lvl <= lvl' ->
        In x (Survey.get_active_surveys lvl surveys) ->
        In x (Survey.get_active_surveys lvl' surveys)).
Proof.
  intros Hs. unfold Survey.get_survey in *.
  pose proof (find_one_matches _ _ _ Hs) as Hq.
  unfold Survey.deactivate_survey. rewrite Hs. cbn [fst snd].
  split; [now apply find_one_update_one|]. split; [reflexivity|].
  split; [|split].
  - intros lvl x. unfold Survey.get_active_surveys. rewrite !filter_In.
    intros [Hin Hact]. destruct (In_update_one _ _ _ _ Hin) as [Hold|(d & _ & _ & ->)].
    + split; [auto|]. intros ->. simpl in Hact. discriminate.
    + simpl in Hact. discriminate.
  - intros sid' Hne. apply find_one_update_one_other.
    apply by_id_other; [exact Hne|reflexivity].
  - intros lvl lvl' x Hle. unfold Survey.get_active_surveys. rewrite !filter_In.
    intros [Hin Hact]. split; [exact Hin|].
    apply andb_true_iff in Hact as [-> Hmin]. apply Z.leb_le in Hmin.
    simpl. apply Z.leb_le. lia.
Qed.

Lemma deactivate_survey_hides_witness :
  Survey.get_survey "64b7f0c2a1d3e4f5a6b7c8d9" [Samples.scale_survey; Samples.choice_survey] =
    Some Samples.choice_survey
  /\ Survey.get_survey "64b7f0c2a1d3e4f5a6b7c8d9"
       (snd (Survey.deactivate_survey 9 "64b7f0c2a1d3e4f5a6b7c8d9"
               [Samples.scale_survey; Samples.choice_survey])) =
     Some (Survey.set_inactive 9 Samples.choice_survey)
  /\ fst (Survey.deactivate_survey 9 "64b7f0c2a1d3e4f5a6b7c8d9"
            [Samples.scale_survey; Samples.choice_survey]) =
       (Survey.active Samples.choice_survey
        || negb (Survey.updated_at Samples.choice_survey =? 9))
  /\ (forall lvl x,
        In x (Survey.get_active_surveys lvl
                (snd (Survey.deactivate_survey 9 "64b7f0c2a1d3e4f5a6b7c8d9"
                        [Samples.scale_survey; Samples.choice_survey]))) ->
        In x (Survey.get_active_surveys lvl [Samples.scale_survey; Samples.choice_survey])
        /\ x <> Survey.set_inactive 9 Samples.choice_survey)
  /\ (forall sid', sid' <> "64b7f0c2a1d3e4f5a6b7c8d9" ->
        Survey.get_survey sid'
          (snd (Survey.deactivate_survey 9 "64b7f0c2a1d3e4f5a6b7c8d9"
                  [Samples.scale_survey; Samples.choice_survey])) =
        Survey.get_survey sid' [Samples.scale_survey; Samples.choice_survey])
  /\ (forall lvl lvl' x, lvl <= lvl' ->
        In x (Survey.get_active_surveys lvl [Samples.scale_survey; Samples.choice_survey]) ->
        In x (Survey.get_active_surveys lvl' [Samples.scale_survey; Samples.choice_survey])).
Proof.
  split; [reflexivity|].
  apply (deactivate_survey_hides 9 "64b7f0c2a1d3e4f5a6b7c8d9"
           [Samples.scale_survey; Samples.choice_survey] Samples.choice_survey).
  reflexivity.
Defined.

Lemma for_survey_append (sid sid' : string) (r : Survey.response)
      (rs : list Survey.response) :
  Survey.survey_id r = sid' ->
  List.filter (Survey.for_survey sid) (rs ++ [r])%list =
  if String.eqb sid' sid then (List.filter (Survey.for_survey sid) rs ++ [r])%list
  else List.filter (Survey.for_survey sid) rs.
Proof.
  intros Hr. rewrite List.filter_app. simpl. unfold Survey.for_survey at 2. rewrite Hr.
  destruct (String.eqb sid' sid); [reflexivity|apply app_nil_r].
Qed.

(** X11.  Recording a response to a survey that exists raises the total of
    its aggregation and its running counter by exactly one, whoever the
    user is and whether or not they answered before, and changes the
    aggregation of no other survey.  For an id without a survey the
    response is stored all the same and no counter moves. *)
Theorem record_survey_response_counts (now : Z) (sid : string) (uid : Z)
        (answers : gmap string Survey.answer)
        (surveys : list Survey.survey) (replies : list Survey.response) :
  let after := Survey.record_survey_response now sid uid answers surveys replies in
  (forall s, Survey.get_survey sid surveys = Some s ->
     Survey.get_survey sid (fst after) = Some (Survey.inc_responses_count s)
     /\ Survey.responses_count (Survey.inc_responses_count s) = Survey.responses_count s + 1
     /\ exists n qs qs',
          Survey.get_survey_results sid surveys replies = Survey.Aggregated (Survey.title s) n qs
          /\ Survey.get_survey_results sid (fst after) (snd after) =
               Survey.Aggregated (Survey.title s) (S n) qs')
  /\ (forall sid', sid' <> sid ->
        Survey.get_survey_results sid' (fst after) (snd after) =
        Survey.get_survey_results sid' surveys replies)
  /\ (Survey.get_survey sid surveys = None ->
        fst after = surveys
        /\ length (List.filter (Survey.for_survey sid) (snd after)) =
             S (length (List.filter (Survey.for_survey sid) replies))).
Proof.
  intros after. subst after. unfold Survey.record_survey_response. cbn [fst snd].
  unfold Mongo.insert_one, Survey.get_survey.
  set (r := {| Survey.survey_id := sid; Survey.user_id := uid;
               Survey.responses := answers; Survey.response_created_at := now |}).
  split; [|split].
  - intros s Hs. pose proof (find_one_matches _ _ _ Hs) as Hq.
    assert (Hs' : Mongo.find_one (Survey.by_id sid)
                    (Mongo.update_one (Survey.by_id sid) Survey.inc_responses_count surveys) =
                  Some (Survey.inc_responses_count s))
      by (now apply find_one_update_one).
    split; [exact Hs'|]. split; [reflexivity|].
    unfold Survey.get_survey_results. rewrite Hs, Hs'.
    rewrite (for_survey_append sid sid r replies eq_refl), String.eqb_refl.
    eexists _, _, _. split; [reflexivity|].
    rewrite length_app. simpl. rewrite Nat.add_1_r. reflexivity.
  - intros sid' Hne. unfold Survey.get_survey_results.
    rewrite (find_one_update_one_other (Survey.by_id sid) (Survey.by_id sid'))
      by (apply by_id_other; [exact Hne|reflexivity]).
    rewrite (for_survey_append sid' sid r replies eq_refl).
    destruct (String.eqb_spec sid sid'); [congruence|reflexivity].
  - intros Hnone. split.
    + clear r. unfold Mongo.find_one in Hnone.
      induction surveys as [|d surveys IH]; simpl in *; [reflexivity|].
      destruct (Survey.by_id sid d); [discriminate|]. now rewrite IH.
    + rewrite (for_survey_append sid sid r replies eq_refl), String.eqb_refl.
      rewrite length_app. simpl. lia.
Qed.

(** With unique ids the first match of [update_one] is the only one. *)
Lemma update_one_unique_id (sid : string) (f : Survey.survey -> Survey.survey)
      (surveys : list Survey.survey) :
  NoDup (map Survey._id surveys) ->
  Mongo.update_one (Survey.by_id sid) f surveys =
  map (fun s => if Survey.by_id sid s then f s else s) surveys.
Proof.
  induction surveys as [|s surveys IH]; simpl; [reflexivity|].
  intros Hnd. apply NoDup_cons in Hnd as [Hnotin Hnd].
  destruct (Survey.by_id sid s) eqn:Hs.
  - f_equal. unfold Survey.by_id in Hs. apply String.eqb_eq in Hs.
    clear IH Hnd. induction surveys as [|c surveys IHs]; simpl; [reflexivity|].
    simpl in Hnotin. apply not_elem_of_cons in Hnotin as [Hne Hnotin].
    destruct (Survey.by_id sid c) eqn:Hc.
    + unfold Survey.by_id in Hc. apply String.eqb_eq in Hc. congruence.
    + f_equal. now apply IHs.
  - f_equal. now apply IH.
Qed.

(** In every store the service can make, survey ids are unique and each
    running counter is the number of stored responses of its survey. *)
Lemma reachable_counts (surveys : list Survey.survey) (replies : list Survey.response) :
  Survey.reachable surveys replies ->
  NoDup (map Survey._id surveys) /\ Forall (Survey.counts_agree replies) surveys.
Proof.
  induction 1 as [|now new_id t d qs c lvl surveys replies _ [Hnd Hall] Hfresh Hnone
                  |now sid uid answers surveys replies _ [Hnd Hall]
                  |now sid surveys replies _ [Hnd Hall]].
  - split; constructor.
  - cbn [snd Survey.create_survey]. unfold Mongo.insert_one. split.
    + rewrite map_app. simpl. apply NoDup_app. split; [exact Hnd|].
      split; [|apply NoDup_singleton].
      intros x Hx Hnew. apply list_elem_of_singleton in Hnew as ->.
      apply list_elem_of_In, in_map_iff in Hx as (s & Hid & Hin).
      assert (existsb (Survey.by_id new_id) surveys = true); [|congruence].
      apply existsb_exists. exists s. split; [exact Hin|].
      unfold Survey.by_id. now apply String.eqb_eq.
    + apply Forall_app. split; [exact Hall|]. constructor; [|constructor].
      unfold Survey.counts_agree. simpl.
      apply count_zero_absent in Hnone. unfold Mongo.count_documents in Hnone.
      now rewrite Hnone.
  - cbn [fst snd Survey.record_survey_response]. unfold Mongo.insert_one.
    set (r := {| Survey.survey_id := sid; Survey.user_id := uid;
                 Survey.responses := answers; Survey.response_created_at := now |}).
    rewrite (update_one_unique_id _ _ _ Hnd). split.
    + rewrite map_map. erewrite map_ext; [exact Hnd|].
      intros s. now destruct (Survey.by_id sid s).
    + apply Forall_forall. intros x Hx%list_elem_of_In.
      apply in_map_iff in Hx as (s & <- & Hin%list_elem_of_In).
      rewrite Forall_forall in Hall. specialize (Hall s Hin).
      unfold Survey.counts_agree in *.
      destruct (Survey.by_id sid s) eqn:Hs; unfold Survey.by_id in Hs.
      * apply String.eqb_eq in Hs. cbn [Survey.inc_responses_count Survey._id Survey.responses_count].
        rewrite (for_survey_append (Survey._id s) sid r replies eq_refl), Hs, String.eqb_refl.
        rewrite length_app. simpl. rewrite Hs in Hall. lia.
      * rewrite (for_survey_append (Survey._id s) sid r replies eq_refl).
        rewrite String.eqb_sym, Hs. exact Hall.
  - cbn [snd Survey.deactivate_survey].
    rewrite (update_one_unique_id _ _ _ Hnd). split.
    + rewrite map_map. erewrite map_ext; [exact Hnd|].
      intros s. now destruct (Survey.by_id sid s).
    + apply Forall_forall. intros x Hx%list_elem_of_In.
      apply in_map_iff in Hx as (s & <- & Hin%list_elem_of_In).
      rewrite Forall_forall in Hall. specialize (Hall s Hin).
      now destruct (Survey.by_id sid s).
Qed.

(** X12.  In every store the service can make (surveys created under fresh
    ids, responses recorded, surveys deactivated) the running
    [responses_count] of a survey is the total its aggregation reports. *)
Theorem responses_count_is_total (surveys : list Survey.survey)
        (replies : list Survey.response) (sid : string) (s : Survey.survey) :
  Survey.reachable surveys replies ->
  Survey.get_survey sid surveys = Some s ->
  exists n qs,
    Survey.get_survey_results sid surveys replies = Survey.Aggregated (Survey.title s) n qs
    /\ Survey.responses_count s = Z.of_nat n.
Proof.
  intros Hreach Hs. destruct (reachable_counts _ _ Hreach) as [_ Hall].
  pose proof (find_one_Forall _ _ _ _ Hall Hs) as Hc.
  pose proof (find_one_matches _ _ _ Hs) as Hq.
  unfold Survey.by_id in Hq. apply String.eqb_eq in Hq.
  unfold Survey.get_survey_results. unfold Survey.get_survey in Hs. rewrite Hs.
  eexists _, _. split; [reflexivity|].
  unfold Survey.counts_agree in Hc. now rewrite Hq in Hc.
Qed.

Lemma responses_count_is_total_witness :
  (Survey.reachable (fst Samples.recorded_store) (snd Samples.recorded_store)
   /\ Survey.get_survey "64b7f0c2a1d3e4f5a6b7c8db" (fst Samples.recorded_store) =
        Some Samples.recorded_survey)
  /\ exists n qs,
       Survey.get_survey_results "64b7f0c2a1d3e4f5a6b7c8db"
         (fst Samples.recorded_store) (snd Samples.recorded_store) =
         Survey.Aggregated (Survey.title Samples.recorded_survey) n qs
       /\ Survey.responses_count Samples.recorded_survey = Z.of_nat n.
Proof.
  assert (Hreach : Survey.reachable (fst Samples.recorded_store) (snd Samples.recorded_store)).
  { unfold Samples.recorded_store. apply Survey.reach_record.
    apply Survey.reach_create; [apply Survey.reach_empty|reflexivity|reflexivity]. }
  split.
  - split; [exact Hreach|reflexivity].
  - apply (responses_count_is_total (fst Samples.recorded_store) (snd Samples.recorded_store)
             "64b7f0c2a1d3e4f5a6b7c8db" Samples.recorded_survey Hreach).
    reflexivity.
Defined.

Lemma sum_bounds (lo hi : Z) (l : list Z) :
  (forall v, In v l -> lo <= v <= hi) ->
  lo * Z.of_nat (length l) <= fold_right Z.add 0 l <= hi * Z.of_nat (length l).
Proof.
  induction l as [|a l IH]; intros Hb; [simpl; lia|].
  assert (lo <= a <= hi) by (apply Hb; now left).
  assert (lo * Z.of_nat (length l) <= fold_right Z.add 0 l <= hi * Z.of_nat (length l))
    by (apply IH; intros v Hv; apply Hb; now right).
  cbn [length fold_right]. lia.
Qed.

(** The counts of a histogram add up to the number of values counted. *)
Lemma histogram_total (l : list Z) : forall d : gmap Z Z,
  map_fold (fun _ c acc => c + acc) 0
    (fold_left (fun d v => <[v := default 0 (d !! v) + 1]> d) l d) =
  map_fold (fun _ c acc => c + acc) 0 d + Z.of_nat (length l).
Proof.
  induction l as [|v l IH]; intros d; [simpl; lia|].
  cbn [fold_left length]. rewrite IH. rewrite Nat2Z.inj_succ.
  destruct (d !! v) as [c|] eqn:Hv; cbn [default].
  - rewrite <- (insert_delete_eq d v (c + 1)).
    rewrite (map_fold_insert_L (fun _ c acc => c + acc) 0 v (c + 1) (delete v d));
      [|intros; simpl; lia|apply lookup_delete_eq].
    rewrite (map_fold_delete_L (fun _ c acc => c + acc) 0 v c d);
      [|intros; simpl; lia|exact Hv].
    lia.
  - rewrite (map_fold_insert_L (fun _ c acc => c + acc) 0 v (0 + 1) d);
      [|intros; simpl; lia|exact Hv].
    lia.
Qed.

(** Rounding to the nearest integer and to the nearest double. *)
Lemma round_half_even_lower (n d j : Z) :
  0 < d -> j * d <= n -> j <= Py.round_half_even n d.
Proof.
  intros Hd Hj. unfold Py.round_half_even.
  assert (Hq : j <= n / d) by (apply Z.div_le_lower_bound; lia).
  destruct (2 * (n mod d) <? d); [exact Hq|].
  destruct (d <? 2 * (n mod d)); [lia|].
  destruct (Z.even (n / d)); lia.
Qed.

Lemma round_half_even_upper (n d j : Z) :
  0 < d -> n <= j * d -> Py.round_half_even n d <= j.
Proof.
  intros Hd Hj. unfold Py.round_half_even.
  pose proof (Z.div_mod n d ltac:(lia)) as Hdm.
  pose proof (Z.mod_pos_bound n d Hd) as Hm.
  assert (Hq : n / d <= j) by (apply Z.div_le_upper_bound; lia).
  destruct (Z.ltb_spec (2 * (n mod d)) d); [exact Hq|].
  assert (n / d < j) by nia.
  destruct (d <? 2 * (n mod d)); [lia|].
  destruct (Z.even (n / d)); lia.
Qed.

Lemma log2_quot_le (n b : Z) :
  0 < n -> 0 < b -> n < 2 ^ 53 * b -> Py.log2_quot n b <= 52.
Proof.
  intros Hn Hb Hlt. unfold Py.log2_quot.
  destruct (Z.log2_spec n Hn) as [Hn1 Hn2].
  destruct (Z.log2_spec b Hb) as [Hb1 Hb2].
  pose proof (Z.log2_nonneg n). pose proof (Z.log2_nonneg b).
  set (ln := Z.log2 n) in *. set (lb := Z.log2 b) in *.
  assert (Hd : ln - lb <= 53).
  { destruct (Z.le_gt_cases (ln - lb) 53) as [|Hgt]; [assumption|exfalso].
    assert (2 ^ (lb + 54) <= 2 ^ ln) by (apply Z.pow_le_mono_r; lia).
    rewrite Z.pow_add_r in * by lia. rewrite Z.pow_succ_r in Hb2 by lia.
    change (2 ^ 54) with (2 * 2 ^ 53) in *. nia. }
  destruct (Z.leb_spec 0 (ln - lb)).
  - destruct (Z.leb_spec (b * 2 ^ (ln - lb)) n) as [Hle|]; [|lia].
    destruct (Z.eq_dec (ln - lb) 53) as [Heq|]; [|lia].
    rewrite Heq in Hle. lia.
  - destruct (b <=? n * 2 ^ (- (ln - lb))); lia.
Qed.

Lemma round_binary64_between (a b lo hi : Z) :
  0 < b -> Z.abs a < 2 ^ 53 * b -> lo * b <= a <= hi * b ->
  let '(m, t) := Py.round_binary64 a b in
  Qle (inject_Z lo) (Py.scaled m t) /\ Qle (Py.scaled m t) (inject_Z hi)
  /\ (0 <= t -> Z.abs m * 2 ^ t <= 2 ^ 53).
Proof.
  intros Hb Ha Hbounds. unfold Py.round_binary64.
  destruct (Z.eqb_spec a 0) as [->|Hnz].
  - unfold Py.scaled. simpl. unfold Qle. simpl. split; [nia|]. split; [nia|]. intros _. lia.
  - cbv zeta. set (n := Z.abs a).
    assert (Hn : 0 < n) by (subst n; lia).
    pose proof (log2_quot_le n b Hn Hb Ha) as He.
    set (t := Z.max (Py.log2_quot n b - 52) (- 1074)).
    assert (Ht : - 1074 <= t <= 0) by (subst t; lia).
    set (s := 2 ^ (- t)).
    assert (Hs : 0 < s) by (subst s; apply Z.pow_pos_nonneg; lia).
    assert (Hm : (if 0 <=? t then Py.round_half_even n (b * 2 ^ t)
                  else Py.round_half_even (n * s) b) =
                 Py.round_half_even (n * s) b).
    { destruct (Z.leb_spec 0 t).
      - assert (t = 0) as Ht0 by lia. subst s. rewrite Ht0. simpl.
        now rewrite !Z.mul_1_r.
      - reflexivity. }
    rewrite Hm. set (m := Py.round_half_even (n * s) b).
    assert (Hval : Py.scaled (Z.sgn a * m) t == (Z.sgn a * m) # (Z.to_pos s)).
    { unfold Py.scaled. destruct (Z.leb_spec 0 t).
      - assert (t = 0) as Ht0 by lia. subst s. rewrite Ht0. simpl.
        unfold Qeq. simpl. lia.
      - reflexivity. }
    rewrite Hval. unfold Qle. cbn [Qnum Qden inject_Z].
    rewrite Z2Pos.id by exact Hs.
    assert (Hlo : lo * s <= Z.sgn a * m /\ Z.sgn a * m <= hi * s).
    { destruct (Z.lt_total a 0) as [Hneg|[Hz|Hpos]]; [|contradiction|].
      - rewrite Z.sgn_neg by exact Hneg.
        assert (n = - a) by (subst n; lia).
        split.
        + assert (m <= (- lo) * s); [|lia].
          unfold m. apply round_half_even_upper; [exact Hb|]. nia.
        + assert ((- hi) * s <= m); [|lia].
          unfold m. apply round_half_even_lower; [exact Hb|]. nia.
      - rewrite Z.sgn_pos by exact Hpos.
        assert (n = a) by (subst n; lia).
        split.
        + assert (lo * s <= m); [|lia].
          unfold m. apply round_half_even_lower; [exact Hb|]. nia.
        + assert (m <= hi * s); [|lia].
          unfold m. apply round_half_even_upper; [exact Hb|]. nia. }
    split; [lia|]. split; [lia|].
    intros Ht0. assert (t = 0) as Ht1 by lia. rewrite Ht1. rewrite Z.mul_1_r.
    assert (Hs1 : s = 1) by (subst s; rewrite Ht1; reflexivity).
    assert (Hmb : 0 <= m <= 2 ^ 53).
    { split.
      - unfold m. apply round_half_even_lower; [exact Hb|]. nia.
      - unfold m. apply round_half_even_upper; [exact Hb|]. rewrite Hs1. lia. }
    destruct (Z.sgn_spec a) as [[_ ->]|[[_ ->]|[_ ->]]]; lia.
Qed.

(** The loop over the answers either meets an infinity and is left with its
    [OverflowError], or collects the values of [Survey.scale_value]. *)
Lemma scale_answers_eq (i : nat) (rs : list Survey.response) : forall acc,
  SurveyService.scale_answers i rs acc =
  if existsb (fun r => SurveyService.infinite (Survey.answer_at i r)) rs
  then Py.Raise (Py.OverflowError "cannot convert float infinity to integer")
  else Py.Ok (acc ++ omap (fun r => Survey.scale_value (Survey.answer_at i r)) rs)%list.
Proof.
  induction rs as [|r rs IH]; intros acc.
  - cbn. now rewrite app_nil_r.
  - cbn [SurveyService.scale_answers existsb].
    assert (Hom : omap (fun r => Survey.scale_value (Survey.answer_at i r)) (r :: rs) =
                  match Survey.scale_value (Survey.answer_at i r) with
                  | Some z => z :: omap (fun r => Survey.scale_value (Survey.answer_at i r)) rs
                  | None => omap (fun r => Survey.scale_value (Survey.answer_at i r)) rs
                  end) by reflexivity.
    rewrite Hom. clear Hom.
    destruct (Survey.answer_at i r) as [[|b|z|[m e|neg|]|s]|items];
      cbn [SurveyService.int_of Py.int_of_float SurveyService.infinite
           Survey.scale_value orb]; try (rewrite IH; destruct (existsb _ rs);
      [reflexivity|now rewrite <- ?app_assoc]).
    + reflexivity.
    + destruct (Survey.int_of_str s) as [z|]; rewrite IH; destruct (existsb _ rs);
        try reflexivity. now rewrite <- app_assoc.
Qed.

Lemma true_divide_length (a : Z) (n : nat) :
  Py.true_divide a (Z.of_nat (S n)) =
  let '(m, t) := Py.round_binary64 a (Z.of_nat (S n)) in
  if (0 <=? t) && (2 ^ 1024 <=? Z.abs m * 2 ^ t)
  then Py.Raise (Py.OverflowError "integer division result too large for a float")
  else Py.Ok (Py.scaled m t).
Proof.
  unfold Py.true_divide.
  destruct (Z.eqb_spec (Z.of_nat (S n)) 0) as [|_]; [lia|].
  rewrite Z.sgn_pos, Z.abs_eq, Z.mul_1_l by lia. reflexivity.
Qed.

(** Whenever the body of the loop over the questions returns, it returns the
    entry of [Survey.question_result]; the exceptions it lets out are the two
    [OverflowError]s. *)
Lemma question_result_outcome (rs : list Survey.response) (i : nat) (q : Survey.question_def) :
  SurveyService.question_result rs i q = Py.Ok (Survey.question_result rs i q)
  \/ SurveyService.question_result rs i q =
       Py.Raise (Py.OverflowError "cannot convert float infinity to integer")
  \/ SurveyService.question_result rs i q =
       Py.Raise (Py.OverflowError "integer division result too large for a float").
Proof.
  unfold SurveyService.question_result, Survey.question_result.
  destruct (String.eqb (Survey.type q) "multiple_choice"
            || String.eqb (Survey.type q) "single_choice") eqn:Hc.
  { left. reflexivity. }
  cbn [orb].
  destruct (String.eqb (Survey.type q) "text"); [left; reflexivity|].
  destruct (String.eqb (Survey.type q) "scale"); [|left; reflexivity].
  rewrite scale_answers_eq.
  destruct (existsb _ rs); [right; left; reflexivity|].
  cbn [mbind result_bind Py.bind app].
  destruct (omap _ rs) as [|x l]; [left; reflexivity|].
  cbn [length]. rewrite true_divide_length. unfold Survey.mean.
  destruct (Py.round_binary64 _ _) as [m t].
  destruct ((0 <=? t) && (2 ^ 1024 <=? Z.abs m * 2 ^ t));
    [right; right; reflexivity|left; reflexivity].
Qed.

Lemma questions_results_outcome (rs : list Survey.response) (qs : list Survey.question_def) :
  forall i,
  SurveyService.questions_results rs i qs =
    Py.Ok (imap (fun j => Survey.question_result rs (i + j)) qs)
  \/ SurveyService.questions_results rs i qs =
       Py.Raise (Py.OverflowError "cannot convert float infinity to integer")
  \/ SurveyService.questions_results rs i qs =
       Py.Raise (Py.OverflowError "integer division result too large for a float").
Proof.
  induction qs as [|q qs IH]; intros i; [left; reflexivity|].
  cbn [SurveyService.questions_results].
  destruct (question_result_outcome rs i q) as [-> | [-> | ->]];
    [|right; left; reflexivity|right; right; reflexivity].
  cbn [mbind result_bind Py.bind].
  destruct (IH (S i)) as [-> | [-> | ->]];
    [|right; left; reflexivity|right; right; reflexivity].
  left. cbn [mbind result_bind Py.bind imap]. rewrite Nat.add_0_r. do 2 f_equal.
  apply imap_ext. intros j x _. cbn. f_equal. lia.
Qed.

Lemma questions_results_ok (rs : list Survey.response) (qs : list Survey.question_def) :
  forall i,
  (forall j q, qs !! j = Some q ->
     SurveyService.question_result rs (i + j) q = Py.Ok (Survey.question_result rs (i + j) q)) ->
  SurveyService.questions_results rs i qs =
    Py.Ok (imap (fun j => Survey.question_result rs (i + j)) qs).
Proof.
  induction qs as [|q qs IH]; intros i Hall; [reflexivity|].
  cbn [SurveyService.questions_results].
  pose proof (Hall 0%nat q eq_refl) as H0. rewrite Nat.add_0_r in H0. rewrite H0.
  cbn [mbind result_bind Py.bind].
  rewrite IH.
  - cbn [mbind result_bind Py.bind imap]. rewrite Nat.add_0_r. do 2 f_equal.
    apply imap_ext. intros j x _. cbn. f_equal. lia.
  - intros j q' Hj. replace (S i + j)%nat with (i + S j)%nat by lia.
    apply Hall. exact Hj.
Qed.

(** The value of a literal of [k] characters is below [10^k]. *)
Lemma parse_digits_bound (s : list ascii) : forall acc after z,
  0 <= acc ->
  Survey.parse_digits acc after s = Some z ->
  0 <= z < (acc + 1) * 10 ^ Z.of_nat (length s).
Proof.
  induction s as [|c s IH]; intros acc after z Hacc.
  - cbn. destruct after; [|discriminate]. intros [= <-]. lia.
  - cbn [Survey.parse_digits length]. rewrite Nat2Z.inj_succ, Z.pow_succ_r by lia.
    assert (Hp : 0 < 10 ^ Z.of_nat (length s)) by (apply Z.pow_pos_nonneg; lia).
    unfold Survey.digit_value.
    destruct ((48 <=? Z.of_nat (nat_of_ascii c)) && (Z.of_nat (nat_of_ascii c) <=? 57)) eqn:Hd.
    + apply andb_true_iff in Hd as [H1 H2]. apply Z.leb_le in H1, H2.
      intros Hz. apply IH in Hz; [|lia]. nia.
    + destruct (Ascii.eqb c "_" && after); [|discriminate].
      intros Hz. apply IH in Hz; [|lia]. nia.
Qed.

Lemma lstrip_length (s : list ascii) : (length (Survey.lstrip s) <= length s)%nat.
Proof.
  induction s as [|c s IH]; [reflexivity|]. cbn [Survey.lstrip].
  destruct (Survey.is_space c); cbn [length]; lia.
Qed.

Lemma strip_length (s : list ascii) : (length (Survey.strip s) <= length s)%nat.
Proof.
  unfold Survey.strip. rewrite length_rev.
  etransitivity; [apply lstrip_length|]. rewrite length_rev. apply lstrip_length.
Qed.

Lemma length_list_ascii (s : string) : length (list_ascii_of_string s) = String.length s.
Proof. induction s as [|c s IH]; [reflexivity|]. cbn. now rewrite IH. Qed.

Lemma int_of_str_bound (s : string) (z : Z) :
  Survey.int_of_str s = Some z -> Z.abs z < 10 ^ Z.of_nat (String.length s).
Proof.
  unfold Survey.int_of_str. pose proof (strip_length (list_ascii_of_string s)) as Hlen.
  rewrite length_list_ascii in Hlen.
  destruct (Survey.strip (list_ascii_of_string s)) as [|c rest]; [discriminate|].
  cbn [length] in Hlen.
  assert (Hmono : forall k : nat, (k <= String.length s)%nat ->
                    10 ^ Z.of_nat k <= 10 ^ Z.of_nat (String.length s)).
  { intros k Hk. apply Z.pow_le_mono_r; lia. }
  destruct (Ascii.eqb c "-").
  { destruct (Survey.parse_digits 0 false rest) as [v|] eqn:Hv; [|discriminate].
    intros [= <-]. apply parse_digits_bound in Hv; [|lia].
    pose proof (Hmono (length rest) ltac:(lia)). lia. }
  destruct (Ascii.eqb c "+").
  { intros Hv. apply parse_digits_bound in Hv; [|lia].
    pose proof (Hmono (length rest) ltac:(lia)). lia. }
  intros Hv. apply parse_digits_bound in Hv; [|lia]. cbn [length] in Hv.
  pose proof (Hmono (S (length rest)) ltac:(lia)). lia.
Qed.

(** A moderate answer is no infinity, and the value it contributes is a
    double. *)
Lemma moderate_value (a : Survey.answer) (z : Z) :
  SurveyService.moderate a = true -> Survey.scale_value a = Some z -> Z.abs z < 2 ^ 53.
Proof.
  destruct a as [[|b|v|[m e|neg|]|s]|items]; cbn [SurveyService.moderate Survey.scale_value];
    try discriminate.
  - intros _ [= <-]. destruct b; reflexivity.
  - intros Hm [= <-]. now apply Z.ltb_lt.
  - intros Hm [= <-]. now apply Z.ltb_lt.
  - intros Hm Hz. apply andb_true_iff in Hm as [Hlen _]. apply Nat.leb_le in Hlen.
    apply int_of_str_bound in Hz.
    assert (10 ^ Z.of_nat (String.length s) <= 10 ^ 15) by (apply Z.pow_le_mono_r; lia).
    assert (10 ^ 15 < 2 ^ 53) by reflexivity. lia.
Qed.

Lemma moderate_not_infinite (a : Survey.answer) :
  SurveyService.moderate a = true -> SurveyService.infinite a = false.
Proof. destruct a as [[|b|v|[m e|neg|]|s]|items]; try reflexivity. discriminate. Qed.

(** The division of the average on values below [2^53]: it returns, the
    double it returns is [Survey.mean], and it lies between any two integers
    that the exact mean lies between. *)
Lemma moderate_mean (x : Z) (l : list Z) :
  (forall v, In v (x :: l) -> Z.abs v < 2 ^ 53) ->
  Py.true_divide (fold_left Z.add (x :: l) 0) (Z.of_nat (length (x :: l))) =
    Py.Ok (Survey.mean (x :: l))
  /\ forall lo hi,
       lo * Z.of_nat (length (x :: l)) <= fold_right Z.add 0 (x :: l)
         <= hi * Z.of_nat (length (x :: l)) ->
       Qle (inject_Z lo) (Survey.mean (x :: l)) /\ Qle (Survey.mean (x :: l)) (inject_Z hi).
Proof.
  intros Hsmall.
  assert (Hlen : 0 < Z.of_nat (length (x :: l))) by (cbn [length]; lia).
  assert (Hsum : Z.abs (fold_left Z.add (x :: l) 0) < 2 ^ 53 * Z.of_nat (length (x :: l))).
  { rewrite sum_fold_left, Z.add_0_l.
    pose proof (sum_bounds (- (2 ^ 53 - 1)) (2 ^ 53 - 1) (x :: l)) as Hb.
    destruct Hb as [Hb1 Hb2]; [intros v Hv; specialize (Hsmall v Hv); lia|]. lia. }
  split.
  - cbn [length] in *. rewrite true_divide_length. unfold Survey.mean. cbn [length].
    pose proof (round_binary64_between _ _ (- 2 ^ 53) (2 ^ 53) Hlen Hsum ltac:(lia)) as Hr.
    destruct (Py.round_binary64 _ _) as [m t]. destruct Hr as (_ & _ & Hr).
    destruct (Z.leb_spec 0 t) as [Ht|]; [|reflexivity].
    specialize (Hr Ht). assert (2 ^ 53 < 2 ^ 1024) by reflexivity.
    destruct (Z.leb_spec (2 ^ 1024) (Z.abs m * 2 ^ t)); [lia|reflexivity].
  - intros lo hi Hs. unfold Survey.mean.
    rewrite <- (Z.add_0_l (fold_right _ _ _)), <- sum_fold_left in Hs.
    pose proof (round_binary64_between _ _ lo hi Hlen Hsum Hs) as Hr.
    destruct (Py.round_binary64 _ _) as [m t]. destruct Hr as (H1 & H2 & _). now split.
Qed.

(** With moderate answers the body of the loop over the questions returns
    the entry of [Survey.question_result]. *)
Lemma question_result_moderate (rs : list Survey.response) (i : nat) (q : Survey.question_def) :
  (Survey.type q = "scale" ->
   forall r, In r rs -> SurveyService.moderate (Survey.answer_at i r) = true) ->
  SurveyService.question_result rs i q = Py.Ok (Survey.question_result rs i q).
Proof.
  intros Hmod. unfold SurveyService.question_result, Survey.question_result.
  destruct (String.eqb (Survey.type q) "multiple_choice"
            || String.eqb (Survey.type q) "single_choice") eqn:Hc; [reflexivity|].
  cbn [orb].
  destruct (String.eqb (Survey.type q) "text"); [reflexivity|].
  destruct (String.eqb_spec (Survey.type q) "scale") as [Ht|]; [|reflexivity].
  specialize (Hmod Ht). rewrite scale_answers_eq.
  assert (Hinf : existsb (fun r => SurveyService.infinite (Survey.answer_at i r)) rs = false).
  { apply not_true_is_false. intros (r & Hr & Hi)%existsb_exists.
    rewrite (moderate_not_infinite _ (Hmod r Hr)) in Hi. discriminate. }
  rewrite Hinf. cbn [mbind result_bind Py.bind app].
  destruct (omap _ rs) as [|x l] eqn:Hvals; [reflexivity|].
  destruct (moderate_mean x l) as [Hdiv _].
  { intros v Hv. apply list_elem_of_In in Hv. rewrite <- Hvals in Hv.
    apply list_elem_of_omap in Hv as (r & Hr & Hv).
    apply (moderate_value _ _ (Hmod r (proj1 (list_elem_of_In _ _) Hr)) Hv). }
  rewrite Hdiv. reflexivity.
Qed.

(** X13.  When the answers to the scale questions of a survey are moderate
    (integers, and floats by their integer part, below [2^53] in absolute
    value, ASCII text of at most 15 characters, no infinity), the
    aggregation returns, and the figures of a scale question fit together:
    with no answer that [int] accepts none is set; otherwise the minimum and
    the maximum are values that bound all the others, the average, a double,
    lies between them and is the exact mean whenever that is an integer,
    and the histogram maps each value to the number of times it occurs, its
    counts adding up to the number of values. *)
Theorem scale_figures_consistent (sid : string) (surveys : list Survey.survey)
        (all_replies : list Survey.response) (s : Survey.survey)
        (i : nat) (q : Survey.question_def) :
  Mongo.find_one (Survey.by_id sid) surveys = Some s ->
  Survey.questions s !! i = Some q ->
  Survey.type q = "scale" ->
  (forall j qj r,
     Survey.questions s !! j = Some qj -> Survey.type qj = "scale" ->
     In r (List.filter (Survey.for_survey sid) all_replies) ->
     SurveyService.moderate (Survey.answer_at j r) = true) ->
  exists n per_question r,
    SurveyService.get_survey_results sid surveys all_replies =
      Py.Ok (Survey.Aggregated (Survey.title s) n per_question)
    /\ per_question !! i = Some r
    /\ match omap (fun r => Survey.scale_value (Survey.answer_at i r))
                  (List.filter (Survey.for_survey sid) all_replies) with
       | [] =>
           Survey.average r = None /\ Survey.min r = None
           /\ Survey.max r = None /\ Survey.distribution r = None
       | x :: l =>
           exists avg lo hi hist,
             Survey.average r = Some avg /\ Survey.min r = Some lo
             /\ Survey.max r = Some hi /\ Survey.distribution r = Some hist
             /\ In lo (x :: l) /\ In hi (x :: l)
             /\ (forall v, In v (x :: l) -> lo <= v <= hi)
             /\ Qle (inject_Z lo) avg /\ Qle avg (inject_Z hi)
             /\ (forall k : Z,
                   fold_right Z.add 0 (x :: l) = k * Z.of_nat (length (x :: l)) ->
                   Qeq avg (inject_Z k))
             /\ (forall v : Z,
                   hist !! v =
                   if decide (count_occ Z.eq_dec (x :: l) v = 0%nat) then None
                   else Some (Z.of_nat (count_occ Z.eq_dec (x :: l) v)))
             /\ map_fold (fun _ c acc => c + acc) 0 hist = Z.of_nat (length (x :: l))
       end.
Proof.
  intros Hs Hq Ht Hmod.
  set (rs := List.filter (Survey.for_survey sid) all_replies) in *.
  assert (Hrun : SurveyService.get_survey_results sid surveys all_replies =
                 Py.Ok (Survey.Aggregated (Survey.title s) (length rs)
                          (imap (Survey.question_result rs) (Survey.questions s)))).
  { unfold SurveyService.get_survey_results. rewrite Hs. cbv zeta. fold rs.
    rewrite (questions_results_ok rs (Survey.questions s) 0); [reflexivity|].
    intros j qj Hj. apply question_result_moderate.
    intros Htj r Hr. exact (Hmod j qj r Hj Htj Hr). }
  eexists _, _, _. split; [exact Hrun|].
  split; [rewrite list_lookup_imap, Hq; reflexivity|].
  rewrite (question_result_scale _ i q Ht).
  destruct (omap _ rs) as [|x l] eqn:Hvals; [repeat split|].
  assert (Hsmall : forall v, In v (x :: l) -> Z.abs v < 2 ^ 53).
  { intros v Hv. apply list_elem_of_In in Hv. rewrite <- Hvals in Hv.
    apply list_elem_of_omap in Hv as (r & Hr & Hv).
    apply list_elem_of_In in Hr.
    exact (moderate_value _ _ (Hmod i q r Hq Ht Hr) Hv). }
  destruct (moderate_mean x l Hsmall) as [_ Hbetween].
  destruct (list_min_spec l x) as (Hmin_in & Hmin_x & Hmin_all).
  destruct (list_max_spec l x) as (Hmax_in & Hmax_x & Hmax_all).
  assert (Hb : forall v, In v (x :: l) -> Survey.list_min x l <= v <= Survey.list_max x l).
  { intros v [<-|Hv]; [lia|]. split; [now apply Hmin_all|now apply Hmax_all]. }
  eexists _, _, _, _. cbn [Survey.average Survey.min Survey.max Survey.distribution].
  repeat (split; [reflexivity|]).
  split; [destruct Hmin_in as [->|]; [now left|now right]|].
  split; [destruct Hmax_in as [->|]; [now left|now right]|].
  split; [exact Hb|].
  pose proof (Hbetween _ _ (sum_bounds _ _ _ Hb)) as [Hlo Hhi].
  split; [exact Hlo|]. split; [exact Hhi|].
  split.
  { intros k Hk. apply Qle_antisym; apply (Hbetween k k); lia. }
  split; [intros v; apply histogram_lookup|].
  unfold Survey.histogram. rewrite histogram_total. now rewrite map_fold_empty.
Qed.

Lemma scale_figures_consistent_witness :
  (Mongo.find_one (Survey.by_id "64b7f0c2a1d3e4f5a6b7c8da") [Samples.scale_survey] =
     Some Samples.scale_survey
   /\ Survey.questions Samples.scale_survey !! 0%nat =
        Some {| Survey.text := "Rate"; Survey.type := "scale"; Survey.options := None |}
   /\ "scale" = "scale"
   /\ (forall j qj r,
         Survey.questions Samples.scale_survey !! j = Some qj ->
         Survey.type qj = "scale" ->
         In r (List.filter (Survey.for_survey "64b7f0c2a1d3e4f5a6b7c8da")
                           Samples.scale_replies) ->
         SurveyService.moderate (Survey.answer_at j r) = true))
  /\ exists n per_question r,
       SurveyService.get_survey_results "64b7f0c2a1d3e4f5a6b7c8da" [Samples.scale_survey]
         Samples.scale_replies =
         Py.Ok (Survey.Aggregated (Survey.title Samples.scale_survey) n per_question)
       /\ per_question !! 0%nat = Some r
       /\ exists avg lo hi hist,
            Survey.average r = Some avg /\ Survey.min r = Some lo
            /\ Survey.max r = Some hi /\ Survey.distribution r = Some hist
            /\ In lo [3; 5; 7] /\ In hi [3; 5; 7]
            /\ (forall v, In v [3; 5; 7] -> lo <= v <= hi)
            /\ Qle (inject_Z lo) avg /\ Qle avg (inject_Z hi)
            /\ (forall k : Z,
                  fold_right Z.add 0 [3; 5; 7] = k * Z.of_nat (length [3; 5; 7]) ->
                  Qeq avg (inject_Z k))
            /\ (forall v : Z,
                  hist !! v =
                  if decide (count_occ Z.eq_dec [3; 5; 7] v = 0%nat) then None
                  else Some (Z.of_nat (count_occ Z.eq_dec [3; 5; 7] v)))
            /\ map_fold (fun _ c acc => c + acc) 0 hist = Z.of_nat (length [3; 5; 7]).
Proof.
  assert (Hmod : forall j qj r,
            Survey.questions Samples.scale_survey !! j = Some qj ->
            Survey.type qj = "scale" ->
            In r (List.filter (Survey.for_survey "64b7f0c2a1d3e4f5a6b7c8da")
                              Samples.scale_replies) ->
            SurveyService.moderate (Survey.answer_at j r) = true).
  { intros [|j] qj r Hj _ Hr; [|destruct j; discriminate].
    destruct Hr as [<-|[<-|[<-|[<-|[<-|[]]]]]]; reflexivity. }
  split.
  - split; [reflexivity|]. split; [reflexivity|]. split; [reflexivity|exact Hmod].
  - apply (scale_figures_consistent "64b7f0c2a1d3e4f5a6b7c8da" [Samples.scale_survey]
             Samples.scale_replies Samples.scale_survey 0%nat
             {| Survey.text := "Rate"; Survey.type := "scale"; Survey.options := None |});
      [reflexivity | reflexivity | reflexivity | exact Hmod].
Defined.

(** X23.  [get_survey_results] either returns the dictionary of
    [Survey.get_survey_results], or raises one of two [OverflowError]s: the
    one of [int] on a float infinity, or the one of the division of an
    average. *)
Theorem get_survey_results_returns_or_overflows (sid : string)
        (surveys : list Survey.survey) (all_replies : list Survey.response) :
  SurveyService.get_survey_results sid surveys all_replies =
    Py.Ok (Survey.get_survey_results sid surveys all_replies)
  \/ SurveyService.get_survey_results sid surveys all_replies =
       Py.Raise (Py.OverflowError "cannot convert float infinity to integer")
  \/ SurveyService.get_survey_results sid surveys all_replies =
       Py.Raise (Py.OverflowError "integer division result too large for a float").
Proof.
  unfold SurveyService.get_survey_results, Survey.get_survey_results.
  destruct (Mongo.find_one (Survey.by_id sid) surveys) as [s|]; [|left; reflexivity].
  cbv zeta.
  destruct (questions_results_outcome (List.filter (Survey.for_survey sid) all_replies)
              (Survey.questions s) 0) as [-> | [-> | ->]];
    [left; reflexivity|right; left; reflexivity|right; right; reflexivity].
Qed.

Lemma filter_Permutation_list {D : Type} (q : D -> bool) (l l' : list D) :
  l ≡ₚ l' -> List.filter q l ≡ₚ List.filter q l'.
Proof.
  induction 1 as [|d l l' _ IH|d d' l|l l1 l2 _ IH1 _ IH2]; simpl.
  - reflexivity.
  - destruct (q d); [now constructor|exact IH].
  - destruct (q d), (q d'); try reflexivity. apply Permutation_swap.
  - now rewrite IH1.
Qed.

Lemma total_votes_Permutation (o : string) (l l' : list Survey.answer) :
  l ≡ₚ l' -> Survey.total_votes o l = Survey.total_votes o l'.
Proof.
  unfold Survey.total_votes.
  induction 1 as [|a l l' _ IH|a a' l|l l1 l2 _ IH1 _ IH2]; simpl; lia.
Qed.

(** X14.  The option counts of a choice question do not depend on the order
    in which the responses are stored. *)
Theorem choice_counts_any_order (sid : string) (surveys : list Survey.survey)
        (replies replies' : list Survey.response) (s : Survey.survey)
        (i : nat) (q : Survey.question_def) :
  Mongo.find_one (Survey.by_id sid) surveys = Some s ->
  Survey.questions s !! i = Some q ->
  Survey.type q = "multiple_choice" \/ Survey.type q = "single_choice" ->
  replies ≡ₚ replies' ->
  exists n qs qs' r r' counts,
    Survey.get_survey_results sid surveys replies = Survey.Aggregated (Survey.title s) n qs
    /\ Survey.get_survey_results sid surveys replies' = Survey.Aggregated (Survey.title s) n qs'
    /\ qs !! i = Some r /\ qs' !! i = Some r'
    /\ Survey.option_counts r = Some counts
    /\ Survey.option_counts r' = Some counts.
Proof.
  intros Hs Hq Ht Hperm.
  destruct (get_survey_results_found sid surveys replies s Hs) as [Hres Hlook].
  destruct (get_survey_results_found sid surveys replies' s Hs) as [Hres' Hlook'].
  pose proof (filter_Permutation_list (Survey.for_survey sid) _ _ Hperm) as Hf.
  rewrite <- (Permutation_length Hf) in Hres'.
  eexists _, _, _, _, _, _. split; [exact Hres|]. split; [exact Hres'|].
  split; [exact (Hlook i q Hq)|]. split; [exact (Hlook' i q Hq)|].
  rewrite !(question_result_choice _ i q Ht). cbn [Survey.option_counts].
  split; [reflexivity|]. f_equal. apply map_eq. intros o.
  rewrite !tally_responses_lookup.
  now rewrite (total_votes_Permutation o _ _ (Permutation_map (Survey.answer_at i) Hf)).
Qed.

Lemma choice_counts_any_order_witness :
  (Mongo.find_one (Survey.by_id "64b7f0c2a1d3e4f5a6b7c8d9") [Samples.choice_survey] =
     Some Samples.choice_survey
   /\ Survey.questions Samples.choice_survey !! 0%nat =
        Some {| Survey.text := "Pick"; Survey.type := "multiple_choice";
                Survey.options := Some ["A"; "B"; "C"] |}
   /\ ("multiple_choice" = "multiple_choice" \/ "multiple_choice" = "single_choice")
   /\ Samples.choice_replies ≡ₚ rev Samples.choice_replies)
  /\ exists n qs qs' r r' counts,
    Survey.get_survey_results "64b7f0c2a1d3e4f5a6b7c8d9" [Samples.choice_survey]
      Samples.choice_replies = Survey.Aggregated (Survey.title Samples.choice_survey) n qs
    /\ Survey.get_survey_results "64b7f0c2a1d3e4f5a6b7c8d9" [Samples.choice_survey]
         (rev Samples.choice_replies) =
       Survey.Aggregated (Survey.title Samples.choice_survey) n qs'
    /\ qs !! 0%nat = Some r /\ qs' !! 0%nat = Some r'
    /\ Survey.option_counts r = Some counts
    /\ Survey.option_counts r' = Some counts.
Proof.
  split.
  - split; [reflexivity|]. split; [reflexivity|]. split; [left; reflexivity|].
    apply Permutation_rev.
  - apply (choice_counts_any_order "64b7f0c2a1d3e4f5a6b7c8d9" [Samples.choice_survey]
             Samples.choice_replies (rev Samples.choice_replies) Samples.choice_survey 0%nat
             {| Survey.text := "Pick"; Survey.type := "multiple_choice";
                Survey.options := Some ["A"; "B"; "C"] |});
      [reflexivity | reflexivity | left; reflexivity | apply Permutation_rev].
Defined.

(* ===================================================================== *)
(** * News: what the code shows beyond the specification                  *)
(* ===================================================================== *)

Lemma team_doc_ok (w : NewsService.world) (t : NewsService.tweet) (d : NewsService.post) :
  NewsService.team_doc w t = Py.Ok d -> NewsService.id t = Some (NewsService.post_id d).
Proof.
  unfold NewsService.team_doc.
  destruct (NewsService.id t) as [pid|]; cbn; [|discriminate].
  destruct (NewsService.created_at t) as [c|]; cbn; [|discriminate].
  destruct (NewsService.fromisoformat w _) as [ts|e]; cbn; [|discriminate].
  now intros [= <-].
Qed.

Lemma player_doc_ok (w : NewsService.world) (player handle : string)
      (t : NewsService.tweet) (d : NewsService.post) :
  NewsService.player_doc w player handle t = Py.Ok d ->
  NewsService.id t = Some (NewsService.post_id d).
Proof.
  unfold NewsService.player_doc.
  destruct (NewsService.id t) as [pid|]; cbn; [|discriminate].
  destruct (NewsService.created_at t) as [c|]; cbn; [|discriminate].
  destruct (NewsService.fromisoformat w _) as [ts|e]; cbn; [|discriminate].
  now intros [= <-].
Qed.

(** What one round of either loop does to its collection. *)
Lemma store_team_tweet_ok (w : NewsService.world) (t : NewsService.tweet)
      (col col' : list NewsService.post) :
  NewsService.store_team_tweet w t col = Py.Ok col' ->
  exists d, NewsService.team_doc w t = Py.Ok d
    /\ NewsService.source d = "twitter" /\ NewsService.player_id d = None
    /\ NewsService.team_key "twitter" (NewsService.post_id d) d = true
    /\ col' = Mongo.upsert_set_on_insert
                (NewsService.team_key "twitter" (NewsService.post_id d)) d col.
Proof.
  unfold NewsService.store_team_tweet.
  destruct (NewsService.team_doc w t) as [d|e] eqn:Hd; cbn; [|discriminate].
  intros [= <-]. exists d.
  destruct (team_doc_fields w t _ d (team_doc_ok w t d Hd) Hd) as (_ & Hsrc & Hpl & Hkey).
  auto.
Qed.

Lemma store_player_tweet_ok (w : NewsService.world) (player handle : string)
      (t : NewsService.tweet) (col col' : list NewsService.post) :
  NewsService.store_player_tweet w player handle t col = Py.Ok col' ->
  exists d, NewsService.player_doc w player handle t = Py.Ok d
    /\ NewsService.source d = "twitter" /\ NewsService.player_id d = Some player
    /\ NewsService.player_key player (NewsService.post_id d) d = true
    /\ col' = Mongo.upsert_set_on_insert
                (NewsService.player_key player (NewsService.post_id d)) d col.
Proof.
  unfold NewsService.store_player_tweet.
  destruct (NewsService.player_doc w player handle t) as [d|e] eqn:Hd; cbn; [|discriminate].
  intros [= <-]. exists d.
  destruct (player_doc_fields w player handle t _ d (player_doc_ok w player handle t d Hd) Hd)
    as (_ & Hsrc & Hpl & Hkey).
  auto.
Qed.

Lemma upsert_appends {D : Type} (q : D -> bool) (doc : D) (col : list D) :
  exists added, Mongo.upsert_set_on_insert q doc col = (col ++ added)%list
                /\ (added = [] \/ added = [doc]).
Proof.
  destruct (existsb q col) eqn:He.
  - exists []. rewrite upsert_present by exact He. rewrite app_nil_r. auto.
  - exists [doc]. rewrite upsert_absent by exact He. auto.
Qed.

(** A loop whose rounds only append documents with a property only appends
    documents with that property. *)
Lemma store_all_appends (P : NewsService.post -> Prop)
      (step : NewsService.tweet -> list NewsService.post -> Py.result (list NewsService.post))
      (tweets : list NewsService.tweet) :
  (forall t col col', step t col = Py.Ok col' ->
     exists added, col' = (col ++ added)%list /\ Forall P added) ->
  forall col, exists added,
    fst (NewsService.store_all step tweets col) = (col ++ added)%list /\ Forall P added.
Proof.
  intros Hstep. induction tweets as [|t tweets IH]; intros col; simpl.
  - exists []. rewrite app_nil_r. split; [reflexivity|constructor].
  - destruct (step t col) as [col'|e] eqn:Hs.
    + destruct (Hstep _ _ _ Hs) as (a1 & -> & Ha1).
      destruct (IH (col ++ a1)%list) as (a2 & -> & Ha2).
      exists (a1 ++ a2)%list. rewrite app_assoc. split; [reflexivity|].
      apply Forall_app. auto.
    + exists []. rewrite app_nil_r. split; [reflexivity|constructor].
Qed.

Lemma store_team_tweet_appends (w : NewsService.world) (t : NewsService.tweet)
      (col col' : list NewsService.post) :
  NewsService.store_team_tweet w t col = Py.Ok col' ->
  exists added, col' = (col ++ added)%list
    /\ Forall (fun d => NewsService.source d = "twitter" /\ NewsService.player_id d = None) added.
Proof.
  intros Hs. destruct (store_team_tweet_ok _ _ _ _ Hs) as (d & _ & Hsrc & Hpl & _ & ->).
  destruct (upsert_appends (NewsService.team_key "twitter" (NewsService.post_id d)) d col)
    as (added & -> & [-> | ->]); eexists; (split; [reflexivity|]); repeat constructor; auto.
Qed.

Lemma store_player_tweet_appends (w : NewsService.world) (player handle : string)
      (t : NewsService.tweet) (col col' : list NewsService.post) :
  NewsService.store_player_tweet w player handle t col = Py.Ok col' ->
  exists added, col' = (col ++ added)%list
    /\ Forall (fun d => NewsService.source d = "twitter"
                        /\ NewsService.player_id d = Some player) added.
Proof.
  intros Hs. destruct (store_player_tweet_ok _ _ _ _ _ _ Hs) as (d & _ & Hsrc & Hpl & _ & ->).
  destruct (upsert_appends (NewsService.player_key player (NewsService.post_id d)) d col)
    as (added & -> & [-> | ->]); eexists; (split; [reflexivity|]); repeat constructor; auto.
Qed.

(** X15.  A fetch never raises and never removes or rewrites a stored post:
    [fetch_team_tweets] leaves the team collection extended by tweets of the
    team, the player collection as it was and one more log record;
    [fetch_player_tweets] leaves the player collection extended by tweets of
    that player, the team collection as it was and one more log record. *)
Theorem fetch_only_appends (w : NewsService.world)
        (players : gmap string (gmap string string)) (player : string)
        (st : NewsService.state) :
  (fst (NewsService.fetch_team_tweets w st) = Py.Ok tt
   /\ (exists added,
         NewsService.team_news (snd (NewsService.fetch_team_tweets w st)) =
           (NewsService.team_news st ++ added)%list
         /\ Forall (fun d => NewsService.source d = "twitter"
                             /\ NewsService.player_id d = None) added)
   /\ NewsService.player_news (snd (NewsService.fetch_team_tweets w st)) =
        NewsService.player_news st
   /\ exists record,
        NewsService.log (snd (NewsService.fetch_team_tweets w st)) =
          (NewsService.log st ++ [record])%list)
  /\ (fst (NewsService.fetch_player_tweets w players player st) = Py.Ok tt
      /\ (exists added,
            NewsService.player_news (snd (NewsService.fetch_player_tweets w players player st)) =
              (NewsService.player_news st ++ added)%list
            /\ Forall (fun d => NewsService.source d = "twitter"
                                /\ NewsService.player_id d = Some player) added)
      /\ NewsService.team_news (snd (NewsService.fetch_player_tweets w players player st)) =
           NewsService.team_news st
      /\ exists record,
           NewsService.log (snd (NewsService.fetch_player_tweets w players player st)) =
             (NewsService.log st ++ [record])%list).
Proof.
  assert (Hnil : forall (P : NewsService.post -> Prop) (col : list NewsService.post),
            exists added, col = (col ++ added)%list /\ Forall P added).
  { intros P col. exists []. rewrite app_nil_r. split; [reflexivity|constructor]. }
  split.
  - unfold NewsService.fetch_team_tweets, NewsService.fetch_team_tweets_try.
    destruct (NewsService.get_twitter_user_id w _) as [uid|e].
    2:{ cbn. split; [reflexivity|]. split; [apply Hnil|]. split; [reflexivity|eauto]. }
    destruct (NewsService.get_user_tweets w uid) as [tweets|e].
    2:{ cbn. split; [reflexivity|]. split; [apply Hnil|]. split; [reflexivity|eauto]. }
    destruct (store_all_appends _ _ tweets (store_team_tweet_appends w) (NewsService.team_news st))
      as (added & Hadd & Hall).
    destruct (NewsService.store_all _ tweets _) as [col [e|]]; cbn in *;
      (split; [reflexivity|]); (split; [eauto|]); (split; [reflexivity|eauto]).
  - unfold NewsService.fetch_player_tweets, NewsService.fetch_player_tweets_try.
    destruct (PlayerService.get_twitter_handle players player) as [handle|].
    2:{ cbn. split; [reflexivity|]. split; [apply Hnil|]. split; [reflexivity|eauto]. }
    destruct (String.eqb handle "").
    { cbn. split; [reflexivity|]. split; [apply Hnil|]. split; [reflexivity|eauto]. }
    destruct (NewsService.get_twitter_user_id w _) as [uid|e].
    2:{ cbn. split; [reflexivity|]. split; [apply Hnil|]. split; [reflexivity|eauto]. }
    destruct (NewsService.get_user_tweets w uid) as [tweets|e].
    2:{ cbn. split; [reflexivity|]. split; [apply Hnil|]. split; [reflexivity|eauto]. }
    destruct (store_all_appends _ _ tweets (store_player_tweet_appends w player handle)
                (NewsService.player_news st)) as (added & Hadd & Hall).
    destruct (NewsService.store_all _ tweets _) as [col [e|]]; cbn in *;
      (split; [reflexivity|]); (split; [eauto|]); (split; [reflexivity|eauto]).
Qed.

Lemma existsb_app_l {D : Type} (q : D -> bool) (col added : list D) :
  existsb q col = true -> existsb q (col ++ added)%list = true.
Proof. intros H. now rewrite existsb_app, H. Qed.

Lemma store_all_keeps_present (P : NewsService.post -> Prop)
      (step : NewsService.tweet -> list NewsService.post -> Py.result (list NewsService.post))
      (tweets : list NewsService.tweet) (q : NewsService.post -> bool)
      (col : list NewsService.post) :
  (forall t col col', step t col = Py.Ok col' ->
     exists added, col' = (col ++ added)%list /\ Forall P added) ->
  existsb q col = true ->
  existsb q (fst (NewsService.store_all step tweets col)) = true.
Proof.
  intros Hstep Hq. destruct (store_all_appends P step tweets Hstep col) as (added & -> & _).
  now apply existsb_app_l.
Qed.

(** Running a loop again over the same tweets, from the collection the
    first run left, changes nothing and ends the same way. *)
Lemma store_all_again (P : NewsService.post -> Prop)
      (step : NewsService.tweet -> list NewsService.post -> Py.result (list NewsService.post))
      (key : NewsService.tweet -> NewsService.post -> bool) :
  (forall t col col', step t col = Py.Ok col' ->
     exists added, col' = (col ++ added)%list /\ Forall P added) ->
  (forall t col col', step t col = Py.Ok col' -> existsb (key t) col' = true) ->
  (forall t col col' c, step t col = Py.Ok col' -> existsb (key t) c = true ->
     step t c = Py.Ok c) ->
  forall tweets col,
    NewsService.store_all step tweets (fst (NewsService.store_all step tweets col)) =
    NewsService.store_all step tweets col.
Proof.
  intros Happ Hkey Hsame tweets.
  induction tweets as [|t tweets IH]; intros col; [reflexivity|].
  cbn [NewsService.store_all].
  destruct (step t col) as [col1|e] eqn:Hs.
  - cbn [NewsService.store_all].
    rewrite (Hsame t col col1 _ Hs).
    + apply IH.
    + apply (store_all_keeps_present P); [exact Happ|]. exact (Hkey _ _ _ Hs).
  - cbn [fst NewsService.store_all]. now rewrite Hs.
Qed.

Lemma store_team_tweets_again (w : NewsService.world) (tweets : list NewsService.tweet)
      (col : list NewsService.post) :
  NewsService.store_all (NewsService.store_team_tweet w) tweets
    (fst (NewsService.store_all (NewsService.store_team_tweet w) tweets col)) =
  NewsService.store_all (NewsService.store_team_tweet w) tweets col.
Proof.
  apply (store_all_again _ _
           (fun t d => match NewsService.id t with
                       | Some pid => NewsService.team_key "twitter" pid d
                       | None => false
                       end)
           (store_team_tweet_appends w)).
  - intros t c c' Hs. destruct (store_team_tweet_ok _ _ _ _ Hs) as (d & Hd & _ & _ & Hk & ->).
    rewrite (team_doc_ok _ _ _ Hd). now apply existsb_after_upsert.
  - intros t c c' c2 Hs. destruct (store_team_tweet_ok _ _ _ _ Hs) as (d & Hd & _).
    rewrite (team_doc_ok _ _ _ Hd). intros He.
    unfold NewsService.store_team_tweet. rewrite Hd. cbn.
    now rewrite upsert_present.
Qed.

Lemma store_player_tweets_again (w : NewsService.world) (player handle : string)
      (tweets : list NewsService.tweet) (col : list NewsService.post) :
  NewsService.store_all (NewsService.store_player_tweet w player handle) tweets
    (fst (NewsService.store_all (NewsService.store_player_tweet w player handle) tweets col)) =
  NewsService.store_all (NewsService.store_player_tweet w player handle) tweets col.
Proof.
  apply (store_all_again _ _
           (fun t d => match NewsService.id t with
                       | Some pid => NewsService.player_key player pid d
                       | None => false
                       end)
           (store_player_tweet_appends w player handle)).
  - intros t c c' Hs.
    destruct (store_player_tweet_ok _ _ _ _ _ _ Hs) as (d & Hd & _ & _ & Hk & ->).
    rewrite (player_doc_ok _ _ _ _ _ Hd). now apply existsb_after_upsert.
  - intros t c c' c2 Hs. destruct (store_player_tweet_ok _ _ _ _ _ _ Hs) as (d & Hd & _).
    rewrite (player_doc_ok _ _ _ _ _ Hd). intros He.
    unfold NewsService.store_player_tweet. rewrite Hd. cbn.
    now rewrite upsert_present.
Qed.

(** The team collection after [fetch_team_tweets], and the player collection
    after [fetch_player_tweets], as functions of the collection before. *)
Lemma team_news_after_fetch (w : NewsService.world) (st : NewsService.state) :
  NewsService.team_news (snd (NewsService.fetch_team_tweets w st)) =
  match NewsService.get_twitter_user_id w NewsService.team_twitter_username with
  | Py.Ok uid =>
      match NewsService.get_user_tweets w uid with
      | Py.Ok tweets =>
          fst (NewsService.store_all (NewsService.store_team_tweet w) tweets
                 (NewsService.team_news st))
      | Py.Raise _ => NewsService.team_news st
      end
  | Py.Raise _ => NewsService.team_news st
  end.
Proof.
  unfold NewsService.fetch_team_tweets, NewsService.fetch_team_tweets_try.
  destruct (NewsService.get_twitter_user_id w _) as [uid|e]; [|reflexivity].
  destruct (NewsService.get_user_tweets w uid) as [tweets|e]; [|reflexivity].
  destruct (NewsService.store_all _ tweets _) as [col [e|]]; reflexivity.
Qed.

Lemma player_news_after_fetch (w : NewsService.world)
      (players : gmap string (gmap string string)) (player : string)
      (st : NewsService.state) :
  NewsService.player_news (snd (NewsService.fetch_player_tweets w players player st)) =
  match PlayerService.get_twitter_handle players player with
  | Some handle =>
      if String.eqb handle "" then NewsService.player_news st
      else
        match NewsService.get_twitter_user_id w handle with
        | Py.Ok uid =>
            match NewsService.get_user_tweets w uid with
            | Py.Ok tweets =>
                fst (NewsService.store_all (NewsService.store_player_tweet w player handle)
                       tweets (NewsService.player_news st))
            | Py.Raise _ => NewsService.player_news st
            end
        | Py.Raise _ => NewsService.player_news st
        end
  | None => NewsService.player_news st
  end.
Proof.
  unfold NewsService.fetch_player_tweets, NewsService.fetch_player_tweets_try.
  destruct (PlayerService.get_twitter_handle players player) as [handle|]; [|reflexivity].
  destruct (String.eqb handle ""); [reflexivity|].
  destruct (NewsService.get_twitter_user_id w _) as [uid|e]; [|reflexivity].
  destruct (NewsService.get_user_tweets w uid) as [tweets|e]; [|reflexivity].
  destruct (NewsService.store_all _ tweets _) as [col [e|]]; reflexivity.
Qed.

(** X16.  Fetching again while the platform answers the same stores
    nothing new: the second [fetch_team_tweets] (or [fetch_player_tweets])
    leaves the collection exactly as the first one left it, also when a
    malformed tweet stopped the loop half way. *)
Theorem fetch_again_changes_nothing (w : NewsService.world)
        (players : gmap string (gmap string string)) (player : string)
        (st : NewsService.state) :
  NewsService.team_news
    (snd (NewsService.fetch_team_tweets w (snd (NewsService.fetch_team_tweets w st)))) =
  NewsService.team_news (snd (NewsService.fetch_team_tweets w st))
  /\ NewsService.player_news
       (snd (NewsService.fetch_player_tweets w players player
               (snd (NewsService.fetch_player_tweets w players player st)))) =
     NewsService.player_news (snd (NewsService.fetch_player_tweets w players player st)).
Proof.
  split.
  - rewrite (team_news_after_fetch w (snd (NewsService.fetch_team_tweets w st))).
    rewrite (team_news_after_fetch w st).
    destruct (NewsService.get_twitter_user_id w _) as [uid|e]; [|reflexivity].
    destruct (NewsService.get_user_tweets w uid) as [tweets|e]; [|reflexivity].
    now rewrite store_team_tweets_again.
  - rewrite (player_news_after_fetch w players player
               (snd (NewsService.fetch_player_tweets w players player st))).
    rewrite (player_news_after_fetch w players player st).
    destruct (PlayerService.get_twitter_handle players player) as [handle|]; [|reflexivity].
    destruct (String.eqb handle ""); [reflexivity|].
    destruct (NewsService.get_twitter_user_id w _) as [uid|e]; [|reflexivity].
    destruct (NewsService.get_user_tweets w uid) as [tweets|e]; [|reflexivity].
    now rewrite store_player_tweets_again.
Qed.

Lemma store_all_invariant (Inv : list NewsService.post -> Prop)
      (step : NewsService.tweet -> list NewsService.post -> Py.result (list NewsService.post))
      (tweets : list NewsService.tweet) :
  (forall t col col', Inv col -> step t col = Py.Ok col' -> Inv col') ->
  forall col, Inv col -> Inv (fst (NewsService.store_all step tweets col)).
Proof.
  intros Hstep. induction tweets as [|t tweets IH]; intros col Hcol; simpl; [exact Hcol|].
  destruct (step t col) as [col'|e] eqn:Hs; [|exact Hcol].
  apply IH. exact (Hstep _ _ _ Hcol Hs).
Qed.

Lemma upsert_keeps_keys_unique {K : Type} (key_of : NewsService.post -> K)
      (q : NewsService.post -> bool) (doc : NewsService.post)
      (col : list NewsService.post) :
  (forall d, key_of d = key_of doc -> q d = true) ->
  NoDup (map key_of col) ->
  NoDup (map key_of (Mongo.upsert_set_on_insert q doc col)).
Proof.
  intros Hq Hnd. destruct (existsb q col) eqn:He.
  - now rewrite upsert_present.
  - rewrite upsert_absent by exact He. rewrite map_app. simpl.
    apply NoDup_app. split; [exact Hnd|]. split; [|apply NoDup_singleton].
    intros k Hk Hdoc. apply list_elem_of_singleton in Hdoc as ->.
    apply list_elem_of_In, in_map_iff in Hk as (d & Hkd & Hin).
    assert (existsb q col = true); [|congruence].
    apply existsb_exists. exists d. auto.
Qed.

(** X17.  Ingestion keeps the uniqueness keys unique: a team collection in
    which no two posts share (source, post id) is still such a collection
    after [fetch_team_tweets], and a player collection in which no two posts
    share (player id, post id) is still such after [fetch_player_tweets]. *)
Theorem fetch_keeps_keys_unique (w : NewsService.world)
        (players : gmap string (gmap string string)) (player : string)
        (st : NewsService.state) :
  NoDup (map NewsService.team_key_of (NewsService.team_news st)) ->
  NoDup (map NewsService.player_key_of (NewsService.player_news st)) ->
  NoDup (map NewsService.team_key_of
           (NewsService.team_news (snd (NewsService.fetch_team_tweets w st))))
  /\ NoDup (map NewsService.player_key_of
              (NewsService.player_news
                 (snd (NewsService.fetch_player_tweets w players player st)))).
Proof.
  intros Hteam Hplayers. split.
  - rewrite team_news_after_fetch.
    destruct (NewsService.get_twitter_user_id w _) as [uid|e]; [|exact Hteam].
    destruct (NewsService.get_user_tweets w uid) as [tweets|e]; [|exact Hteam].
    apply (store_all_invariant (fun col => NoDup (map NewsService.team_key_of col)));
      [|exact Hteam].
    intros t col col' Hnd Hs.
    destruct (store_team_tweet_ok _ _ _ _ Hs) as (d & _ & Hsrc & _ & _ & ->).
    apply upsert_keeps_keys_unique; [|exact Hnd].
    intros d' Hk. unfold NewsService.team_key_of in Hk. injection Hk as Hs' Hp.
    unfold NewsService.team_key. rewrite Hs', Hsrc, Hp.
    now rewrite !String.eqb_refl.
  - rewrite player_news_after_fetch.
    destruct (PlayerService.get_twitter_handle players player) as [handle|]; [|exact Hplayers].
    destruct (String.eqb handle ""); [exact Hplayers|].
    destruct (NewsService.get_twitter_user_id w _) as [uid|e]; [|exact Hplayers].
    destruct (NewsService.get_user_tweets w uid) as [tweets|e]; [|exact Hplayers].
    apply (store_all_invariant (fun col => NoDup (map NewsService.player_key_of col)));
      [|exact Hplayers].
    intros t col col' Hnd Hs.
    destruct (store_player_tweet_ok _ _ _ _ _ _ Hs) as (d & _ & _ & Hpl & _ & ->).
    apply upsert_keeps_keys_unique; [|exact Hnd].
    intros d' Hk. unfold NewsService.player_key_of in Hk. injection Hk as Hp' Hp.
    unfold NewsService.player_key. rewrite Hp', Hpl, Hp.
    now rewrite !String.eqb_refl.
Qed.

Lemma fetch_keeps_keys_unique_witness :
  (NoDup (map NewsService.team_key_of (NewsService.team_news Samples.empty_state))
   /\ NoDup (map NewsService.player_key_of (NewsService.player_news Samples.empty_state)))
  /\ NoDup (map NewsService.team_key_of
              (NewsService.team_news
                 (snd (NewsService.fetch_team_tweets Samples.online Samples.empty_state))))
  /\ NoDup (map NewsService.player_key_of
              (NewsService.player_news
                 (snd (NewsService.fetch_player_tweets Samples.online Samples.registry
                         "yuurih" Samples.empty_state)))).
Proof.
  split.
  - split; apply NoDup_nil_2.
  - apply (fetch_keeps_keys_unique Samples.online Samples.registry "yuurih"
             Samples.empty_state); apply NoDup_nil_2.
Defined.

Lemma timestamp_lt_asym (a b : NewsService.post) :
  NewsService.timestamp_lt a b = true -> NewsService.timestamp_lt b a = false.
Proof. unfold NewsService.timestamp_lt. lia. Qed.

Lemma timestamp_ge_trans (a b c : NewsService.post) :
  NewsService.timestamp_lt a b = false -> NewsService.timestamp_lt b c = false ->
  NewsService.timestamp_lt a c = false.
Proof. unfold NewsService.timestamp_lt. lia. Qed.

(** The [limit] newest of a list of posts. *)
Lemma newest_first (k : nat) (posts : list NewsService.post) :
  let shown := take k (Desc.sort_desc NewsService.timestamp_lt posts) in
  length shown = Nat.min k (length posts)
  /\ (forall d, d ∈ shown -> d ∈ posts)
  /\ (forall i j a b, (i < j)%nat -> shown !! i = Some a -> shown !! j = Some b ->
        NewsService.timestamp b <= NewsService.timestamp a)
  /\ (forall a b, a ∈ shown -> b ∈ posts -> b ∉ shown ->
        NewsService.timestamp b <= NewsService.timestamp a).
Proof.
  intros shown. subst shown.
  destruct (sort_desc_take NewsService.timestamp_lt timestamp_lt_asym timestamp_ge_trans
              k posts) as (Hord & Htop & Hcover).
  pose proof (sort_desc_perm NewsService.timestamp_lt posts) as Hperm.
  split; [|split; [|split]].
  - rewrite length_take. now rewrite (Permutation_length Hperm).
  - intros d Hd. rewrite <- Hperm.
    rewrite <- (take_drop k (Desc.sort_desc _ posts)). apply elem_of_app. now left.
  - intros i j a b Hij Ha Hb. pose proof (Hord i j a b Hij Ha Hb) as H.
    unfold NewsService.timestamp_lt in H. lia.
  - intros a b Ha Hb Hout.
    destruct (Hcover b Hb) as [Hin|Hin]; [contradiction|].
    pose proof (Htop a b Ha Hin) as H. unfold NewsService.timestamp_lt in H. lia.
Qed.

(** X18.  For a positive limit, [get_latest_team_news] returns the stored
    team posts, and [get_latest_player_news] the stored posts of the player
    asked for, newest first: as many as the limit, or all when there are
    fewer (none when there is none), and no post left out is newer than one
    returned. *)
Theorem latest_news_newest_first (limit : Z) (player : string)
        (team players : list NewsService.post) :
  1 <= limit ->
  (length (NewsService.get_latest_team_news limit team) =
     Nat.min (Z.to_nat limit) (length team)
   /\ (forall d, d ∈ NewsService.get_latest_team_news limit team -> d ∈ team)
   /\ (forall i j a b, (i < j)%nat ->
         NewsService.get_latest_team_news limit team !! i = Some a ->
         NewsService.get_latest_team_news limit team !! j = Some b ->
         NewsService.timestamp b <= NewsService.timestamp a)
   /\ (forall a b, a ∈ NewsService.get_latest_team_news limit team ->
         b ∈ team -> b ∉ NewsService.get_latest_team_news limit team ->
         NewsService.timestamp b <= NewsService.timestamp a))
  /\ (length (NewsService.get_latest_player_news player limit players) =
        Nat.min (Z.to_nat limit)
                (length (List.filter (NewsService.of_player player) players))
      /\ (forall d, d ∈ NewsService.get_latest_player_news player limit players ->
            d ∈ players /\ NewsService.player_id d = Some player)
      /\ (forall i j a b, (i < j)%nat ->
            NewsService.get_latest_player_news player limit players !! i = Some a ->
            NewsService.get_latest_player_news player limit players !! j = Some b ->
            NewsService.timestamp b <= NewsService.timestamp a)
      /\ (forall a b, a ∈ NewsService.get_latest_player_news player limit players ->
            b ∈ players -> NewsService.player_id b = Some player ->
            b ∉ NewsService.get_latest_player_news player limit players ->
            NewsService.timestamp b <= NewsService.timestamp a)).
Proof.
  intros _. split.
  - apply newest_first.
  - unfold NewsService.get_latest_player_news.
    destruct (newest_first (Z.to_nat limit)
                (List.filter (NewsService.of_player player) players))
      as (Hlen & Hmem & Hord & Htop).
    assert (Hf : forall d, d ∈ List.filter (NewsService.of_player player) players <->
                           d ∈ players /\ NewsService.player_id d = Some player).
    { intros d. rewrite !list_elem_of_In, filter_In. unfold NewsService.of_player.
      destruct (NewsService.player_id d) as [p|].
      - rewrite String.eqb_eq. split; intros [? ?]; split; congruence.
      - split; intros [? ?]; discriminate. }
    split; [exact Hlen|]. split; [intros d Hd; apply Hf, Hmem, Hd|].
    split; [exact Hord|].
    intros a b Ha Hb Hp Hout. apply Htop; [exact Ha| |exact Hout]. now apply Hf.
Qed.

Lemma latest_news_newest_first_witness :
  1 <= 5
  /\ (length (NewsService.get_latest_team_news 5 [Samples.seen_team_doc]) =
        Nat.min (Z.to_nat 5) (length [Samples.seen_team_doc])
      /\ (forall d, d ∈ NewsService.get_latest_team_news 5 [Samples.seen_team_doc] ->
            d ∈ [Samples.seen_team_doc])
      /\ (forall i j a b, (i < j)%nat ->
            NewsService.get_latest_team_news 5 [Samples.seen_team_doc] !! i = Some a ->
            NewsService.get_latest_team_news 5 [Samples.seen_team_doc] !! j = Some b ->
            NewsService.timestamp b <= NewsService.timestamp a)
      /\ (forall a b, a ∈ NewsService.get_latest_team_news 5 [Samples.seen_team_doc] ->
            b ∈ [Samples.seen_team_doc] ->
            b ∉ NewsService.get_latest_team_news 5 [Samples.seen_team_doc] ->
            NewsService.timestamp b <= NewsService.timestamp a))
  /\ (length (NewsService.get_latest_player_news "yuurih" 5 [Samples.seen_player_doc]) =
        Nat.min (Z.to_nat 5)
                (length (List.filter (NewsService.of_player "yuurih") [Samples.seen_player_doc]))
      /\ (forall d, d ∈ NewsService.get_latest_player_news "yuurih" 5 [Samples.seen_player_doc] ->
            d ∈ [Samples.seen_player_doc] /\ NewsService.player_id d = Some "yuurih")
      /\ (forall i j a b, (i < j)%nat ->
            NewsService.get_latest_player_news "yuurih" 5 [Samples.seen_player_doc] !! i = Some a ->
            NewsService.get_latest_player_news "yuurih" 5 [Samples.seen_player_doc] !! j = Some b ->
            NewsService.timestamp b <= NewsService.timestamp a)
      /\ (forall a b, a ∈ NewsService.get_latest_player_news "yuurih" 5 [Samples.seen_player_doc] ->
            b ∈ [Samples.seen_player_doc] -> NewsService.player_id b = Some "yuurih" ->
            b ∉ NewsService.get_latest_player_news "yuurih" 5 [Samples.seen_player_doc] ->
            NewsService.timestamp b <= NewsService.timestamp a)).
Proof.
  split; [lia|].
  apply (latest_news_newest_first 5 "yuurih" [Samples.seen_team_doc] [Samples.seen_player_doc]).
  lia.
Defined.

(* ===================================================================== *)
(** * The menu: what the code shows beyond the specification              *)
(* ===================================================================== *)

Lemma list_ascii_of_string_app (s1 s2 : string) :
  list_ascii_of_string (s1 ++ s2) =
  (list_ascii_of_string s1 ++ list_ascii_of_string s2)%list.
Proof. induction s1 as [|c s1 IH]; simpl; [reflexivity|]. now rewrite IH. Qed.

Lemma split_from_piece (p : list ascii) : forall acc,
  Forall (fun c => c <> "_"%char) p ->
  Bot.split_from acc p = [string_of_list_ascii (rev acc ++ p)]
  /\ forall rest,
       Bot.split_from acc (p ++ "_"%char :: rest) =
       string_of_list_ascii (rev acc ++ p) :: Bot.split_from [] rest.
Proof.
  induction p as [|c p IH]; intros acc Hp.
  - simpl. rewrite app_nil_r. split; reflexivity.
  - apply Forall_cons in Hp as [Hc Hp].
    cbn [Bot.split_from app]. destruct (Ascii.eqb_spec c "_"); [contradiction|].
    destruct (IH (c :: acc) Hp) as [H1 H2]. simpl in H1, H2.
    rewrite <- app_assoc in H1, H2. simpl in H1, H2. split; [exact H1|exact H2].
Qed.

(** X19.  The player button handler reads the player from between the
    first and the second underscore of the callback data: for
    [player_<id>] with no underscore in the id it asks for the five latest
    posts of that id, and whatever follows a further underscore is
    dropped. *)
Theorem player_of_callback (p rest : string) (players : list NewsService.post) :
  Forall (fun c => c <> "_"%char) (list_ascii_of_string p) ->
  Bot.player_of ("player_" ++ p) = Some p
  /\ Bot.player_of ("player_" ++ p ++ "_" ++ rest) = Some p
  /\ Bot.player_items ("player_" ++ p) players =
       Some (NewsService.get_latest_player_news p 5 players)
  /\ Bot.player_items ("player_" ++ p ++ "_" ++ rest) players =
       Some (NewsService.get_latest_player_news p 5 players).
Proof.
  intros Hp. destruct (split_from_piece _ [] Hp) as [H1 H2].
  simpl in H1, H2. rewrite string_of_list_ascii_of_string in H1, H2.
  assert (Ha : Bot.player_of ("player_" ++ p) = Some p).
  { unfold Bot.player_of, Bot.split_underscore.
    rewrite list_ascii_of_string_app. simpl. now rewrite H1. }
  assert (Hb : Bot.player_of ("player_" ++ p ++ "_" ++ rest) = Some p).
  { unfold Bot.player_of, Bot.split_underscore.
    rewrite !list_ascii_of_string_app. simpl. now rewrite H2. }
  unfold Bot.player_items. rewrite Ha, Hb. repeat split.
Qed.

Lemma player_of_callback_witness :
  Forall (fun c => c <> "_"%char) (list_ascii_of_string "yuurih")
  /\ Bot.player_of ("player_" ++ "yuurih") = Some "yuurih"
  /\ Bot.player_of ("player_" ++ "yuurih" ++ "_" ++ "fps") = Some "yuurih"
  /\ Bot.player_items ("player_" ++ "yuurih") [Samples.seen_player_doc] =
       Some (NewsService.get_latest_player_news "yuurih" 5 [Samples.seen_player_doc])
  /\ Bot.player_items ("player_" ++ "yuurih" ++ "_" ++ "fps") [Samples.seen_player_doc] =
       Some (NewsService.get_latest_player_news "yuurih" 5 [Samples.seen_player_doc]).
Proof.
  assert (H : Forall (fun c => c <> "_"%char) (list_ascii_of_string "yuurih"))
    by (repeat constructor; discriminate).
  split; [exact H|].
  apply (player_of_callback "yuurih" "fps" [Samples.seen_player_doc] H).
Defined.

(* ===================================================================== *)
(** * Dashboard: what the code shows beyond the specification             *)
(* ===================================================================== *)

Lemma xp_distribution_fold (users : list UserModel.user) (b : string) :
  forall d : gmap string Z,
  let c := length (List.filter
                     (fun u => String.eqb (AnalyticsService.xp_bucket (UserModel.xp u)) b)
                     users) in
  fold_left (fun d u => <[AnalyticsService.xp_bucket (UserModel.xp u) :=
                            default 0 (d !! AnalyticsService.xp_bucket (UserModel.xp u)) + 1]> d)
            users d !! b =
  if decide (c = 0%nat) then d !! b else Some (default 0 (d !! b) + Z.of_nat c).
Proof.
  induction users as [|u users IH]; intros d; [reflexivity|].
  cbn [fold_left List.filter]. cbv zeta in IH |- *. rewrite IH.
  destruct (String.eqb_spec (AnalyticsService.xp_bucket (UserModel.xp u)) b) as [->|Hne].
  - rewrite lookup_insert_eq. cbn [default length].
    rewrite (decide_False (P := S _ = 0%nat)) by lia. unfold id.
    destruct (decide (_ = 0%nat)) as [->|_]; f_equal; lia.
  - rewrite lookup_insert_ne by exact Hne. reflexivity.
Qed.

Lemma xp_distribution_total (users : list UserModel.user) : forall d : gmap string Z,
  map_fold (fun _ c acc => c + acc) 0
    (fold_left (fun d u => <[AnalyticsService.xp_bucket (UserModel.xp u) :=
                              default 0 (d !! AnalyticsService.xp_bucket (UserModel.xp u)) + 1]> d)
               users d) =
  map_fold (fun _ c acc => c + acc) 0 d + Z.of_nat (length users).
Proof.
  induction users as [|u users IH]; intros d; [simpl; lia|].
  cbn [fold_left length]. rewrite IH. rewrite Nat2Z.inj_succ.
  set (b := AnalyticsService.xp_bucket (UserModel.xp u)).
  destruct (d !! b) as [c|] eqn:Hb; cbn [default].
  - rewrite <- (insert_delete_eq d b (c + 1)).
    rewrite (map_fold_insert_L (fun _ c acc => c + acc) 0 b (c + 1) (delete b d));
      [|intros; simpl; lia|apply lookup_delete_eq].
    rewrite (map_fold_delete_L (fun _ c acc => c + acc) 0 b c d);
      [|intros; simpl; lia|exact Hb].
    lia.
  - rewrite (map_fold_insert_L (fun _ c acc => c + acc) 0 b (0 + 1) d);
      [|intros; simpl; lia|exact Hb].
    lia.
Qed.

(** X20.  The experience histogram of the dashboard counts every user
    once: a label maps to the number of users in its range and is absent
    when there is none, and the counts add up to the number of users.  The
    ranges are half open: below 100 (negative values included), from 100
    to below 500, from 500 to below 1000, from 1000 to below 5000, and
    5000 or more. *)
Theorem xp_distribution_counts (now days : Z) (users : list UserModel.user) :
  (forall b : string,
     AnalyticsService.xp_distribution_of
       (AnalyticsService.get_engagement_metrics now days users) !! b =
     if decide (length (List.filter
                  (fun u => String.eqb (AnalyticsService.xp_bucket (UserModel.xp u)) b)
                  users) = 0%nat)
     then None
     else Some (Z.of_nat (length (List.filter
                  (fun u => String.eqb (AnalyticsService.xp_bucket (UserModel.xp u)) b)
                  users))))
  /\ map_fold (fun _ c acc => c + acc) 0
       (AnalyticsService.xp_distribution_of
          (AnalyticsService.get_engagement_metrics now days users)) =
     Z.of_nat (length users)
  /\ forall x : Z,
       (AnalyticsService.xp_bucket x = "0-100" <-> x < 100)
       /\ (AnalyticsService.xp_bucket x = "100-500" <-> 100 <= x < 500)
       /\ (AnalyticsService.xp_bucket x = "500-1000" <-> 500 <= x < 1000)
       /\ (AnalyticsService.xp_bucket x = "1000-5000" <-> 1000 <= x < 5000)
       /\ (AnalyticsService.xp_bucket x = "5000+" <-> 5000 <= x).
Proof.
  split; [|split].
  - intros b. cbn [AnalyticsService.get_engagement_metrics AnalyticsService.xp_distribution_of].
    unfold AnalyticsService.xp_distribution.
    pose proof (xp_distribution_fold users b ∅) as H. cbv zeta in H. rewrite H.
    rewrite lookup_empty. reflexivity.
  - cbn [AnalyticsService.get_engagement_metrics AnalyticsService.xp_distribution_of].
    unfold AnalyticsService.xp_distribution.
    rewrite xp_distribution_total. now rewrite map_fold_empty.
  - intros x. unfold AnalyticsService.xp_bucket.
    destruct (Z.ltb_spec x 100); [repeat split; intros; try discriminate; try lia; reflexivity|].
    destruct (Z.ltb_spec x 500); [repeat split; intros; try discriminate; try lia; reflexivity|].
    destruct (Z.ltb_spec x 1000); [repeat split; intros; try discriminate; try lia; reflexivity|].
    destruct (Z.ltb_spec x 5000); repeat split; intros; try discriminate; try lia; reflexivity.
Qed.

Lemma interactions_fold (users : list UserModel.user) : forall acc,
  fold_left (fun acc u => acc + UserModel.bot_interactions (UserModel.metrics u)) users acc =
  acc + fold_right (fun u n => UserModel.bot_interactions (UserModel.metrics u) + n) 0 users.
Proof.
  induction users as [|u users IH]; intros acc; simpl; [lia|]. rewrite IH. lia.
Qed.

Lemma total_bot_interactions_sum (users : list UserModel.user) :
  AnalyticsService.total_bot_interactions users =
  fold_right (fun u n => UserModel.bot_interactions (UserModel.metrics u) + n) 0 users.
Proof.
  unfold AnalyticsService.total_bot_interactions.
  destruct users as [|u users]; [reflexivity|]. now rewrite interactions_fold.
Qed.

Lemma interactions_update_one (q : UserModel.user -> bool)
      (f : UserModel.user -> UserModel.user) (users : list UserModel.user)
      (u : UserModel.user) :
  Mongo.find_one q users = Some u ->
  fold_right (fun u n => UserModel.bot_interactions (UserModel.metrics u) + n) 0
             (Mongo.update_one q f users) =
  fold_right (fun u n => UserModel.bot_interactions (UserModel.metrics u) + n) 0 users
  - UserModel.bot_interactions (UserModel.metrics u)
  + UserModel.bot_interactions (UserModel.metrics (f u)).
Proof.
  unfold Mongo.find_one. induction users as [|d users IH]; simpl; [discriminate|].
  destruct (q d).
  - intros [= ->]. simpl. lia.
  - intros Hu. simpl. rewrite (IH Hu). lia.
Qed.

(** X21.  On the dashboard every [add_xp] shows as exactly one more bot
    interaction in total, and the experience histogram still counts the
    same number of users. *)
Theorem add_xp_on_dashboard (now days now1 now2 tid g : Z) (users : list UserModel.user)
        (u : UserModel.user) :
  UserModel.get_user tid users = Some u ->
  0 <= UserModel.xp u + g ->
  exists r users',
    UserModel.add_xp now1 now2 tid g users = Py.Ok (r, users')
    /\ AnalyticsService.total_bot_interactions_of
         (AnalyticsService.get_engagement_metrics now days users') =
       AnalyticsService.total_bot_interactions_of
         (AnalyticsService.get_engagement_metrics now days users) + 1
    /\ map_fold (fun _ c acc => c + acc) 0
         (AnalyticsService.xp_distribution_of
            (AnalyticsService.get_engagement_metrics now days users')) =
       map_fold (fun _ c acc => c + acc) 0
         (AnalyticsService.xp_distribution_of
            (AnalyticsService.get_engagement_metrics now days users)).
Proof.
  intros Hu Hx.
  pose proof (find_one_matches _ _ _ Hu) as Hq.
  set (sp := UserModel.set_progress (UserModel.xp u + g)
               (1 + UserModel.pow08_floor (UserModel.xp u + g)) now1 now2).
  set (users' := Mongo.update_one (UserModel.by_telegram_id tid) UserModel.inc_bot_interactions
                   (Mongo.update_one (UserModel.by_telegram_id tid) sp users)).
  assert (Hadd : exists r, UserModel.add_xp now1 now2 tid g users = Py.Ok (r, users')).
  { unfold UserModel.add_xp. rewrite Hu, level_for_xp_nonneg by exact Hx.
    eexists. reflexivity. }
  destruct Hadd as [r Hadd]. exists r, users'. split; [exact Hadd|].
  assert (Hs1 : Mongo.find_one (UserModel.by_telegram_id tid)
                  (Mongo.update_one (UserModel.by_telegram_id tid) sp users) = Some (sp u))
    by (apply find_one_update_one; assumption).
  split.
  - cbn [AnalyticsService.get_engagement_metrics AnalyticsService.total_bot_interactions_of].
    rewrite !total_bot_interactions_sum. subst users'.
    rewrite (interactions_update_one _ _ _ _ Hs1).
    rewrite (interactions_update_one _ _ _ _ Hu). simpl. lia.
  - cbn [AnalyticsService.get_engagement_metrics AnalyticsService.xp_distribution_of].
    unfold AnalyticsService.xp_distribution. rewrite !xp_distribution_total.
    subst users'. now rewrite !update_one_length.
Qed.

Lemma add_xp_on_dashboard_witness :
  (UserModel.get_user 7 [Samples.model_fan] = Some Samples.model_fan
   /\ 0 <= UserModel.xp Samples.model_fan + 10)
  /\ exists r users',
    UserModel.add_xp 1 2 7 10 [Samples.model_fan] = Py.Ok (r, users')
    /\ AnalyticsService.total_bot_interactions_of
         (AnalyticsService.get_engagement_metrics 9 30 users') =
       AnalyticsService.total_bot_interactions_of
         (AnalyticsService.get_engagement_metrics 9 30 [Samples.model_fan]) + 1
    /\ map_fold (fun _ c acc => c + acc) 0
         (AnalyticsService.xp_distribution_of
            (AnalyticsService.get_engagement_metrics 9 30 users')) =
       map_fold (fun _ c acc => c + acc) 0
         (AnalyticsService.xp_distribution_of
            (AnalyticsService.get_engagement_metrics 9 30 [Samples.model_fan])).
Proof.
  split.
  - split; [reflexivity|simpl; lia].
  - apply (add_xp_on_dashboard 9 30 1 2 7 10 [Samples.model_fan] Samples.model_fan);
      [reflexivity|simpl; lia].
Defined.

(** X22.  When [players.json] cannot be read the registry is empty, and a
    tweet fetch for any player then makes no request, stores nothing and
    logs that the handle is not configured. *)
Theorem unreadable_registry_disables_player_fetch (w : NewsService.world)
        (player : string) (st : NewsService.state) :
  PlayerService.get_twitter_handle (PlayerService.load None) player = None
  /\ NewsService.fetch_player_tweets w (PlayerService.load None) player st =
       (Py.Ok tt,
        NewsService.add_log
          (NewsService.LogError
             ("Error fetching tweets for " ++ player ++ ": "
              ++ "Twitter handle não configurado para " ++ player)) st)
  /\ NewsService.player_news
       (snd (NewsService.fetch_player_tweets w (PlayerService.load None) player st)) =
     NewsService.player_news st.
Proof.
  pose proof (load_unreadable player) as Hnone.
  split; [exact Hnone|].
  unfold NewsService.fetch_player_tweets, NewsService.fetch_player_tweets_try.
  rewrite Hnone. split; reflexivity.
Qed.
